(** * pypub: the EpubBuilder pipeline of [src/pypub/builder.py]

    A shallow embedding of the builder: the string and path helpers the
    code calls, a small model of the file system and of the zip archive it
    writes, the builder object, and the methods [begin], [render_chapter],
    [index], [compress], [finalize], [cleanup], [__enter__] and [__exit__]
    in a state-and-exception monad.  The theorems about them follow the
    definitions. *)

From Stdlib Require Import String Ascii List Bool Arith Lia ZArith.
Import ListNotations.
Local Open Scope list_scope.
Local Open Scope string_scope.

Set Implicit Arguments.
Set Warnings "-register-all".

(* ===================================================================== *)
(** ** Python strings: the [str] methods and [os.path] functions used   *)
(* ===================================================================== *)

Module PyStr.

(** [s[n:]] *)
Fixpoint skip (n : nat) (s : string) : string :=
  match n, s with
  | O, _ => s
  | S _, EmptyString => EmptyString
  | S n', String _ s' => skip n' s'
  end.

(** [s.startswith(p)] *)
Definition startswith (p s : string) : bool := String.prefix p s.

(** [s.endswith('/')] *)
Fixpoint endswith_slash (s : string) : bool :=
  match s with
  | EmptyString => false
  | String c EmptyString => Ascii.eqb c "/"
  | String _ s' => endswith_slash s'
  end.

(** [s.partition(sep)] at the leftmost occurrence of a non-empty [sep];
    [None] when [sep] does not occur. *)
Fixpoint partition (sep s : string) {struct s} : option (string * string) :=
  if String.prefix sep s then Some (EmptyString, skip (String.length sep) s)
  else match s with
       | EmptyString => None
       | String c s' =>
           match partition sep s' with
           | Some (a, b) => Some (String c a, b)
           | None => None
           end
       end.

(** [s.rpartition(sep)] at the rightmost occurrence of a non-empty
    [sep]; [None] when [sep] does not occur. *)
Fixpoint rpartition (sep s : string) {struct s} : option (string * string) :=
  match s with
  | EmptyString => None
  | String c s' =>
      match rpartition sep s' with
      | Some (a, b) => Some (String c a, b)
      | None =>
          if String.prefix sep s
          then Some (EmptyString, skip (String.length sep) s)
          else None
      end
  end.

(** [s.rsplit(sep, 1)[0]] *)
Definition rsplit1_first (sep s : string) : string :=
  match rpartition sep s with
  | Some (a, _) => a
  | None => s
  end.

(** [s.rsplit(sep, 1)[-1]] *)
Definition rsplit1_last (sep s : string) : string :=
  match rpartition sep s with
  | Some (_, b) => b
  | None => s
  end.

(** [s.split(sep, 1)[1]]: the text after the leftmost occurrence;
    [None] stands for the [IndexError] of a one-element result. *)
Definition split1_second (sep s : string) : option string :=
  match partition sep s with
  | Some (_, b) => Some b
  | None => None
  end.

(** [all(c == '/' for c in s)] *)
Fixpoint all_slashes (s : string) : bool :=
  match s with
  | EmptyString => true
  | String c s' => Ascii.eqb c "/" && all_slashes s'
  end.

(** [s.rstrip('/')] *)
Fixpoint rstrip_slash (s : string) : string :=
  match s with
  | EmptyString => EmptyString
  | String c s' =>
      let r := rstrip_slash s' in
      if Ascii.eqb c "/" && String.eqb r EmptyString then EmptyString
      else String c r
  end.

(** [s.lstrip('/')] *)
Fixpoint lstrip_slash (s : string) : string :=
  match s with
  | EmptyString => EmptyString
  | String c s' => if Ascii.eqb c "/" then lstrip_slash s' else s
  end.

(** [posixpath.join(a, b)] *)
Definition join (a b : string) : string :=
  if startswith "/" b then b
  else if String.eqb a EmptyString || endswith_slash a then a ++ b
  else a ++ "/" ++ b.

(** [posixpath.basename(p)]: what follows the last slash. *)
Definition basename (p : string) : string :=
  match rpartition "/" p with
  | Some (_, b) => b
  | None => p
  end.

(** [posixpath.dirname(p)]: the text up to and including the last
    slash, with trailing slashes removed unless it is made of slashes
    only. *)
Definition dirname (p : string) : string :=
  let head := match rpartition "/" p with
              | Some (a, _) => a ++ "/"
              | None => EmptyString
              end in
  if negb (String.eqb head EmptyString) && negb (all_slashes head)
  then rstrip_slash head
  else head.

(** [s.split('/')] *)
Fixpoint split_slash (s : string) : list string :=
  match s with
  | EmptyString => [EmptyString]
  | String c s' =>
      if Ascii.eqb c "/" then EmptyString :: split_slash s'
      else match split_slash s' with
           | [] => [String c EmptyString]
           | h :: t => String c h :: t
           end
  end.

(** The last component of a path, trailing slashes apart. *)
Definition last_component (p : string) : string :=
  last (filter (fun c => negb (String.eqb c EmptyString)) (split_slash p))
       EmptyString.

(** Whether a path names its directory by [.] or [..]. *)
Definition ends_in_dot (p : string) : bool :=
  String.eqb (last_component p) "." || String.eqb (last_component p) "..".

End PyStr.


(* ===================================================================== *)
(** ** The file system and the zip archives stored in it                 *)
(* ===================================================================== *)

(** [zipfile.ZIP_STORED] and [zipfile.ZIP_DEFLATED]. *)
Inductive ZipMethod : Type := ZIP_STORED | ZIP_DEFLATED.

(** What a regular file holds: plain data (bytes, or text already
    encoded), or a zip archive: its members in the order they were
    written, each with its name, compression method and data, and whether
    the archive has been closed (its central directory written). *)
Inductive content : Type :=
| Data (d : string)
| Zip (closed : bool) (members : list (string * ZipMethod * content)).

Definition ZipMember : Type := (string * ZipMethod * content)%type.
Definition m_name (m : ZipMember) : string := fst (fst m).
Definition m_method (m : ZipMember) : ZipMethod := snd (fst m).
Definition m_data (m : ZipMember) : content := snd m.

(** A directory tree.  The entries of a directory are kept in the order
    in which [os.listdir] and [os.scandir] report them; the model puts
    a new entry last, where a file system is free in its order. *)
Inductive node : Type :=
| File (c : content)
| Dir (entries : list (string * node)).

(** The error numbers behind the [OSError] subclasses the code can meet. *)
Inductive errno : Type :=
| ENOENT | EEXIST | EISDIR | ENOTDIR | ENOTEMPTY | EINVAL.

Module FS.

Definition is_dir (n : node) : bool :=
  match n with Dir _ => true | File _ => false end.

Fixpoint assoc (k : string) (es : list (string * node)) : option node :=
  match es with
  | [] => None
  | (k', v) :: es' => if String.eqb k k' then Some v else assoc k es'
  end.

(** Replace the entry [k] where it stands, or add it as the last one. *)
Fixpoint set_entry (k : string) (v : node) (es : list (string * node))
  : list (string * node) :=
  match es with
  | [] => [(k, v)]
  | (k', v') :: es' =>
      if String.eqb k k' then (k', v) :: es'
      else (k', v') :: set_entry k v es'
  end.

Fixpoint del_entry (k : string) (es : list (string * node))
  : list (string * node) :=
  match es with
  | [] => []
  | (k', v') :: es' =>
      if String.eqb k k' then del_entry k es'
      else (k', v') :: del_entry k es'
  end.

(** The node reached from [n] along the components [p]. *)
Fixpoint lookup (p : list string) (n : node) : option node :=
  match p with
  | [] => Some n
  | c :: p' =>
      match n with
      | File _ => None
      | Dir es =>
          match assoc c es with
          | Some ch => lookup p' ch
          | None => None
          end
      end
  end.

(** Change what stands at [p]: [f] receives the node there, if any, and
    answers with an error, a new node, or [None] to remove it.  Every
    directory on the way must exist. *)
Fixpoint alter (p : list string) (f : option node -> errno + option node)
         (o : option node) : errno + option node :=
  match p with
  | [] => f o
  | c :: p' =>
      match o with
      | None => inl ENOENT
      | Some (File _) => inl ENOTDIR
      | Some (Dir es) =>
          match alter p' f (assoc c es) with
          | inl e => inl e
          | inr (Some v) => inr (Some (Dir (set_entry c v es)))
          | inr None => inr (Some (Dir (del_entry c es)))
          end
      end
  end.

(** [alter] at the root of the file system, which cannot go away. *)
Definition alter_root (p : list string)
           (f : option node -> errno + option node) (root : node)
  : errno + node :=
  match alter p f (Some root) with
  | inl e => inl e
  | inr (Some r) => inr r
  | inr None => inr (Dir [])
  end.

(** [os.makedirs(p)] with [exist_ok=False]: the missing directories on
    the way are made, the last one must not exist. *)
Fixpoint makedirs_from (p : list string) (o : option node) : errno + node :=
  match o, p with
  | None, [] => inr (Dir [])
  | None, c :: p' =>
      match makedirs_from p' None with
      | inr v => inr (Dir [(c, v)])
      | inl e => inl e
      end
  | Some (File _), [] => inl EEXIST
  | Some (File _), _ :: _ => inl ENOTDIR
  | Some (Dir _), [] => inl EEXIST
  | Some (Dir es), c :: p' =>
      match makedirs_from p' (assoc c es) with
      | inr v => inr (Dir (set_entry c v es))
      | inl e => inl e
      end
  end.

Definition makedirs (p : list string) (root : node) : errno + node :=
  makedirs_from p (Some root).

(** [os.mkdir(p)] *)
Definition mkdir (p : list string) (root : node) : errno + node :=
  alter_root p (fun o => match o with
                         | Some _ => inl EEXIST
                         | None => inr (Some (Dir []))
                         end) root.

(** Create or replace the regular file at [p] ([open(p, 'w')] followed
    by the writes, and [shutil.copyfile]'s destination). *)
Definition write (p : list string) (c : content) (root : node)
  : errno + node :=
  alter_root p (fun o => match o with
                         | Some (Dir _) => inl EISDIR
                         | _ => inr (Some (File c))
                         end) root.

(** The content of the regular file at [p]. *)
Definition read (p : list string) (root : node) : errno + content :=
  match lookup p root with
  | Some (File c) => inr c
  | Some (Dir _) => inl EISDIR
  | None => inl ENOENT
  end.

(** [os.listdir(p)] *)
Definition listdir (p : list string) (root : node) : errno + list string :=
  match lookup p root with
  | Some (Dir es) => inr (map fst es)
  | Some (File _) => inl ENOTDIR
  | None => inl ENOENT
  end.

(** The directory at [p] is removed with all it holds; nothing else
    than a directory is. *)
Definition rmtree (p : list string) (root : node) : errno + node :=
  alter_root p (fun o => match o with
                         | Some (Dir _) => inr None
                         | Some (File _) => inl ENOTDIR
                         | None => inl ENOENT
                         end) root.

Fixpoint is_prefix (p q : list string) : bool :=
  match p, q with
  | [], _ => true
  | _ :: _, [] => false
  | a :: p', b :: q' => String.eqb a b && is_prefix p' q'
  end.

Definition same_path (p q : list string) : bool :=
  is_prefix p q && is_prefix q p.

(** [os.rename(src, dst)]: the node at [src] moves to [dst], replacing
    a regular file, or an empty directory when [src] is a directory. *)
Definition rename (src dst : list string) (root : node) : errno + node :=
  match lookup src root with
  | None => inl ENOENT
  | Some n =>
      if same_path src dst then inr root
      else if is_prefix src dst then inl EINVAL
      else
        match alter_root src (fun _ => inr None) root with
        | inl e => inl e
        | inr root' =>
            alter_root dst
              (fun o =>
                 match o, n with
                 | None, _ => inr (Some n)
                 | Some (File _), File _ => inr (Some n)
                 | Some (File _), Dir _ => inl ENOTDIR
                 | Some (Dir _), File _ => inl EISDIR
                 | Some (Dir []), Dir _ => inr (Some n)
                 | Some (Dir (_ :: _)), Dir _ => inl ENOTEMPTY
                 end) root'
        end
  end.

(** [os.walk(top)] over the tree [n] found at [top], top-down: the
    directory itself with the names of its sub-directories and of its
    other entries, then each sub-directory in turn (a regular file
    contributes nothing, so the inner loop may run over all entries). *)
Fixpoint walk (top : string) (n : node)
  : list (string * list string * list string) :=
  match n with
  | File _ => []
  | Dir es =>
      (top,
       map fst (filter (fun e => is_dir (snd e)) es),
       map fst (filter (fun e => negb (is_dir (snd e))) es))
      :: (fix sub (l : list (string * node)) :=
            match l with
            | [] => []
            | (name, ch) :: l' => (walk (PyStr.join top name) ch ++ sub l')%list
            end) es
  end.

(** The meaning of a path string: its components from the root, after
    the current directory for a relative path, with [.] and empty
    components dropped and [..] going one level up.  The path is read
    as text: [..] drops the component before it whether or not it
    exists, and there are no links. *)
Definition norm_step (stack : list string) (c : string) : list string :=
  if String.eqb c "" || String.eqb c "." then stack
  else if String.eqb c ".." then tl stack
  else c :: stack.

Definition resolve (cwd : list string) (path : string) : list string :=
  rev (fold_left norm_step (PyStr.split_slash path)
                 (if PyStr.startswith "/" path then [] else rev cwd)).

(** The stack [resolve] starts from. *)
Definition start (cwd : list string) (path : string) : list string :=
  if PyStr.startswith "/" path then [] else rev cwd.

(** What the operating system checks while it follows a path to a
    directory: each named component must be a directory where it is
    met, also one that a later [..] leaves again. *)
Fixpoint traverse (root : node) (comps : list string) (stack : list string)
  : errno + unit :=
  match comps with
  | [] => inr tt
  | c :: rest =>
      if String.eqb c "" || String.eqb c "." then traverse root rest stack
      else if String.eqb c ".." then traverse root rest (tl stack)
      else match lookup (rev (c :: stack)) root with
           | Some (Dir _) => traverse root rest (c :: stack)
           | Some (File _) => inl ENOTDIR
           | None => inl ENOENT
           end
  end.

(** The directory at [p] loses all it holds and stays. *)
Definition clear (p : list string) (root : node) : errno + node :=
  alter_root p (fun o => match o with
                         | Some (Dir _) => inr (Some (Dir []))
                         | Some (File _) => inl ENOTDIR
                         | None => inl ENOENT
                         end) root.

(** [shutil.rmtree(path)] for the path string [path], which [p]
    resolves: the path must lead to a directory; what the directory
    holds is removed, and then the directory itself with [rmdir(path)],
    which fails for a path that ends in [.] or [..]: that directory
    stays, emptied. *)
Definition rmtree_path (cwd : list string) (path : string)
           (p : list string) (root : node) : errno + node :=
  match traverse root (PyStr.split_slash path) (start cwd path) with
  | inl e => inl e
  | inr _ => if PyStr.ends_in_dot path then clear p root else rmtree p root
  end.

(** Whether [path] leads to a directory. *)
Definition names_directory (root : node) (cwd : list string) (path : string)
  : bool :=
  negb (String.eqb path "")
  && match traverse root (PyStr.split_slash path) (start cwd path) with
     | inr _ => true
     | inl _ => false
     end
  && match lookup (resolve cwd path) root with
     | Some (Dir _) => true
     | _ => false
     end.

(** A name a directory entry can have. *)
Fixpoint has_slash (s : string) : bool :=
  match s with
  | EmptyString => false
  | String c s' => Ascii.eqb c "/" || has_slash s'
  end.

Definition valid_name (k : string) : bool :=
  negb (String.eqb k "") && negb (String.eqb k ".")
  && negb (String.eqb k "..") && negb (has_slash k).

Fixpoint fresh (k : string) (es : list (string * node)) : bool :=
  match es with
  | [] => true
  | (k', _) :: es' => negb (String.eqb k k') && fresh k es'
  end.

(** A tree as a file system holds it: in every directory the names are
    valid and no name occurs twice. *)
Fixpoint wf (n : node) : bool :=
  match n with
  | File _ => true
  | Dir es =>
      (fix go (l : list (string * node)) : bool :=
         match l with
         | [] => true
         | (k, ch) :: l' => valid_name k && fresh k l' && wf ch && go l'
         end) es
  end.

(** Neither path leads through the other. *)
Definition apart (p q : list string) : bool :=
  negb (is_prefix p q) && negb (is_prefix q p).

End FS.

(* ===================================================================== *)
(** ** The data classes of [builder.py]                                  *)
(* ===================================================================== *)

(** [class Assignment] *)
Record Assignment : Type := mkAssignment {
  a_id : string;
  a_link : string;
  a_play_order : Z
}.

(** [class EpubDirs] *)
Record EpubDirs : Type := mkEpubDirs {
  basedir : string;
  oebps : string;
  metainf : string;
  images : string;
  styles : string
}.

(** [class MimeFile] *)
Record MimeFile : Type := mkMimeFile {
  mf_name : string;
  mf_mime : string
}.

(** Modelled from the spec: [Chapter] is imported from [pypub/chapter.py],
    which is not among the sources; the builder reads its [title] only.
    The spec's Page is "a title and body content". *)
Record Chapter : Type := mkChapter {
  ch_title : string;
  ch_content : string
}.

(** [AssignedChapter = Tuple[Assignment, Chapter]] *)
Definition AssignedChapter : Type := (Assignment * Chapter)%type.

(** [class EpubSpec].  The fields [factory] and [logger] are the
    collaborators of [Env] below; [date] is kept as its text. *)
Record EpubSpec : Type := mkEpubSpec {
  title : string;
  creator : string;
  subtitle : string;
  language : string;
  rights : string;
  publisher : string;
  encoding : string;
  date : string;
  epub_dir : option string;
  css_paths : list string
}.

(** The keyword arguments handed to a template: the three dictionaries
    built in [begin], [render_chapter] and [index]. *)
Inductive Kwargs : Type :=
| CoverKw (epub : EpubSpec) (styles : list string)
| ChapterKw (epub : EpubSpec) (chapter : Chapter)
| IndexKw (uid : string) (epub : EpubSpec) (styles : list string)
          (chapters : list AssignedChapter) (images : list MimeFile).

(** Python exceptions. *)
Inductive exn : Type :=
| RuntimeError (msg : string)
| OSError (e : errno) (path : string)
| SameFileError (src dst : string)
| ValueError (msg : string)
| IndexError (msg : string)
| CollaboratorError (kind msg : string).

(** The outcome of a call: a value, or a raised exception. *)
Inductive Res (A : Type) : Type :=
| Ok (a : A)
| Raise (e : exn).
Arguments Ok {A} a.
Arguments Raise {A} e.

(** The collaborators the module reaches through globals and through the
    [EpubSpec]: the jinja2 environment ([jinja_env.get_template] and
    [Template.render]), the chapter factory ([epub.factory.render], which
    may read and write files), [tempfile.mkdtemp]'s choice of names,
    [uuid.uuid4] and the directory [BASE] of the installed package. *)
Record Env : Type := mkEnv {
  Template : Type;
  get_template : string -> Res Template;
  template_render : Template -> Kwargs -> Res string;
  factory_render :
    Chapter -> string -> Template -> Kwargs -> node -> Res string * node;
  gettempname : nat -> string;
  uuid4 : string;
  BASE : string
}.

(** What the run leaves behind for an observer: the debug lines given to
    the logger, the calls to the collaborators, and the changes made to
    the file system, oldest first. *)
Inductive LogLine : Type :=
| LogRenderingChapter (play_order : Z) (chapter_title : string)
| LogWritingTemplates (epub_title : string)
| LogZipping (epub_title : string).

Inductive event : Type :=
| EvDebug (l : LogLine)
| EvGetTemplate (name : string)
| EvTemplateRender (kw : Kwargs)
| EvFactoryRender (ch : Chapter) (images_dir : string) (kw : Kwargs)
| EvMkdtemp (path : string)
| EvMakedirs (path : string)
| EvCopyfile (src dst : string)
| EvOpenW (path : string)
| EvWrite (path : string)
| EvZipOpen (path : string)
| EvZipWrite (zip real arcname : string) (method : ZipMethod)
| EvZipClose (path : string)
| EvRename (src dst : string)
| EvRmtree (path : string).

(* ===================================================================== *)
(** ** The builder object, the world it runs in, and the monad           *)
(* ===================================================================== *)

Section Builder.

Context (E : Env).

(** The fields of an [EpubBuilder] instance ([self.logger] and
    [self.factory] are collaborators of [E]). *)
Record EpubBuilder : Type := mkEpubBuilder {
  uid : string;
  epub : EpubSpec;
  b_encoding : string;
  dirs : option EpubDirs;
  template : option (Template E);
  chapters : list AssignedChapter
}.

(** The builder together with what it acts on: the file system, the
    current directory of the process, the number of temporary names
    handed out, and the trace of what happened. *)
Record World : Type := mkWorld {
  self : EpubBuilder;
  fs : node;
  cwd : list string;
  ntmp : nat;
  trace : list event
}.

(** A computation changes the world and returns or raises; what it
    changed before raising stays changed. *)
Definition M (A : Type) : Type := World -> Res A * World.

Definition ret {A} (a : A) : M A := fun w => (Ok a, w).

Definition bind {A B} (c : M A) (k : A -> M B) : M B :=
  fun w => match c w with
           | (Ok a, w') => k a w'
           | (Raise e, w') => (Raise e, w')
           end.

Definition raise {A} (e : exn) : M A := fun w => (Raise e, w).

Definition lift_res {A} (r : Res A) : M A := fun w => (r, w).

Notation "x <- c ;; k" := (bind c (fun x => k))
  (at level 61, c at next level, right associativity).
Notation "c ;; k" := (bind c (fun _ => k))
  (at level 61, right associativity).

(** [for x in l: body(x)] *)
Fixpoint for_each {A} (l : list A) (body : A -> M unit) : M unit :=
  match l with
  | [] => ret tt
  | x :: l' => body x ;; for_each l' body
  end.

(** [try: body finally: fin], as the [with] statement needs it: [fin]
    runs whether [body] returned or raised; an exception of [fin]
    replaces the outcome of [body]. *)
Definition try_finally {A} (body : M A) (fin : M unit) : M A :=
  fun w => let (r, w1) := body w in
           match fin w1 with
           | (Ok _, w2) => (r, w2)
           | (Raise e, w2) => (Raise e, w2)
           end.

Definition get_self : M EpubBuilder := fun w => (Ok (self w), w).

Definition set_self (b : EpubBuilder) : M unit :=
  fun w => (Ok tt, mkWorld b (fs w) (cwd w) (ntmp w) (trace w)).

Definition set_fs (t : node) (w : World) : World :=
  mkWorld (self w) t (cwd w) (ntmp w) (trace w).

Definition emit (ev : event) : M unit :=
  fun w => (Ok tt, mkWorld (self w) (fs w) (cwd w) (ntmp w) (trace w ++ [ev])).

(** [self.dirs = d] *)
Definition set_dirs (d : option EpubDirs) : M unit :=
  s <- get_self ;;
  set_self (mkEpubBuilder (uid s) (epub s) (b_encoding s) d
                          (template s) (chapters s)).

(** [self.template = t] *)
Definition set_template (t : option (Template E)) : M unit :=
  s <- get_self ;;
  set_self (mkEpubBuilder (uid s) (epub s) (b_encoding s) (dirs s)
                          t (chapters s)).

(** [self.chapters.append(ac)] *)
Definition append_chapter (ac : AssignedChapter) : M unit :=
  s <- get_self ;;
  set_self (mkEpubBuilder (uid s) (epub s) (b_encoding s) (dirs s)
                          (template s) (chapters s ++ [ac])).

(** *** The operating system *)

(** A change of the file system at one path; the empty path names
    nothing. *)
Definition fs_update (path : string)
           (op : list string -> node -> errno + node) (ev : event) : M unit :=
  fun w =>
    if String.eqb path "" then (Raise (OSError ENOENT path), w)
    else match op (FS.resolve (cwd w) path) (fs w) with
         | inr t => emit ev (set_fs t w)
         | inl e => (Raise (OSError e path), w)
         end.

Definition fs_query {A} (path : string)
           (op : list string -> node -> errno + A) : M A :=
  fun w =>
    if String.eqb path "" then (Raise (OSError ENOENT path), w)
    else match op (FS.resolve (cwd w) path) (fs w) with
         | inr a => (Ok a, w)
         | inl e => (Raise (OSError e path), w)
         end.

(** [tempfile.mkdtemp()]: a new directory under the next name. *)
Definition mkdtemp : M string :=
  fun w =>
    let name := gettempname E (ntmp w) in
    (fs_update name FS.mkdir (EvMkdtemp name) ;; ret name)
      (mkWorld (self w) (fs w) (cwd w) (S (ntmp w)) (trace w)).

(** [os.makedirs(path)] *)
Definition makedirs (path : string) : M unit :=
  fs_update path FS.makedirs (EvMakedirs path).

(** [open(path, 'w')] and [open(path, 'wb')]: the file is created or
    emptied.  Text is taken as encoded already: an encoding that is
    unknown, or that cannot encode the text written, is outside the
    model. *)
Definition open_w (path : string) : M unit :=
  fs_update path (fun p => FS.write p (Data "")) (EvOpenW path).

(** [f.write(data)] on the file opened at [path]. *)
Definition f_write (path : string) (data : string) : M unit :=
  fs_update path (fun p => FS.write p (Data data)) (EvWrite path).

(** [os.listdir(path)] *)
Definition listdir (path : string) : M (list string) :=
  fs_query path FS.listdir.

(** [shutil.copyfile(src, dst)] *)
Definition copyfile (src dst : string) : M unit :=
  fun w =>
    let same :=
      FS.same_path (FS.resolve (cwd w) src) (FS.resolve (cwd w) dst) in
    match FS.lookup (FS.resolve (cwd w) src) (fs w) with
    | Some _ =>
        if same && negb (String.eqb src "") && negb (String.eqb dst "")
        then (Raise (SameFileError src dst), w)
        else (c <- fs_query src FS.read ;;
              fs_update dst (fun p => FS.write p c) (EvCopyfile src dst)) w
    | None => (Raise (OSError ENOENT src), w)
    end.

(** [shutil.rmtree(path, ignore_errors=True)]: whatever goes wrong is
    ignored, also the [rmdir] that fails at the end for a path that
    ends in [.] or [..]. *)
Definition rmtree_ignore_errors (path : string) : M unit :=
  fun w =>
    match fs_update path (FS.rmtree_path (cwd w) path) (EvRmtree path) w with
    | (Ok _, w') => (Ok tt, w')
    | (Raise _, _) => (Ok tt, w)
    end.

(** [os.rename(src, dst)] *)
Definition rename (src dst : string) : M unit :=
  fun w =>
    if String.eqb src "" || String.eqb dst ""
    then (Raise (OSError ENOENT src), w)
    else match FS.rename (FS.resolve (cwd w) src)
                         (FS.resolve (cwd w) dst) (fs w) with
         | inr t => emit (EvRename src dst) (set_fs t w)
         | inl e => (Raise (OSError e src), w)
         end.

(** [os.walk(top)]: errors of the listing are swallowed. *)
Definition os_walk (top : string)
  : M (list (string * list string * list string)) :=
  fun w =>
    if String.eqb top "" then (Ok [], w)
    else match FS.lookup (FS.resolve (cwd w) top) (fs w) with
         | Some n => (Ok (FS.walk top n), w)
         | None => (Ok [], w)
         end.

(** *** [zipfile.ZipFile] *)

(** [zipfile.ZipFile(path, 'w', ZIP_DEFLATED)]: the file is created at
    once, empty. *)
Definition zip_open (path : string) : M unit :=
  fs_update path (fun p => FS.write p (Zip false [])) (EvZipOpen path).

Definition zip_append (m : ZipMember) (p : list string) (root : node)
  : errno + node :=
  match FS.lookup p root with
  | Some (File (Zip false ms)) => FS.write p (Zip false (ms ++ [m])) root
  | _ => inl EINVAL
  end.

(** [zipf.write(real, arcname, compress_type)] on an archive opened
    with [ZIP_DEFLATED]: the member is named [arcname] without its
    leading slashes, holds what [real] holds now, and is compressed
    with [compress_type], or with the archive's method for [None]. *)
Definition zip_write (zip real arcname : string)
           (compress_type : option ZipMethod) : M unit :=
  c <- fs_query real FS.read ;;
  let method := match compress_type with
                | Some m => m
                | None => ZIP_DEFLATED
                end in
  fs_update zip (zip_append (PyStr.lstrip_slash arcname, method, c))
            (EvZipWrite zip real (PyStr.lstrip_slash arcname) method).

(** [zipf.close()] *)
Definition zip_close (zip : string) : M unit :=
  fs_update zip
    (fun p root => match FS.lookup p root with
                   | Some (File (Zip false ms)) => FS.write p (Zip true ms) root
                   | _ => inl EINVAL
                   end)
    (EvZipClose zip).

(** *** The collaborators *)

(** [jinja_env.get_template(name)] *)
Definition jinja_get_template (name : string) : M (Template E) :=
  emit (EvGetTemplate name) ;; lift_res (get_template E name).

(** [template.render] applied to the keyword arguments [kw] *)
Definition render (t : Template E) (kw : Kwargs) : M string :=
  emit (EvTemplateRender kw) ;; lift_res (template_render E t kw).

(** [self.factory.render(logger, chapter, images, template, kwargs)] *)
Definition factory_call (ch : Chapter) (images_dir : string)
           (t : Template E) (kw : Kwargs) : M string :=
  emit (EvFactoryRender ch images_dir kw) ;;
  fun w => let (r, t') := factory_render E ch images_dir t kw (fs w) in
           (r, set_fs t' w).

(** [self.logger.debug(...)] *)
Definition debug (l : LogLine) : M unit := emit (EvDebug l).

(* =================================================================== *)
(** ** The functions and methods of [builder.py]                       *)
(* =================================================================== *)

(** [STATIC = os.path.join(BASE, 'static/')] *)
Definition STATIC : string := PyStr.join (BASE E) "static/".

(** [basedir or tempfile.mkdtemp()], [if fpath]: [None] and the empty
    string are false. *)
Definition truthy (o : option string) : option string :=
  match o with
  | Some s => if String.eqb s "" then None else Some s
  | None => None
  end.

(** [epub_dirs(basedir)] *)
Definition epub_dirs (basedir0 : option string) : M EpubDirs :=
  basedir <- match truthy basedir0 with
             | Some b => ret b
             | None => mkdtemp
             end ;;
  let oebps := PyStr.join basedir "OEBPS" in
  let metainf := PyStr.join basedir "META-INF" in
  let images := PyStr.join oebps "images" in
  let styles := PyStr.join oebps "styles" in
  makedirs oebps ;;
  makedirs metainf ;;
  makedirs images ;;
  makedirs styles ;;
  ret (mkEpubDirs basedir oebps metainf images styles).

(** [copy_file(src, into)] *)
Definition copy_file (src into : string) : M unit :=
  let fname := PyStr.basename src in
  let dst := PyStr.join into fname in
  copyfile src dst.

(** [copy_static(fpath, into)] *)
Definition copy_static (fpath into : string) : M unit :=
  let src := PyStr.join STATIC fpath in
  copy_file src into.

(** [get_extension(fname)] *)
Definition get_extension (fname : string) : string :=
  PyStr.rsplit1_last "." fname.

(** [render_template(name, into, encoding, kwargs)] *)
Definition render_template (name into encoding : string) (kwargs : Kwargs)
  : M unit :=
  let fname := PyStr.rsplit1_first ".j2" name in
  let dest := PyStr.join into (PyStr.basename fname) in
  template <- jinja_get_template name ;;
  content <- render template kwargs ;;
  open_w dest ;;
  f_write dest content.

(** [EpubBuilder.__init__(self, epub)] *)
Definition init (epub : EpubSpec) : EpubBuilder :=
  mkEpubBuilder (uuid4 E) epub (encoding epub) None None [].

(** [EpubBuilder.begin(self)] *)
Definition begin : M EpubDirs :=
  s <- get_self ;;
  match template s with
  | None => t <- jinja_get_template "page.xhtml.j2" ;; set_template (Some t)
  | Some _ => ret tt
  end ;;
  s <- get_self ;;
  match dirs s with
  | Some d => ret d
  | None =>
      d <- epub_dirs (epub_dir (epub s)) ;;
      set_dirs (Some d) ;;
      copy_static "mimetype" (basedir d) ;;
      copy_static "container.xml" (metainf d) ;;
      copy_static "css/coverpage.css" (styles d) ;;
      copy_static "css/styles.css" (styles d) ;;
      for_each (css_paths (epub s)) (fun path => copy_file path (styles d)) ;;
      let fpath := PyStr.join (oebps d) "coverpage.xhtml" in
      style_names <- listdir (styles d) ;;
      let kwargs := CoverKw (epub s) style_names in
      open_w fpath ;;
      s' <- get_self ;;
      match template s' with
      | Some t =>
          cover <- render t kwargs ;;
          f_write fpath cover ;;
          ret d
      | None => raise (RuntimeError "'NoneType' object has no attribute 'render'")
      end
  end.

(** [EpubBuilder.render_chapter(self, assign, chapter)] *)
Definition render_chapter (assign : Assignment) (chapter : Chapter) : M unit :=
  s <- get_self ;;
  match dirs s, template s with
  | Some d, Some t =>
      append_chapter (assign, chapter) ;;
      debug (LogRenderingChapter (a_play_order assign) (ch_title chapter)) ;;
      let kwargs := ChapterKw (epub s) chapter in
      let fpath := PyStr.join (oebps d) (a_link assign) in
      content <- factory_call chapter (images d) t kwargs ;;
      open_w fpath ;;
      f_write fpath content
  | _, _ => raise (RuntimeError "cannot render_chapter before `begin`")
  end.

(** [EpubBuilder.index(self)] *)
Definition index : M unit :=
  s <- get_self ;;
  match dirs s with
  | None => raise (RuntimeError "cannot index epub before `begin`")
  | Some d =>
      style_names <- listdir (styles d) ;;
      image_names <- listdir (images d) ;;
      let kwargs :=
        IndexKw (uid s) (epub s) style_names (chapters s)
                (map (fun fname => mkMimeFile fname (get_extension fname))
                     image_names) in
      debug (LogWritingTemplates (title (epub s))) ;;
      render_template "book.ncx.j2" (oebps d) (b_encoding s) kwargs ;;
      render_template "book.opf.j2" (oebps d) (b_encoding s) kwargs
  end.

(** The names computed at the head of [compress]: the final path
    [fpath] and the path [fzip] the archive is written under. *)
Definition compress_paths (epub_title : string) (fpath0 : option string)
  : string * string :=
  let fname := match truthy fpath0 with
               | Some p => PyStr.basename p
               | None => epub_title
               end in
  let fname := PyStr.rsplit1_first ".epub" fname ++ ".epub" in
  let fpath := match truthy fpath0 with
               | Some p => PyStr.dirname p
               | None => "."
               end in
  let fpath := PyStr.join fpath fname in
  let fzip := PyStr.rsplit1_first ".epub" fpath ++ ".zip" in
  (fpath, fzip).

(** The body of the outer loop of [compress] for one directory of the
    walk. *)
Definition compress_dir (fzip base : string)
           (entry : string * list string * list string) : M unit :=
  let '(root, _, files) := entry in
  relpath <- (if String.eqb base ""
              then raise (ValueError "empty separator")
              else match PyStr.split1_second base root with
                   | Some r => ret r
                   | None => raise (IndexError "list index out of range")
                   end) ;;
  for_each files (fun file =>
    let real := PyStr.join root file in
    let local := PyStr.join relpath file in
    let method := if String.eqb file "mimetype" then Some ZIP_STORED
                  else None in
    zip_write fzip real local method).

(** [EpubBuilder.compress(self, fpath)] *)
Definition compress (fpath0 : option string) : M string :=
  s <- get_self ;;
  match dirs s with
  | None => raise (RuntimeError "cannot finalize before `begin`")
  | Some d =>
      let '(fpath, fzip) := compress_paths (title (epub s)) fpath0 in
      debug (LogZipping (title (epub s))) ;;
      zip_open fzip ;;
      entries <- os_walk (basedir d) ;;
      for_each entries (compress_dir fzip (basedir d)) ;;
      zip_close fzip ;;
      rename fzip fpath ;;
      ret fpath
  end.

(** [EpubBuilder.finalize(self, fpath)] *)
Definition finalize (fpath0 : option string) : M string :=
  index ;;
  compress fpath0.

(** [EpubBuilder.cleanup(self)] *)
Definition cleanup : M unit :=
  s <- get_self ;;
  match dirs s with
  | Some d =>
      rmtree_ignore_errors (basedir d) ;;
      set_dirs None
  | None => ret tt
  end.

(** [EpubBuilder.__enter__(self)] *)
Definition __enter__ : M unit :=
  begin ;;
  ret tt.

(** [EpubBuilder.__exit__(self, *_)]: returns [None], so an exception
    of the body is not suppressed. *)
Definition __exit__ : M unit :=
  cleanup.

(** [with builder: body]: [__enter__] runs first; when it raises, the
    body and [__exit__] do not run; otherwise [__exit__] runs after the
    body, returned or raised. *)
Definition with_builder {A} (body : M A) : M A :=
  __enter__ ;;
  try_finally body __exit__.

End Builder.

Arguments begin {E} _.
Arguments index {E} _.
Arguments cleanup {E} _.
Arguments __enter__ {E} _.
Arguments __exit__ {E} _.
Arguments get_self {E} _.
Arguments mkdtemp {E} _.

(* ===================================================================== *)
(** ** Callers, and what an archive of a tree should hold                *)
(* ===================================================================== *)

(** One call of a method of the builder by its user. *)
Inductive call : Type :=
| CallBegin
| CallRenderChapter (assign : Assignment) (chapter : Chapter)
| CallIndex
| CallCompress (fpath : option string)
| CallFinalize (fpath : option string)
| CallCleanup.

Section Callers.

Context (E : Env).

Definition do_call (c : call) : M E unit :=
  match c with
  | CallBegin => bind begin (fun _ => ret tt)
  | CallRenderChapter a ch => render_chapter a ch
  | CallIndex => index
  | CallCompress p => bind (compress p) (fun _ => ret tt)
  | CallFinalize p => bind (finalize p) (fun _ => ret tt)
  | CallCleanup => cleanup
  end.

(** A user who makes the calls one after the other, catching whatever
    is raised; the outcomes are kept in order. *)
Fixpoint run_calls (cs : list call) (w : World E) : list (Res unit) * World E :=
  match cs with
  | [] => ([], w)
  | c :: cs' =>
      let (r, w1) := do_call c w in
      let (rs, w2) := run_calls cs' w1 in
      (r :: rs, w2)
  end.

End Callers.

Definition is_begin (c : call) : bool :=
  match c with CallBegin => true | _ => false end.

(** The arguments of the [render_chapter] calls, in call order. *)
Fixpoint render_args (cs : list call) : list AssignedChapter :=
  match cs with
  | [] => []
  | CallRenderChapter a ch :: cs' => (a, ch) :: render_args cs'
  | _ :: cs' => render_args cs'
  end.

Definition is_ok {A} (r : Res A) : bool :=
  match r with Ok _ => true | Raise _ => false end.

(** Every [render_chapter] call of [cs] returned, [rs] being the outcomes
    of [cs]. *)
Fixpoint renders_ok (cs : list call) (rs : list (Res unit)) : bool :=
  match cs, rs with
  | CallRenderChapter _ _ :: cs', r :: rs' => is_ok r && renders_ok cs' rs'
  | _ :: cs', _ :: rs' => renders_ok cs' rs'
  | _, _ => true
  end.

(** The compression method [compress] asks for a file called [file]. *)
Definition method_for (file : string) : ZipMethod :=
  if String.eqb file "mimetype" then ZIP_STORED else ZIP_DEFLATED.

(** The members an archive of the tree [n] should hold, [comps] being the
    way from the base directory to [n]: for each directory, top-down, its
    regular files under their path from the base directory. *)
Fixpoint members_from (comps : list string) (n : node) : list ZipMember :=
  match n with
  | File _ => []
  | Dir es =>
      ((fix files (l : list (string * node)) : list ZipMember :=
          match l with
          | [] => []
          | (k, File c) :: l' =>
              (String.concat "/" (comps ++ [k]), method_for k, c) :: files l'
          | (_, Dir _) :: l' => files l'
          end) es
       ++
       (fix sub (l : list (string * node)) : list ZipMember :=
          match l with
          | [] => []
          | (k, ch) :: l' => members_from (comps ++ [k]) ch ++ sub l'
          end) es)%list
  end.

(** The members of the closed archive at the path [p], if there is one. *)
Definition archive_at (p : list string) (root : node) : option (list ZipMember) :=
  match FS.lookup p root with
  | Some (File (Zip true ms)) => Some ms
  | _ => None
  end.

(** The events [compress] may add while it fills the archive [fzip]. *)
Definition is_zip_write (fzip : string) (ev : event) : Prop :=
  exists real arcname method, ev = EvZipWrite fzip real arcname method.

(* ===================================================================== *)
(** ** Vocabulary of the proofs                                          *)
(* ===================================================================== *)

Section Vocabulary.

Context (E : Env).

(** The computation [c] leaves the part [proj] of the world as it was,
    whether it returns or raises. *)
Definition keeps {A X : Type} (proj : World E -> X) (c : M E A) : Prop :=
  forall w, proj (snd (c w)) = proj w.

(** The computation [c] only adds events to the trace, all of them in
    [P], whether it returns or raises. *)
Definition adds {A : Type} (P : event -> Prop) (c : M E A) : Prop :=
  forall w, exists evs, trace (snd (c w)) = (trace w ++ evs)%list /\ Forall P evs.

(** A part of the world that depends on the builder and on the current
    directory only. *)
Definition inert {X : Type} (proj : World E -> X) : Prop :=
  forall b t d n tr t' n' tr',
    proj (mkWorld b t d n tr) = proj (mkWorld b t' d n' tr').

(** When [c] returns, it returns [a]. *)
Definition yields {A : Type} (a : A) (c : M E A) : Prop :=
  forall w r w', c w = (Ok r, w') -> r = a.

(** The builder has begun: [self.dirs] is set. *)
Definition began (w : World E) : Prop := dirs (self w) <> None.

(** The builder is uninitialized: [self.dirs] is [None]. *)
Definition uninitialized (w : World E) : Prop := dirs (self w) = None.

(** The entries [os.walk] gives for [top]. *)
Definition walk_of (top : string) (w : World E)
  : list (string * list string * list string) :=
  if String.eqb top "" then []
  else match FS.lookup (FS.resolve (cwd w) top) (fs w) with
       | Some n => FS.walk top n
       | None => []
       end.

End Vocabulary.

(** The events that touch the temporary archive [fzip] only, or no file
    at all. *)
Definition on_temp (fzip : string) (ev : event) : Prop :=
  (exists l, ev = EvDebug l)
  \/ ev = EvZipOpen fzip
  \/ (exists real arcname method, ev = EvZipWrite fzip real arcname method)
  \/ ev = EvZipClose fzip.

(** [lookup] from a node that may be missing. *)
Definition lookup_opt (p : list string) (o : option node) : option node :=
  match o with
  | Some n => FS.lookup p n
  | None => None
  end.


(** The strings [os.walk] and [compress] build for the directory reached
    from the base directory [base] along [comps]: the [root] of the walk
    and the [relpath] cut from it. *)
Definition sep_of (base : string) : string :=
  if PyStr.endswith_slash base then "" else "/".

Definition top_of (base : string) (comps : list string) : string :=
  match comps with
  | [] => base
  | _ => base ++ sep_of base ++ String.concat "/" comps
  end.

Definition rel_of (base : string) (comps : list string) : string :=
  match comps with
  | [] => ""
  | _ => sep_of base ++ String.concat "/" comps
  end.

(** The members for the regular files among the entries [es] of the
    directory at [comps]. *)
Definition file_members (comps : list string) (es : list (string * node))
  : list ZipMember :=
  flat_map (fun e => match snd e with
                     | File c => [(String.concat "/" (comps ++ [fst e])%list,
                                   method_for (fst e), c)]
                     | Dir _ => []
                     end) es.

(** The regular files a walk reports, in its order, each with the
    directory it was reported for. *)
Definition walked_files (entries : list (string * list string * list string))
  : list (string * string) :=
  flat_map (fun e => map (fun file => (fst (fst e), file)) (snd e)) entries.

(** The name [compress] gives the member for the file [file] reported
    for the directory [root]: the path from [base], without its leading
    slash. *)
Definition arcname_of (base root file : string) : string :=
  PyStr.lstrip_slash
    (PyStr.join (match PyStr.split1_second base root with
                 | Some rel => rel
                 | None => ""
                 end) file).

(** The walk [compress] runs over: that of the base directory, taken
    once the archive has been created under its temporary name. *)
Definition listing {E : Env} (fpath0 : option string) (w : World E)
  : list (string * list string * list string) :=
  match dirs (self w) with
  | Some d =>
      match FS.write (FS.resolve (cwd w)
                        (snd (compress_paths (title (epub (self w))) fpath0)))
                     (Zip false []) (fs w) with
      | inr t1 => walk_of (basedir d) (set_fs t1 w)
      | inl _ => []
      end
  | None => []
  end.

Section ZipInvariant.

Context (E : Env).

(** While [compress] fills the archive: the archive at [Z] is open and
    holds [ms], and the tree under [B] is the tree [N]. *)
Definition filling (cwd0 B Z : list string) (N : node)
           (w : World E) (ms : list ZipMember) : Prop :=
  cwd w = cwd0
  /\ FS.lookup Z (fs w) = Some (File (Zip false ms))
  /\ forall q, FS.lookup (B ++ q) (fs w) = FS.lookup q N.

End ZipInvariant.


(** Whether a file name has a dot. *)
Fixpoint has_dot (s : string) : bool :=
  match s with
  | EmptyString => false
  | String c s' => Ascii.eqb c "." || has_dot s'
  end.


(** What no method assigns: the uid, the book and the encoding of the
    builder, and the current directory of the process. *)
Definition constants {E : Env} (w : World E)
  : string * EpubSpec * string * list string :=
  (uid (self w), epub (self w), b_encoding (self w), cwd w).

(** The names of the regular files among the entries [es], and of those
    directly in the directory at [p]: none where there is no directory. *)
Definition files_of (es : list (string * node)) : list string :=
  map fst (filter (fun e => negb (FS.is_dir (snd e))) es).

Definition files_in (o : option node) : list string :=
  match o with
  | Some (Dir es) => files_of es
  | _ => []
  end.

Definition files_at (p : list string) (root : node) : list string :=
  files_in (FS.lookup p root).
(* ===================================================================== *)
(** ** A concrete installation, used to run the builder                  *)
(* ===================================================================== *)

Module Demo.

(** A template is known by its name; rendering gives a line that names
    the template and the title it was given. *)
Definition demo_get_template (name : string) : Res string :=
  if String.eqb name "page.xhtml.j2" || String.eqb name "book.ncx.j2"
     || String.eqb name "book.opf.j2"
  then Ok name
  else Raise (CollaboratorError "TemplateNotFound" name).

Definition demo_template_render (t : string) (kw : Kwargs) : Res string :=
  match kw with
  | CoverKw e _ => Ok (t ++ ":cover:" ++ title e)
  | ChapterKw _ ch => Ok (t ++ ":chapter:" ++ ch_title ch)
  | IndexKw _ e _ _ _ => Ok (t ++ ":index:" ++ title e)
  end.

(** The factory renders the chapter with the page template; a chapter
    without content cannot be converted. *)
Definition demo_factory_render (ch : Chapter) (images_dir : string)
           (t : string) (kw : Kwargs) (root : node) : Res string * node :=
  if String.eqb (ch_content ch) ""
  then (Raise (CollaboratorError "ConversionError" (ch_title ch)), root)
  else match demo_template_render t kw with
       | Ok page => (Ok (page ++ ":" ++ ch_content ch), root)
       | Raise e => (Raise e, root)
       end.

Fixpoint xs (n : nat) : string :=
  match n with
  | O => ""
  | S n' => String "x" (xs n')
  end.

Definition demo_env : Env :=
  mkEnv demo_get_template demo_template_render demo_factory_render
        (fun n => "/tmp/tmp" ++ xs n) "3f2a-uid" "/lib/pypub".

(** The disk before a build: the installed package with its static
    files, an empty [/tmp], and the user's directory. *)
Definition disk : node :=
  Dir [("lib", Dir [("pypub", Dir [("static", Dir [
          ("mimetype", File (Data "application/epub+zip"));
          ("container.xml", File (Data "<container/>"));
          ("css", Dir [("coverpage.css", File (Data "img{}"));
                       ("styles.css", File (Data "p{}"))])])])]);
       ("tmp", Dir []);
       ("home", Dir [("user", Dir [("out", Dir [])])])].

Definition spec_of (t : string) (dir : option string) : EpubSpec :=
  mkEpubSpec t "pypub" "" "en" "" "pypub" "utf-8" "2024-01-01" dir [].

(** A new builder for the book [t] on that disk, run from [/home/user]. *)
Definition world0 (t : string) (dir : option string) : World demo_env :=
  mkWorld (init demo_env (spec_of t dir)) disk ["home"; "user"] 0 [].

(** The state a computation leaves. *)
Definition after {A} (c : M demo_env A) (w : World demo_env) : World demo_env :=
  snd (c w).

Definition chap1 : Chapter := mkChapter "Chapter One" "<p>Hello</p>".
Definition assign1 : Assignment := mkAssignment "c1" "chap1.xhtml" 1.

(** The builder after [begin], and after a chapter and [index]. *)
Definition began_world : World demo_env :=
  after begin (world0 "Test Book" None).

Definition built_world : World demo_env :=
  after index (after (render_chapter assign1 chap1) began_world).

(** Three chapters submitted with the play orders 3, 1, 2. *)
Definition calls_312 : list call :=
  [CallBegin;
   CallRenderChapter (mkAssignment "c3" "three.xhtml" 3) (mkChapter "Three" "<p>3</p>");
   CallRenderChapter (mkAssignment "c1" "one.xhtml" 1) (mkChapter "One" "<p>1</p>");
   CallRenderChapter (mkAssignment "c2" "two.xhtml" 2) (mkChapter "Two" "<p>2</p>")].

(** A chapter the factory cannot convert. *)
Definition bad_chapter : Chapter := mkChapter "Broken" "".
Definition assign2 : Assignment := mkAssignment "c2" "chap2.xhtml" 2.

(** A build made in the current directory. *)
Definition inplace_world : World demo_env :=
  after begin (world0 "Test Book" (Some ".")).

(** A build whose title starts with a slash. *)
Definition slash_world : World demo_env :=
  after begin (world0 "/tmp/book" None).

(** The layout [begin] makes in [/tmp/tmp]. *)
Definition layout0 : EpubDirs :=
  mkEpubDirs "/tmp/tmp" "/tmp/tmp/OEBPS" "/tmp/tmp/META-INF"
             "/tmp/tmp/OEBPS/images" "/tmp/tmp/OEBPS/styles".

(** The tree under [/tmp/tmp]. *)
Definition tree_of (w : World demo_env) : node :=
  match FS.lookup ["tmp"; "tmp"] (fs w) with
  | Some n => n
  | None => Dir []
  end.

Definition is_deflated (m : ZipMethod) : bool :=
  match m with ZIP_DEFLATED => true | ZIP_STORED => false end.

End Demo.

Module DemoMore.

Import Demo.

(** A build that asks for a stylesheet that does not exist. *)
Definition missing_css_world : World demo_env :=
  mkWorld (init demo_env
             (mkEpubSpec "Test Book" "pypub" "" "en" "" "pypub" "utf-8"
                         "2024-01-01" None ["/nowhere/extra.css"]))
          disk ["home"; "user"] 0 [].

(** A build whose base directory was taken away behind the builder's
    back: the builder of [began_world] on the disk as it was before. *)
Definition gone_world : World demo_env :=
  mkWorld (self began_world) disk (cwd began_world) (ntmp began_world)
          (trace began_world).

(** The build after its one chapter, before the index. *)
Definition rendered_world : World demo_env :=
  after (render_chapter assign1 chap1) began_world.

(** Three chapters, a cleanup and a second build. *)
Definition calls_again : list call :=
  calls_312 ++ [CallCleanup; CallBegin; CallIndex].

(** A layout asked for under [out] of the current directory. *)
Definition out_layout : EpubDirs :=
  mkEpubDirs "out/book" "out/book/OEBPS" "out/book/META-INF"
             "out/book/OEBPS/images" "out/book/OEBPS/styles".

Definition out_world : World demo_env :=
  after (epub_dirs (Some "out/book")) (world0 "Test Book" None).

(** The build finalized right after [begin], and what its base
    directory holds. *)
Definition packed_world : World demo_env :=
  after (finalize None) began_world.

Definition entries_of (n : node) : list (string * node) :=
  match n with
  | Dir es => es
  | File _ => []
  end.

(** A disk on which the directory [out] already holds a file. *)
Definition used_disk : node :=
  Dir [("lib", Dir [("pypub", Dir [("static", Dir [
          ("mimetype", File (Data "application/epub+zip"));
          ("container.xml", File (Data "<container/>"));
          ("css", Dir [("coverpage.css", File (Data "img{}"));
                       ("styles.css", File (Data "p{}"))])])])]);
       ("tmp", Dir []);
       ("home", Dir [("user", Dir [("out", Dir [
          ("notes.txt", File (Data "to do"))])])])].

(** A build made in [out], with a chapter whose link is [mimetype] and
    a chapter whose link leaves the content directory. *)
Definition crowded_world : World demo_env :=
  after (render_chapter (mkAssignment "c3" "../zzz.xhtml" 3) chap1)
    (after (render_chapter (mkAssignment "c2" "mimetype" 2) chap1)
       (after begin
          (mkWorld (init demo_env (spec_of "Test Book" (Some "out")))
                   used_disk ["home"; "user"] 0 []))).

(** A build asked for in the empty directory [out]. *)
Definition asked_layout : EpubDirs :=
  mkEpubDirs "out" "out/OEBPS" "out/META-INF"
             "out/OEBPS/images" "out/OEBPS/styles".

Definition asked_world : World demo_env :=
  after begin (world0 "Test Book" (Some "out")).

End DemoMore.


(* ===================================================================== *)
(** ** Properties                                                        *)
(* ===================================================================== *)

Unset Implicit Arguments.
Local Open Scope list_scope.

(** The path helpers on the inputs the builder gives them. *)
Example join_ex1 : PyStr.join "/tmp/x" "OEBPS" = "/tmp/x/OEBPS"%string.
Proof. reflexivity. Qed.
Example join_ex2 : PyStr.join "/tmp/x/" "OEBPS" = "/tmp/x/OEBPS"%string.
Proof. reflexivity. Qed.
Example join_ex3 : PyStr.join "." "/etc/x.epub" = "/etc/x.epub".
Proof. reflexivity. Qed.
Example join_ex4 : PyStr.join "" "mimetype" = "mimetype".
Proof. reflexivity. Qed.
Example rsplit_ex1 : PyStr.rsplit1_first ".epub" "a.epub.b.epub" = "a.epub.b".
Proof. reflexivity. Qed.
Example rsplit_ex2 : PyStr.rsplit1_first ".epub" "Test Book" = "Test Book".
Proof. reflexivity. Qed.
Example rsplit_ex3 : PyStr.rsplit1_first ".epub" "a.epub.bak" = "a".
Proof. reflexivity. Qed.
Example basename_ex : PyStr.basename "out/book.epub" = "book.epub".
Proof. reflexivity. Qed.
Example dirname_ex1 : PyStr.dirname "out/book.epub" = "out".
Proof. reflexivity. Qed.
Example dirname_ex2 : PyStr.dirname "book.epub" = "".
Proof. reflexivity. Qed.
Example dirname_ex3 : PyStr.dirname "/book.epub" = "/".
Proof. reflexivity. Qed.
Example split1_ex : PyStr.split1_second "/tmp/x" "/tmp/x/OEBPS/images" = Some "/OEBPS/images".
Proof. reflexivity. Qed.
Example split_slash_ex : PyStr.split_slash "/a//b/" = [""; "a"; ""; "b"; ""].
Proof. reflexivity. Qed.

Section Guards.

Context (E : Env).
Implicit Types w : World E.

Lemma render_chapter_uninitialized w a ch :
  dirs (self w) = None ->
  render_chapter a ch w
  = (Raise (RuntimeError "cannot render_chapter before `begin`"), w).
Proof.
  intros H. unfold render_chapter, bind, get_self. rewrite H. reflexivity.
Qed.

Lemma index_uninitialized w :
  dirs (self w) = None ->
  index w = (Raise (RuntimeError "cannot index epub before `begin`"), w).
Proof.
  intros H. unfold index, bind, get_self. rewrite H. reflexivity.
Qed.

Lemma compress_uninitialized w p :
  dirs (self w) = None ->
  compress p w = (Raise (RuntimeError "cannot finalize before `begin`"), w).
Proof.
  intros H. unfold compress, bind, get_self. rewrite H. reflexivity.
Qed.

Lemma cleanup_uninitialized w :
  dirs (self w) = None -> cleanup w = (Ok tt, w).
Proof.
  intros H. unfold cleanup, bind, get_self. rewrite H. reflexivity.
Qed.

(** Without [begin], no call changes anything. *)
Lemma do_call_uninitialized w c :
  dirs (self w) = None -> is_begin c = false -> snd (do_call c w) = w.
Proof.
  intros H Hc. destruct c; simpl in *; try discriminate.
  - now rewrite render_chapter_uninitialized.
  - now rewrite index_uninitialized.
  - unfold bind. now rewrite compress_uninitialized.
  - unfold finalize, bind. now rewrite index_uninitialized.
  - now rewrite cleanup_uninitialized.
Qed.

Lemma run_calls_uninitialized cs : forall w,
  dirs (self w) = None ->
  forallb (fun c => negb (is_begin c)) cs = true ->
  snd (run_calls cs w) = w.
Proof.
  induction cs as [|c cs IH]; intros w H Hcs; simpl in *; [reflexivity|].
  apply andb_true_iff in Hcs. destruct Hcs as [Hc Hcs].
  apply negb_true_iff in Hc.
  pose proof (do_call_uninitialized w c H Hc) as Hw.
  destruct (do_call c w) as [r w1]. simpl in Hw. subst w1.
  specialize (IH w H Hcs).
  destruct (run_calls cs w) as [rs w2]. exact IH.
Qed.

(** C2. On a builder on which [begin] has not been called, whatever
    other calls were made before, [render_chapter], [index] and
    [compress] each raise the [RuntimeError] of their guard and leave
    the builder, the file system and the trace exactly as they were. *)
Theorem guards_before_begin
        (spec : EpubSpec) (root : node) (dir : list string) (n : nat)
        (tr : list event) (cs : list call)
        (a : Assignment) (ch : Chapter) (p : option string) :
  forallb (fun c => negb (is_begin c)) cs = true ->
  let w := snd (run_calls cs (mkWorld (init E spec) root dir n tr)) in
  render_chapter a ch w
  = (Raise (RuntimeError "cannot render_chapter before `begin`"), w)
  /\ index w = (Raise (RuntimeError "cannot index epub before `begin`"), w)
  /\ compress p w
     = (Raise (RuntimeError "cannot finalize before `begin`"), w).
Proof.
  intros Hcs w.
  assert (Hw : w = mkWorld (init E spec) root dir n tr).
  { unfold w. now apply run_calls_uninitialized. }
  assert (Hd : dirs (self w) = None) by now rewrite Hw.
  repeat split.
  - now apply render_chapter_uninitialized.
  - now apply index_uninitialized.
  - now apply compress_uninitialized.
Qed.

End Guards.

(* --------------------------------------------------------------------- *)
(** *** What the primitives leave alone                                  *)
(* --------------------------------------------------------------------- *)

Create HintDb frames.

Lemma keeps_ret {E A X} (proj : World E -> X) (a : A) : keeps proj (ret a).
Proof. intros w. reflexivity. Qed.

Lemma keeps_raise {E A X} (proj : World E -> X) e : keeps proj (@raise E A e).
Proof. intros w. reflexivity. Qed.

Lemma keeps_lift_res {E A X} (proj : World E -> X) (r : Res A) :
  keeps proj (lift_res r).
Proof. intros w. reflexivity. Qed.

Lemma keeps_bind {E A B X} (proj : World E -> X) (c : M E A) (k : A -> M E B) :
  keeps proj c -> (forall a, keeps proj (k a)) -> keeps proj (bind c k).
Proof.
  intros Hc Hk w. unfold bind. specialize (Hc w).
  destruct (c w) as [[a|e] w1]; simpl in *.
  - rewrite Hk. exact Hc.
  - exact Hc.
Qed.

Lemma keeps_for_each {E A X} (proj : World E -> X) (l : list A) body :
  (forall x, keeps proj (body x)) -> keeps proj (for_each l body).
Proof.
  intros Hb. induction l as [|x l IH]; simpl.
  - apply keeps_ret.
  - apply keeps_bind; auto.
Qed.


Lemma inert_self {E} : inert (@self E).
Proof. intros b t d n tr t' n' tr'. reflexivity. Qed.

Lemma inert_cwd {E} : inert (@cwd E).
Proof. intros b t d n tr t' n' tr'. reflexivity. Qed.

Lemma inert_of_self {E X} (f : EpubBuilder E -> X) : inert (fun w => f (self w)).
Proof. intros b t d n tr t' n' tr'. reflexivity. Qed.

Ltac inert_step H :=
  let w := fresh "w" in
  intros w; destruct w as [b t d n tr]; cbn;
  repeat match goal with
         | |- context [if ?c then _ else _] => destruct c; cbn
         | |- context [match ?x with inl _ => _ | inr _ => _ end] =>
             destruct x; cbn
         end;
  try reflexivity; try (apply H).

Lemma keeps_emit {E X} (proj : World E -> X) ev : inert proj -> keeps proj (emit ev).
Proof. intros H. inert_step H. Qed.

Lemma keeps_fs_update {E X} (proj : World E -> X) path op ev :
  inert proj -> keeps proj (fs_update path op ev).
Proof. intros H. unfold fs_update, emit, set_fs. inert_step H. Qed.

Lemma keeps_fs_query {E A X} (proj : World E -> X) path
      (op : list string -> node -> errno + A) :
  keeps proj (fs_query path op).
Proof.
  intros w. unfold fs_query.
  destruct (String.eqb path ""); [reflexivity|].
  destruct (op _ _); reflexivity.
Qed.

Lemma keeps_mkdtemp {E X} (proj : World E -> X) : inert proj -> keeps proj mkdtemp.
Proof.
  intros H w. unfold mkdtemp.
  match goal with
  | |- proj (snd (?c ?w1)) = _ =>
      assert (K : keeps proj c)
        by (apply keeps_bind; [now apply keeps_fs_update|intros a; apply keeps_ret]);
      rewrite K
  end.
  destruct w; cbn. apply H.
Qed.

Lemma keeps_copyfile {E X} (proj : World E -> X) src dst :
  inert proj -> keeps proj (copyfile src dst).
Proof.
  intros H w. unfold copyfile.
  destruct (FS.lookup _ _); [|reflexivity].
  destruct (_ && _ && _); [reflexivity|].
  apply (keeps_bind proj).
  - apply keeps_fs_query.
  - intros c. now apply keeps_fs_update.
Qed.

Lemma keeps_rmtree {E X} (proj : World E -> X) path :
  inert proj -> keeps proj (rmtree_ignore_errors path).
Proof.
  intros H w. unfold rmtree_ignore_errors.
  pose proof (keeps_fs_update proj path (FS.rmtree_path (cwd w) path)
                (EvRmtree path) H w) as K.
  destruct (fs_update _ _ _ w) as [[u|e] w1]; simpl in *; [exact K|reflexivity].
Qed.

Lemma keeps_rename {E X} (proj : World E -> X) src dst :
  inert proj -> keeps proj (rename src dst).
Proof. intros H. unfold rename, emit, set_fs. inert_step H. Qed.

Lemma keeps_os_walk {E X} (proj : World E -> X) top : keeps proj (os_walk top).
Proof.
  intros w. unfold os_walk.
  destruct (String.eqb top ""); [reflexivity|].
  destruct (FS.lookup _ _); reflexivity.
Qed.

Lemma keeps_factory_call {E X} (proj : World E -> X) ch im t kw :
  inert proj -> keeps proj (factory_call ch im t kw).
Proof.
  intros H w. unfold factory_call, bind, emit, set_fs. destruct w; cbn.
  destruct (factory_render _ _ _ _ _ _); cbn. apply H.
Qed.

#[global] Hint Resolve keeps_ret keeps_raise keeps_lift_res keeps_emit keeps_fs_update
     keeps_fs_query keeps_mkdtemp keeps_copyfile keeps_rmtree keeps_rename
     keeps_os_walk keeps_factory_call inert_self inert_cwd inert_of_self
  : frames.

Ltac frame :=
  repeat first
    [ progress (auto with frames)
    | apply keeps_bind; [|intros ?]
    | apply keeps_for_each; intros ?
    | match goal with
      | |- keeps _ (match ?x with _ => _ end) => destruct x
      | |- keeps _ (if ?x then _ else _) => destruct x
      | |- keeps _ (let '(_, _) := ?x in _) => destruct x
      end ].

Lemma keeps_makedirs {E X} (proj : World E -> X) path :
  inert proj -> keeps proj (makedirs path).
Proof. intros H. unfold makedirs. frame. Qed.

Lemma keeps_open_w {E X} (proj : World E -> X) path :
  inert proj -> keeps proj (open_w path).
Proof. intros H. unfold open_w. frame. Qed.

Lemma keeps_f_write {E X} (proj : World E -> X) path data :
  inert proj -> keeps proj (f_write path data).
Proof. intros H. unfold f_write. frame. Qed.

Lemma keeps_listdir {E X} (proj : World E -> X) path : keeps proj (listdir path).
Proof. unfold listdir. frame. Qed.

Lemma keeps_debug {E X} (proj : World E -> X) l : inert proj -> keeps proj (debug l).
Proof. intros H. unfold debug. frame. Qed.

Lemma keeps_render {E X} (proj : World E -> X) t kw :
  inert proj -> keeps proj (render t kw).
Proof. intros H. unfold render. frame. Qed.

Lemma keeps_jinja_get_template {E X} (proj : World E -> X) name :
  inert proj -> keeps proj (jinja_get_template name).
Proof. intros H. unfold jinja_get_template. frame. Qed.

Lemma keeps_zip_open {E X} (proj : World E -> X) path :
  inert proj -> keeps proj (zip_open path).
Proof. intros H. unfold zip_open. frame. Qed.

Lemma keeps_zip_close {E X} (proj : World E -> X) path :
  inert proj -> keeps proj (zip_close path).
Proof. intros H. unfold zip_close. frame. Qed.

Lemma keeps_zip_write {E X} (proj : World E -> X) zip real arc m :
  inert proj -> keeps proj (zip_write zip real arc m).
Proof. intros H. unfold zip_write. frame. Qed.

#[global] Hint Resolve keeps_makedirs keeps_open_w keeps_f_write keeps_listdir
     keeps_debug keeps_render keeps_jinja_get_template keeps_zip_open
     keeps_zip_close keeps_zip_write : frames.

Lemma keeps_copy_file {E X} (proj : World E -> X) src into :
  inert proj -> keeps proj (copy_file src into).
Proof. intros H. unfold copy_file. frame. Qed.

Lemma keeps_copy_static {E X} (proj : World E -> X) fpath into :
  inert proj -> keeps proj (@copy_static E fpath into).
Proof. intros H. unfold copy_static. now apply keeps_copy_file. Qed.

Lemma keeps_render_template {E X} (proj : World E -> X) name into enc kw :
  inert proj -> keeps proj (render_template name into enc kw).
Proof. intros H. unfold render_template. frame. Qed.

Lemma keeps_epub_dirs {E X} (proj : World E -> X) b :
  inert proj -> keeps proj (epub_dirs b).
Proof. intros H. unfold epub_dirs. frame. Qed.

Lemma keeps_compress_dir {E X} (proj : World E -> X) fzip base entry :
  inert proj -> keeps proj (compress_dir fzip base entry).
Proof. intros H. unfold compress_dir. destruct entry as [[root ds] files]. frame. Qed.

#[global] Hint Resolve keeps_copy_file keeps_copy_static keeps_render_template
     keeps_epub_dirs keeps_compress_dir : frames.

(** The current directory never changes. *)
Lemma keeps_get_self {E X} (proj : World E -> X) : keeps proj get_self.
Proof. intros w. reflexivity. Qed.

Lemma keeps_set_self_cwd {E} b : keeps (@cwd E) (set_self b).
Proof. intros w. reflexivity. Qed.

#[global] Hint Resolve keeps_get_self keeps_set_self_cwd : frames.

(** Only [render_chapter] touches [self.chapters]. *)
Lemma keeps_set_dirs_chapters {E} d :
  keeps (fun w => chapters (self w)) (@set_dirs E d).
Proof. intros w. reflexivity. Qed.

Lemma keeps_set_template_chapters {E} t :
  keeps (fun w => chapters (self w)) (@set_template E t).
Proof. intros w. reflexivity. Qed.

#[global] Hint Resolve keeps_set_dirs_chapters keeps_set_template_chapters : frames.

Lemma begin_keeps_chapters {E} : keeps (fun w => chapters (self w)) (@begin E).
Proof. unfold begin. frame. Qed.

Lemma index_keeps_self {E} : keeps (@self E) index.
Proof. unfold index. frame. Qed.

Lemma compress_keeps_self {E} p : keeps (@self E) (compress p).
Proof. unfold compress. frame. Qed.

Lemma finalize_keeps_self {E} p : keeps (@self E) (finalize p).
Proof.
  unfold finalize. apply keeps_bind; [apply index_keeps_self|].
  intros _. apply compress_keeps_self.
Qed.

Lemma cleanup_keeps_chapters {E} : keeps (fun w => chapters (self w)) (@cleanup E).
Proof. unfold cleanup. frame. Qed.


Lemma bind_ok {E A B} (c : M E A) (k : A -> M E B) w b w' :
  bind c k w = (Ok b, w') ->
  exists a w1, c w = (Ok a, w1) /\ k a w1 = (Ok b, w').
Proof.
  unfold bind. destruct (c w) as [[a|e] w1]; intros H.
  - now exists a, w1.
  - discriminate.
Qed.

Lemma bind_run {E A B} (c : M E A) (k : A -> M E B) w a w1 :
  c w = (Ok a, w1) -> bind c k w = k a w1.
Proof. unfold bind. now intros ->. Qed.

Lemma bind_raise {E A B} (c : M E A) (k : A -> M E B) w e w1 :
  c w = (Raise e, w1) -> bind c k w = (Raise e, w1).
Proof. unfold bind. now intros ->. Qed.

(* --------------------------------------------------------------------- *)
(** *** The accumulator                                                  *)
(* --------------------------------------------------------------------- *)

Section Accumulator.

Context (E : Env).
Implicit Types w : World E.

(** Past its guard, [render_chapter] appends the pair and changes
    nothing else of the builder, whether it then returns or raises. *)
Lemma render_chapter_began w d t a ch :
  dirs (self w) = Some d -> template (self w) = Some t ->
  self (snd (render_chapter a ch w))
  = mkEpubBuilder E (uid (self w)) (epub (self w)) (b_encoding (self w))
      (dirs (self w)) (template (self w)) (chapters (self w) ++ [(a, ch)]).
Proof.
  intros Hd Ht. unfold render_chapter.
  erewrite bind_run by (unfold get_self; reflexivity).
  rewrite Hd, Ht.
  erewrite bind_run
    by (unfold append_chapter, bind, get_self, set_self; reflexivity).
  match goal with
  | |- self (snd (?rest ?w1)) = _ =>
      assert (K : keeps (@self E) rest) by frame; rewrite K
  end.
  cbn. now rewrite Hd, Ht.
Qed.

Lemma render_chapter_ok w a ch u w' :
  render_chapter a ch w = (Ok u, w') ->
  exists d t, dirs (self w) = Some d /\ template (self w) = Some t.
Proof.
  unfold render_chapter. unfold bind at 1. unfold get_self at 1.
  destruct (dirs (self w)) as [d|]; [destruct (template (self w)) as [t|]|];
    try discriminate.
  intros _. now exists d, t.
Qed.

Lemma do_call_chapters c w r w1 :
  do_call c w = (r, w1) ->
  chapters (self w1)
  = match c, r with
    | CallRenderChapter a ch, Ok _ => chapters (self w) ++ [(a, ch)]
    | CallRenderChapter a ch, Raise _ => chapters (self w1)
    | _, _ => chapters (self w)
    end.
Proof.
  intros H. destruct c; simpl in H.
  - assert (K : keeps (fun w => chapters (self w))
                      (bind (@begin E) (fun _ => ret tt))).
    { apply keeps_bind; [apply begin_keeps_chapters|intros; apply keeps_ret]. }
    specialize (K w). rewrite H in K. exact K.
  - destruct r as [u|e]; [|reflexivity].
    destruct (render_chapter_ok _ _ _ _ _ H) as (d & t & Hd & Ht).
    pose proof (render_chapter_began w d t assign chapter Hd Ht) as K.
    rewrite H in K. simpl in K. now rewrite K.
  - pose proof (index_keeps_self w) as K. rewrite H in K. simpl in K.
    now rewrite K.
  - assert (K : keeps (@self E) (bind (compress fpath) (fun _ => ret tt))).
    { apply keeps_bind; [apply compress_keeps_self|intros; apply keeps_ret]. }
    specialize (K w). rewrite H in K. simpl in K. now rewrite K.
  - assert (K : keeps (@self E) (bind (finalize fpath) (fun _ => ret tt))).
    { apply keeps_bind; [apply finalize_keeps_self|intros; apply keeps_ret]. }
    specialize (K w). rewrite H in K. simpl in K. now rewrite K.
  - pose proof (cleanup_keeps_chapters w) as K. rewrite H in K. exact K.
Qed.

Lemma run_calls_chapters cs : forall w rs w',
  run_calls cs w = (rs, w') ->
  renders_ok cs rs = true ->
  chapters (self w') = chapters (self w) ++ render_args cs.
Proof.
  induction cs as [|c cs IH]; intros w rs w' H Hok; simpl in H.
  - inversion H; subst. simpl. now rewrite app_nil_r.
  - destruct (do_call c w) as [r w1] eqn:Hc.
    destruct (run_calls cs w1) as [rs1 w2] eqn:Hcs.
    inversion H; subst; clear H.
    pose proof (do_call_chapters _ _ _ _ Hc) as K.
    destruct c; simpl in *;
      try (rewrite (IH _ _ _ Hcs Hok), K; reflexivity).
    apply andb_true_iff in Hok. destruct Hok as [Hr Hok].
    destruct r as [u|e]; [|discriminate].
    rewrite (IH _ _ _ Hcs Hok), K, <- app_assoc. reflexivity.
Qed.

(** C3. On a new builder, after any sequence of calls in which every
    [render_chapter] call returned, [self.chapters] holds exactly the
    (assignment, chapter) pairs of those calls, in call order, whatever
    their play-order values: as many entries as there were calls. *)
Theorem chapters_in_call_order
        (spec : EpubSpec) (root : node) (dir : list string) (n : nat)
        (tr : list event) (cs : list call) (rs : list (Res unit)) w' :
  run_calls cs (mkWorld (init E spec) root dir n tr) = (rs, w') ->
  renders_ok cs rs = true ->
  chapters (self w') = render_args cs
  /\ length (chapters (self w')) = length (render_args cs).
Proof.
  intros H Hok.
  pose proof (run_calls_chapters cs _ _ _ H Hok) as K. simpl in K.
  split; [exact K|now rewrite K].
Qed.

End Accumulator.

(* --------------------------------------------------------------------- *)
(** *** [begin]                                                          *)
(* --------------------------------------------------------------------- *)

Lemma yields_ret {E A} (a : A) : yields (E:=E) a (ret a).
Proof. intros w r w' H. now inversion H. Qed.

Lemma yields_raise {E A} (a : A) e : yields (E:=E) a (raise e).
Proof. intros w r w' H. discriminate. Qed.

Lemma yields_bind {E A B} (b : B) (c : M E A) (k : A -> M E B) :
  (forall a, yields b (k a)) -> yields b (bind c k).
Proof.
  intros Hk w r w' H. apply bind_ok in H. destruct H as (a & w1 & _ & H).
  now apply (Hk a w1 r w').
Qed.

Ltac yield :=
  repeat first
    [ apply yields_ret
    | apply yields_raise
    | apply yields_bind; intros ?
    | match goal with
      | |- yields _ (match ?x with _ => _ end) => destruct x
      end ].

Section Begin.

Context (E : Env).
Implicit Types w : World E.

(** Once the layout and the template are set, [begin] returns the
    layout and touches nothing. *)
Lemma begin_again w d t :
  dirs (self w) = Some d -> template (self w) = Some t ->
  begin w = (Ok d, w).
Proof.
  intros Hd Ht. unfold begin.
  erewrite bind_run by (unfold get_self; reflexivity).
  rewrite Ht.
  erewrite bind_run by reflexivity.
  erewrite bind_run by (unfold get_self; reflexivity).
  rewrite Hd. reflexivity.
Qed.

(** When [begin] returns a layout, that layout is [self.dirs] and the
    template is loaded. *)
Lemma begin_ok w d w1 :
  begin w = (Ok d, w1) ->
  dirs (self w1) = Some d /\ exists t, template (self w1) = Some t.
Proof.
  unfold begin. intros H.
  apply bind_ok in H. destruct H as (s & wa & Hs & H).
  unfold get_self in Hs. inversion Hs; subst s wa; clear Hs.
  apply bind_ok in H. destruct H as (u & wb & Ht & H).
  assert (Hb : (exists t, template (self wb) = Some t)
               /\ dirs (self wb) = dirs (self w)).
  { destruct (template (self w)) as [t|] eqn:Et.
    - inversion Ht; subst. split; [now exists t|reflexivity].
    - apply bind_ok in Ht. destruct Ht as (t & wc & Hg & Hset).
      pose proof (keeps_jinja_get_template (@self E) "page.xhtml.j2"
                    inert_self w) as K.
      rewrite Hg in K. simpl in K.
      unfold set_template, bind, get_self, set_self in Hset.
      inversion Hset; subst; simpl. rewrite K.
      split; [now exists t|reflexivity]. }
  destruct Hb as [[t Hbt] Hbd]. clear Ht.
  apply bind_ok in H. destruct H as (s & wa & Hs & H).
  unfold get_self in Hs. inversion Hs; subst s wa; clear Hs.
  destruct (dirs (self wb)) as [d0|] eqn:Ed.
  - inversion H; subst. split; [assumption|now exists t].
  - apply bind_ok in H. destruct H as (d0 & wc & Hdirs & H).
    pose proof (keeps_epub_dirs (@self E) (epub_dir (epub (self wb)))
                  inert_self wb) as Kc.
    rewrite Hdirs in Kc. simpl in Kc.
    apply bind_ok in H. destruct H as (u1 & wd & Hset & H).
    unfold set_dirs, bind, get_self, set_self in Hset.
    inversion Hset; subst wd; clear Hset.
    cbv zeta in H.
    match type of H with
    | ?rest ?wd = _ =>
        assert (K : keeps (@self E) rest) by frame;
        assert (Y : yields d0 rest) by yield;
        specialize (K wd); rewrite H in K; simpl in K;
        apply Y in H
    end.
    subst d0. rewrite K, Kc. simpl. split; [reflexivity|now exists t].
Qed.

(** C4. When [begin] has returned a layout, calling it again returns
    that same layout without raising, and leaves the builder, the file
    system and the trace as they were: no directory is made and no
    file is copied a second time. *)
Theorem begin_idempotent w d w1 :
  begin w = (Ok d, w1) ->
  begin w1 = (Ok d, w1).
Proof.
  intros H. apply begin_ok in H. destruct H as [Hd [t Ht]].
  now apply begin_again with t.
Qed.

End Begin.

(* --------------------------------------------------------------------- *)
(** *** What the primitives add to the trace                             *)
(* --------------------------------------------------------------------- *)

Create HintDb traces.

Lemma adds_ret {E A} P (a : A) : adds (E:=E) P (ret a).
Proof. intros w. exists []. simpl. now rewrite app_nil_r. Qed.

Lemma adds_raise {E A} P e : adds P (@raise E A e).
Proof. intros w. exists []. simpl. now rewrite app_nil_r. Qed.

Lemma adds_lift_res {E A} P (r : Res A) : adds (E:=E) P (lift_res r).
Proof. intros w. exists []. simpl. now rewrite app_nil_r. Qed.

Lemma adds_get_self {E} P : adds (E:=E) P get_self.
Proof. intros w. exists []. simpl. now rewrite app_nil_r. Qed.

Lemma adds_set_self {E} P b : adds (E:=E) P (set_self b).
Proof. intros w. exists []. simpl. now rewrite app_nil_r. Qed.

Lemma adds_bind {E A B} P (c : M E A) (k : A -> M E B) :
  adds P c -> (forall a, adds P (k a)) -> adds P (bind c k).
Proof.
  intros Hc Hk w. unfold bind. destruct (Hc w) as (evs & Ht & Hp).
  destruct (c w) as [[a|e] w1]; simpl in *.
  - destruct (Hk a w1) as (evs' & Ht' & Hp').
    exists (evs ++ evs'). rewrite Ht', Ht, app_assoc. split; [reflexivity|].
    apply Forall_app. now split.
  - now exists evs.
Qed.

Lemma adds_for_each {E A} P (l : list A) (body : A -> M E unit) :
  (forall x, adds P (body x)) -> adds P (for_each l body).
Proof.
  intros Hb. induction l as [|x l IH]; simpl.
  - apply adds_ret.
  - apply adds_bind; auto.
Qed.

Lemma adds_weaken {E A} (P Q : event -> Prop) (c : M E A) :
  (forall ev, P ev -> Q ev) -> adds P c -> adds Q c.
Proof.
  intros H Hc w. destruct (Hc w) as (evs & Ht & Hp).
  exists evs. split; [assumption|].
  eapply Forall_impl; eauto.
Qed.

Lemma adds_emit {E} (P : event -> Prop) ev : P ev -> adds (E:=E) P (emit ev).
Proof. intros H w. exists [ev]. simpl. split; [reflexivity|]. now constructor. Qed.

Lemma adds_fs_update {E} (P : event -> Prop) path op ev :
  P ev -> adds (E:=E) P (fs_update path op ev).
Proof.
  intros H w. unfold fs_update.
  destruct (String.eqb path ""); [exists []; simpl; now rewrite app_nil_r|].
  destruct (op _ _).
  - exists []. simpl. now rewrite app_nil_r.
  - exists [ev]. simpl. split; [reflexivity|]. now constructor.
Qed.

Lemma adds_fs_query {E A} P path (op : list string -> node -> errno + A) :
  adds (E:=E) P (fs_query path op).
Proof.
  intros w. exists []. rewrite app_nil_r. unfold fs_query.
  destruct (String.eqb path ""); [now split|].
  destruct (op _ _); now split.
Qed.

Lemma adds_os_walk {E} P top : adds (E:=E) P (os_walk top).
Proof.
  intros w. exists []. rewrite app_nil_r. unfold os_walk.
  destruct (String.eqb top ""); [now split|].
  destruct (FS.lookup _ _); now split.
Qed.

Lemma adds_rename {E} (P : event -> Prop) src dst :
  P (EvRename src dst) -> adds (E:=E) P (rename src dst).
Proof.
  intros H w. unfold rename.
  destruct (_ || _); [exists []; simpl; now rewrite app_nil_r|].
  destruct (FS.rename _ _ _).
  - exists []. simpl. now rewrite app_nil_r.
  - exists [EvRename src dst]. simpl. split; [reflexivity|]. now constructor.
Qed.

Lemma adds_factory_call {E} (P : event -> Prop) ch im t kw :
  P (EvFactoryRender ch im kw) -> adds (E:=E) P (factory_call ch im t kw).
Proof.
  intros H w. unfold factory_call, bind, emit, set_fs. simpl.
  destruct (factory_render _ _ _ _ _ _). simpl.
  exists [EvFactoryRender ch im kw]. split; [reflexivity|]. now constructor.
Qed.

#[global] Hint Resolve adds_ret adds_raise adds_lift_res adds_get_self
  adds_set_self adds_emit adds_fs_update adds_fs_query adds_os_walk
  adds_rename adds_factory_call : traces.

Ltac grow :=
  repeat first
    [ progress (auto with traces)
    | apply adds_bind; [|intros ?]
    | apply adds_for_each; intros ?
    | match goal with
      | |- adds _ (match ?x with _ => _ end) => destruct x
      | |- adds _ (if ?x then _ else _) => destruct x
      end ].

Lemma adds_true_open_w {E} path : adds (E:=E) (fun _ => True) (open_w path).
Proof. unfold open_w. grow. Qed.

Lemma adds_true_f_write {E} path data :
  adds (E:=E) (fun _ => True) (f_write path data).
Proof. unfold f_write. grow. Qed.

Lemma adds_true_render_template {E} name into enc kw :
  adds (E:=E) (fun _ => True) (render_template name into enc kw).
Proof.
  unfold render_template, jinja_get_template, render, open_w, f_write. grow.
Qed.

(** The trace only grows: what is in it stays in it. *)
Lemma adds_In {E A} P (c : M E A) w ev :
  adds P c -> In ev (trace w) -> In ev (trace (snd (c w))).
Proof.
  intros H Hin. destruct (H w) as (evs & Ht & _). rewrite Ht.
  apply in_or_app. now left.
Qed.

(* --------------------------------------------------------------------- *)
(** *** The file system                                                  *)
(* --------------------------------------------------------------------- *)

Module FSFacts.

Import FS.

Lemma assoc_set_entry_eq k v es : assoc k (set_entry k v es) = Some v.
Proof.
  induction es as [|[k' v'] es IH]; simpl.
  - now rewrite String.eqb_refl.
  - destruct (String.eqb k k') eqn:Ek; simpl; rewrite Ek; auto.
Qed.

Lemma assoc_set_entry_neq k k' v es :
  String.eqb k' k = false -> assoc k' (set_entry k v es) = assoc k' es.
Proof.
  intros Hne. induction es as [|[k0 v0] es IH]; simpl.
  - now rewrite Hne.
  - destruct (String.eqb k k0) eqn:Ek; simpl.
    + apply String.eqb_eq in Ek. subst k0. now rewrite Hne.
    + now rewrite IH.
Qed.

Lemma assoc_del_entry_eq k es : assoc k (del_entry k es) = None.
Proof.
  induction es as [|[k' v'] es IH]; simpl; [reflexivity|].
  destruct (String.eqb k k') eqn:Ek; simpl; [assumption|now rewrite Ek].
Qed.

Lemma assoc_del_entry_neq k k' es :
  String.eqb k' k = false -> assoc k' (del_entry k es) = assoc k' es.
Proof.
  intros Hne. induction es as [|[k0 v0] es IH]; simpl; [reflexivity|].
  destruct (String.eqb k k0) eqn:Ek; simpl.
  - apply String.eqb_eq in Ek. subst k0. now rewrite Hne.
  - now rewrite IH.
Qed.

Lemma lookup_opt_cons c q es :
  lookup_opt (c :: q) (Some (Dir es)) = lookup_opt q (assoc c es).
Proof. simpl. now destruct (assoc c es). Qed.

Lemma lookup_opt_none q : lookup_opt q None = None.
Proof. reflexivity. Qed.

Lemma lookup_app p : forall q n,
  lookup (p ++ q) n = lookup_opt q (lookup p n).
Proof.
  induction p as [|c p IH]; intros q n; simpl; [reflexivity|].
  destruct n as [?|es]; [reflexivity|].
  destruct (assoc c es); [apply IH|reflexivity].
Qed.

(** What [alter] leaves at the path it changed. *)
Lemma alter_lookup_same p f : forall o o',
  alter p f o = inr o' ->
  f (lookup_opt p o) = inr (lookup_opt p o').
Proof.
  induction p as [|c p IH]; intros o o' H; simpl in H.
  - destruct o as [n|], o' as [n'|]; simpl; assumption.
  - destruct o as [[?|es]|]; try discriminate.
    destruct (alter p f (assoc c es)) as [e|r] eqn:Ea; [discriminate|].
    apply IH in Ea. rewrite lookup_opt_cons.
    destruct r as [v|]; inversion H; subst; rewrite lookup_opt_cons.
    + now rewrite assoc_set_entry_eq.
    + now rewrite assoc_del_entry_eq.
Qed.

(** What [alter] leaves away from the path it changed. *)
Lemma alter_lookup_apart p f : forall q o o',
  alter p f o = inr o' ->
  apart p q = true ->
  lookup_opt q o' = lookup_opt q o.
Proof.
  unfold apart.
  induction p as [|c p IH]; intros q o o' H Hq; simpl in *; [discriminate|].
  destruct q as [|c' q]; simpl in Hq; [discriminate|].
  destruct o as [[?|es]|]; try discriminate.
  destruct (alter p f (assoc c es)) as [e|r] eqn:Ea; [discriminate|].
  destruct (String.eqb c c') eqn:Ec.
  - apply String.eqb_eq in Ec. subst c'. rewrite String.eqb_refl in Hq.
    simpl in Hq. specialize (IH q _ _ Ea Hq).
    destruct r as [v|]; inversion H; subst; rewrite !lookup_opt_cons.
    + now rewrite assoc_set_entry_eq.
    + now rewrite assoc_del_entry_eq.
  - assert (Ec' : String.eqb c' c = false) by now rewrite String.eqb_sym.
    destruct r as [v|]; inversion H; subst; rewrite !lookup_opt_cons.
    + now rewrite assoc_set_entry_neq.
    + now rewrite assoc_del_entry_neq.
Qed.

Lemma alter_root_inv p f root root' :
  alter_root p f root = inr root' ->
  exists o', alter p f (Some root) = inr o'
             /\ root' = match o' with Some r => r | None => Dir [] end.
Proof.
  unfold alter_root. destruct (alter p f (Some root)) as [e|[r|]];
    intros H; inversion H; subst; eauto.
Qed.

Lemma alter_nonempty_some c p f o o' :
  alter (c :: p) f o = inr o' -> exists r, o' = Some r.
Proof.
  simpl. destruct o as [[?|es]|]; try discriminate.
  destruct (alter p f (assoc c es)) as [e|[v|]]; intros H;
    inversion H; eauto.
Qed.

Lemma alter_root_lookup_apart p f q root root' :
  alter_root p f root = inr root' ->
  apart p q = true ->
  lookup q root' = lookup q root.
Proof.
  intros H Hq. apply alter_root_inv in H. destruct H as (o' & Ha & ->).
  pose proof (alter_lookup_apart _ _ _ _ _ Ha Hq) as K.
  destruct p as [|c p]; [discriminate|].
  apply alter_nonempty_some in Ha. destruct Ha as [r ->]. exact K.
Qed.

Lemma write_lookup_same p c root root' :
  write p c root = inr root' -> lookup p root' = Some (File c).
Proof.
  unfold write. intros H. apply alter_root_inv in H.
  destruct H as (o' & Ha & ->).
  apply alter_lookup_same in Ha.
  destruct (lookup_opt p (Some root)) as [[?|?]|]; inversion Ha as [K];
    destruct o' as [r|]; simpl in K; try discriminate; exact (eq_sym K).
Qed.

Lemma write_lookup_apart p c q root root' :
  write p c root = inr root' -> apart p q = true ->
  lookup q root' = lookup q root.
Proof. apply alter_root_lookup_apart. Qed.

(** What exists can be altered, if [f] agrees. *)
Lemma alter_existing p f : forall o n r,
  lookup_opt p o = Some n ->
  f (Some n) = inr r ->
  exists o', alter p f o = inr o'.
Proof.
  induction p as [|k p IH]; intros o n r Hl Hf; simpl in *.
  - destruct o as [n0|]; [|discriminate]. simpl in Hl. inversion Hl; subst.
    rewrite Hf. eauto.
  - destruct o as [[?|es]|]; try discriminate.
    simpl in Hl. destruct (assoc k es) as [ch|] eqn:Ek; [|discriminate].
    destruct (IH (Some ch) n r Hl Hf) as [[v|] Hr]; rewrite Hr; eauto.
Qed.

Lemma alter_root_existing p f root n r :
  lookup p root = Some n -> f (Some n) = inr r ->
  exists root', alter_root p f root = inr root'.
Proof.
  intros Hl Hf. unfold alter_root.
  destruct (alter_existing p f (Some root) n r Hl Hf) as [[v|] Hr];
    rewrite Hr; eauto.
Qed.

(** A regular file can always be written over. *)
Lemma write_over_file p c c' root :
  lookup p root = Some (File c) -> exists root', write p c' root = inr root'.
Proof.
  intros Hl. unfold write. eapply alter_root_existing; eauto.
Qed.

Lemma rmtree_succeeds p es root :
  lookup p root = Some (Dir es) -> exists root', rmtree p root = inr root'.
Proof.
  intros Hl. unfold rmtree. eapply alter_root_existing; eauto.
Qed.

(** After [rmtree] of a directory, nothing is left at or below its
    path, and the rest of the tree is as before. *)
Lemma rmtree_lookup p root root' :
  rmtree p root = inr root' -> p <> [] ->
  (forall q, lookup (p ++ q) root' = None)
  /\ (forall q, apart p q = true -> lookup q root' = lookup q root).
Proof.
  intros H Hp. split.
  - intros q. unfold rmtree in H. apply alter_root_inv in H.
    destruct H as (o' & Ha & ->).
    destruct p as [|c p]; [congruence|].
    destruct (alter_nonempty_some _ _ _ _ _ Ha) as [r ->].
    apply alter_lookup_same in Ha.
    rewrite lookup_app.
    change (lookup_opt (c :: p) (Some r)) with (lookup (c :: p) r) in Ha.
    destruct (lookup (c :: p) r) as [n|]; [|reflexivity].
    destruct (lookup_opt (c :: p) (Some root)) as [[?|?]|]; discriminate.
  - intros q Hq. eapply alter_root_lookup_apart; eauto.
Qed.

Lemma rmtree_fails p root :
  (forall es, lookup p root <> Some (Dir es)) ->
  exists e, rmtree p root = inl e.
Proof.
  intros H. unfold rmtree, alter_root.
  destruct (alter p _ (Some root)) as [e|o'] eqn:Ea; [eauto|].
  apply alter_lookup_same in Ea. simpl in Ea.
  destruct (lookup p root) as [[?|es]|]; try discriminate.
  now destruct (H es).
Qed.

Lemma clear_succeeds p es root :
  lookup p root = Some (Dir es) -> exists root', clear p root = inr root'.
Proof.
  intros Hl. unfold clear. eapply alter_root_existing; eauto.
Qed.

(** After [clear], the directory is there, empty, and the rest of the
    tree is as before. *)
Lemma clear_lookup p root root' :
  clear p root = inr root' ->
  lookup p root' = Some (Dir [])
  /\ (forall q, apart p q = true -> lookup q root' = lookup q root).
Proof.
  intros H. split.
  - unfold clear in H. apply alter_root_inv in H.
    destruct H as (o' & Ha & ->).
    apply alter_lookup_same in Ha.
    destruct (lookup_opt p (Some root)) as [[?|?]|]; try discriminate.
    inversion Ha as [K]. destruct o' as [r|]; [now symmetry|].
    simpl in K. discriminate.
  - intros q Hq. eapply alter_root_lookup_apart; eauto.
Qed.

Lemma clear_fails p root :
  (forall es, lookup p root <> Some (Dir es)) ->
  exists e, clear p root = inl e.
Proof.
  intros H. unfold clear, alter_root.
  destruct (alter p _ (Some root)) as [e|o'] eqn:Ea; [eauto|].
  apply alter_lookup_same in Ea. simpl in Ea.
  destruct (lookup p root) as [[?|es]|]; try discriminate.
  now destruct (H es).
Qed.

Lemma is_prefix_refl p : is_prefix p p = true.
Proof. induction p; simpl; [reflexivity|]. now rewrite String.eqb_refl. Qed.

Lemma same_path_eq p : forall q, same_path p q = true -> p = q.
Proof.
  unfold same_path. induction p as [|a p IH]; intros [|b q] H; simpl in H;
    try reflexivity; try discriminate.
  apply andb_true_iff in H. destruct H as [H1 H2].
  apply andb_true_iff in H1. destruct H1 as [Hab H1].
  apply andb_true_iff in H2. destruct H2 as [_ H2].
  apply String.eqb_eq in Hab. subst b. f_equal. apply IH.
  now rewrite H1, H2.
Qed.

End FSFacts.

(* --------------------------------------------------------------------- *)
(** *** [cleanup] and the [with] statement                               *)
(* --------------------------------------------------------------------- *)

Section Cleanup.

Context (E : Env).
Implicit Types w : World E.

(** [shutil.rmtree(path, ignore_errors=True)] never raises; it changes
    the file system only, and only when the path leads to a directory:
    that directory is removed, or emptied when the path ends in [.] or
    [..]. *)
Lemma rmtree_ignore_errors_ok w path :
  exists t tr,
    rmtree_ignore_errors path w
    = (Ok tt, mkWorld (self w) t (cwd w) (ntmp w) tr)
    /\ if FS.names_directory (fs w) (cwd w) path
       then if PyStr.ends_in_dot path
            then FS.clear (FS.resolve (cwd w) path) (fs w) = inr t
            else FS.rmtree (FS.resolve (cwd w) path) (fs w) = inr t
       else t = fs w.
Proof.
  unfold rmtree_ignore_errors, fs_update, FS.names_directory, FS.rmtree_path.
  destruct (String.eqb path "") eqn:Ep.
  { exists (fs w), (trace w). destruct w; simpl. now split. }
  simpl negb. rewrite andb_true_l.
  destruct (FS.traverse _ _ _) as [e|u].
  { exists (fs w), (trace w). destruct w; simpl. now split. }
  rewrite andb_true_l.
  destruct (FS.lookup (FS.resolve (cwd w) path) (fs w)) as [[c|es]|] eqn:Hl.
  - assert (Hn : forall es, FS.lookup (FS.resolve (cwd w) path) (fs w)
                            <> Some (Dir es)) by (rewrite Hl; discriminate).
    destruct (FSFacts.rmtree_fails _ _ Hn) as [e1 He1].
    destruct (FSFacts.clear_fails _ _ Hn) as [e2 He2].
    rewrite He1, He2.
    exists (fs w), (trace w). destruct w; simpl.
    split; [now destruct (PyStr.ends_in_dot path)|reflexivity].
  - destruct (FSFacts.rmtree_succeeds _ _ _ Hl) as [t1 Ht1].
    destruct (FSFacts.clear_succeeds _ _ _ Hl) as [t2 Ht2].
    rewrite Ht1, Ht2.
    destruct (PyStr.ends_in_dot path); simpl; eexists; eexists;
      (split; [reflexivity|reflexivity]).
  - assert (Hn : forall es, FS.lookup (FS.resolve (cwd w) path) (fs w)
                            <> Some (Dir es)) by (rewrite Hl; discriminate).
    destruct (FSFacts.rmtree_fails _ _ Hn) as [e1 He1].
    destruct (FSFacts.clear_fails _ _ Hn) as [e2 He2].
    rewrite He1, He2.
    exists (fs w), (trace w). destruct w; simpl.
    split; [now destruct (PyStr.ends_in_dot path)|reflexivity].
Qed.

(** What [cleanup] does, step by step. *)
Lemma cleanup_run w :
  exists w',
    cleanup w = (Ok tt, w')
    /\ dirs (self w') = None
    /\ template (self w') = template (self w)
    /\ chapters (self w') = chapters (self w)
    /\ cwd w' = cwd w
    /\ match dirs (self w) with
       | None => w' = w
       | Some d =>
           let B := FS.resolve (cwd w) (basedir d) in
           if FS.names_directory (fs w) (cwd w) (basedir d)
           then (forall q, FS.apart B q = true ->
                           FS.lookup q (fs w') = FS.lookup q (fs w))
                /\ if PyStr.ends_in_dot (basedir d)
                   then FS.lookup B (fs w') = Some (Dir [])
                   else B <> [] -> forall q, FS.lookup (B ++ q) (fs w') = None
           else fs w' = fs w
       end.
Proof.
  unfold cleanup.
  erewrite bind_run by (unfold get_self; reflexivity).
  destruct (dirs (self w)) as [d|] eqn:Hd.
  - destruct (rmtree_ignore_errors_ok w (basedir d)) as (t & tr & Hr & Ht).
    erewrite bind_run by exact Hr.
    unfold set_dirs, bind, get_self, set_self. simpl.
    eexists. split; [reflexivity|]. simpl.
    repeat (split; [reflexivity|]).
    destruct (FS.names_directory (fs w) (cwd w) (basedir d)); [|exact Ht].
    destruct (PyStr.ends_in_dot (basedir d)).
    + destruct (FSFacts.clear_lookup _ _ _ Ht) as [Hthere Hrest].
      split; assumption.
    + split.
      * intros q Hq. unfold FS.rmtree in Ht.
        eapply FSFacts.alter_root_lookup_apart; eauto.
      * intros HB. now apply (FSFacts.rmtree_lookup _ _ _ Ht HB).
  - exists w. rewrite Hd. repeat split.
Qed.



End Cleanup.

(* --------------------------------------------------------------------- *)
(** *** Failures of [render_chapter]                                     *)
(* --------------------------------------------------------------------- *)

Section RenderFailures.

Context (E : Env).
Implicit Types w : World E.

(** C8. When the factory raises for a chapter, [render_chapter] raises
    that same exception.  The factory was called once, no page file
    was opened, and the builder still has its layout and template, so
    the caller may call [render_chapter] again or go on. *)
Theorem conversion_error_propagates w d t a ch e t' :
  dirs (self w) = Some d ->
  template (self w) = Some t ->
  factory_render E ch (images d) t (ChapterKw (epub (self w)) ch) (fs w)
  = (Raise e, t') ->
  exists w',
    render_chapter a ch w = (Raise e, w')
    /\ dirs (self w') = Some d
    /\ template (self w') = Some t
    /\ fs w' = t'
    /\ trace w'
       = trace w
         ++ [EvDebug (LogRenderingChapter (a_play_order a) (ch_title ch));
             EvFactoryRender ch (images d) (ChapterKw (epub (self w)) ch)].
Proof.
  intros Hd Ht Hf. unfold render_chapter.
  erewrite bind_run by (unfold get_self; reflexivity).
  rewrite Hd, Ht.
  erewrite bind_run
    by (unfold append_chapter, bind, get_self, set_self; reflexivity).
  erewrite bind_run by (unfold debug, emit; reflexivity).
  erewrite bind_raise.
  2:{ unfold factory_call, bind, emit, set_fs. simpl. rewrite Hf. reflexivity. }
  eexists. split; [reflexivity|]. simpl.
  rewrite <- app_assoc. simpl. auto.
Qed.

Lemma fs_query_ok {A} path (op : list string -> node -> errno + A) w a w1 :
  fs_query path op w = (Ok a, w1) -> w1 = w.
Proof.
  unfold fs_query. destruct (String.eqb path ""); [discriminate|].
  destruct (op _ _); intros H; inversion H; reflexivity.
Qed.

(** When [index] returns, the template of the navigation document was
    rendered with [self.chapters] as the builder held it. *)
Lemma index_renders_chapters w w' :
  index w = (Ok tt, w') ->
  exists styles images,
    In (EvTemplateRender
          (IndexKw (uid (self w)) (epub (self w)) styles
                   (chapters (self w)) images))
       (trace w').
Proof.
  unfold index. intros H.
  apply bind_ok in H. destruct H as (s & w0 & Hs & H).
  unfold get_self in Hs. inversion Hs; subst s w0; clear Hs.
  destruct (dirs (self w)) as [d|]; [|discriminate].
  apply bind_ok in H. destruct H as (st & w1 & Hst & H).
  apply fs_query_ok in Hst. subst w1.
  apply bind_ok in H. destruct H as (im & w1 & Him & H).
  apply fs_query_ok in Him. subst w1.
  exists st, (map (fun fname => mkMimeFile fname (get_extension fname)) im).
  set (ev := EvTemplateRender _).
  apply bind_ok in H. destruct H as (u0 & w1 & _ & H).
  apply bind_ok in H. destruct H as (u1 & w2 & H1 & H2).
  match type of H2 with
  | ?c w2 = _ =>
      pose proof (adds_In (fun _ => True) c w2 ev
                    (adds_true_render_template _ _ _ _)) as K
  end.
  rewrite H2 in K. apply K. clear K H2.
  unfold render_template in H1.
  apply bind_ok in H1. destruct H1 as (tp & w3 & _ & H1).
  apply bind_ok in H1. destruct H1 as (content & w4 & Hr & H1).
  assert (Hin : In ev (trace w4)).
  { unfold render, bind, emit, lift_res in Hr. simpl in Hr.
    inversion Hr; subst. simpl. apply in_or_app. right. now left. }
  match type of H1 with
  | ?rest w4 = _ =>
      assert (G : adds (fun _ => True) rest)
        by (apply adds_bind;
            [apply adds_true_open_w|intros; apply adds_true_f_write]);
      pose proof (adds_In _ _ w4 _ G Hin) as K; rewrite H1 in K; exact K
  end.
Qed.

(** C10. Past its guard, [render_chapter] appends the pair before it
    calls the factory and writes the file: whatever the outcome of the
    call, an exception included, the pair is the last entry of
    [self.chapters] afterwards, the builder is still begun, and an
    [index] that returns after that has rendered its templates with
    the accumulator that ends with this pair. *)
Theorem failed_chapter_stays_recorded w d t a ch r w' :
  dirs (self w) = Some d ->
  template (self w) = Some t ->
  render_chapter a ch w = (r, w') ->
  chapters (self w') = chapters (self w) ++ [(a, ch)]
  /\ dirs (self w') = Some d
  /\ forall w'', index w' = (Ok tt, w'') ->
       exists styles images,
         In (EvTemplateRender
               (IndexKw (uid (self w)) (epub (self w)) styles
                        (chapters (self w) ++ [(a, ch)]) images))
            (trace w'').
Proof.
  intros Hd Ht H.
  pose proof (render_chapter_began E w d t a ch Hd Ht) as K.
  rewrite H in K. simpl in K.
  split; [now rewrite K|]. split; [now rewrite K|].
  intros w'' Hi. apply index_renders_chapters in Hi.
  destruct Hi as (st & im & Hin). exists st, im.
  now rewrite K in Hin.
Qed.

End RenderFailures.

(* --------------------------------------------------------------------- *)
(** *** Strings and paths                                                *)
(* --------------------------------------------------------------------- *)

Module PyStrFacts.

Import PyStr.
Local Open Scope string_scope.

Lemma append_nil_r s : s ++ "" = s.
Proof. induction s; simpl; congruence. Qed.

Lemma append_assoc s t u : (s ++ t) ++ u = s ++ t ++ u.
Proof. induction s; simpl; congruence. Qed.

Lemma length_append s t : String.length (s ++ t) = String.length s + String.length t.
Proof. induction s; simpl; auto. Qed.

Lemma eqb_length a b :
  String.length a <> String.length b -> String.eqb a b = false.
Proof. intros H. apply String.eqb_neq. intros ->. now apply H. Qed.

Lemma prefix_append p s : String.prefix p (p ++ s) = true.
Proof.
  induction p as [|c p IH]; simpl; [now destruct s|].
  destruct (ascii_dec c c); [assumption|contradiction].
Qed.

Lemma skip_append p s : skip (String.length p) (p ++ s) = s.
Proof. induction p; simpl; auto. Qed.

Lemma prefix_skip sep : forall u,
  String.prefix sep u = true -> u = sep ++ skip (String.length sep) u.
Proof.
  induction sep as [|x sep IH]; intros u H; [reflexivity|].
  destruct u as [|y u]; simpl in H; [discriminate|].
  destruct (ascii_dec x y); [|discriminate].
  subst y. simpl. f_equal. now apply IH.
Qed.

Lemma partition_unfold sep s :
  partition sep s
  = if String.prefix sep s then Some ("", skip (String.length sep) s)
    else match s with
         | EmptyString => None
         | String c s' =>
             match partition sep s' with
             | Some (a, b) => Some (String c a, b)
             | None => None
             end
         end.
Proof. destruct s; reflexivity. Qed.

(** [s.split(sep, 1)[1]] of a string that starts with [sep]. *)
Lemma split1_second_prefix sep s : split1_second sep (sep ++ s) = Some s.
Proof.
  unfold split1_second.
  now rewrite partition_unfold, prefix_append, skip_append.
Qed.

(** What [rpartition] returns are the two sides of an occurrence. *)
Lemma rpartition_spec sep s : forall a b,
  rpartition sep s = Some (a, b) -> s = a ++ sep ++ b.
Proof.
  induction s as [|c s IH]; intros a b H; cbn [rpartition] in H;
    [discriminate|].
  destruct (rpartition sep s) as [[a' b']|] eqn:Er.
  - inversion H; subst. simpl. f_equal. now apply IH.
  - destruct (String.prefix sep (String c s)) eqn:Ep; [|discriminate].
    inversion H; subst. simpl. now apply prefix_skip.
Qed.

(** The rightmost [.epub] of a string that ends with it is that end. *)
Lemma rpartition_epub p : rpartition ".epub" (p ++ ".epub") = Some (p, "").
Proof.
  induction p as [|c p IH]; [reflexivity|].
  change (String c p ++ ".epub") with (String c (p ++ ".epub")).
  cbn [rpartition]. now rewrite IH.
Qed.

Lemma rsplit1_first_epub p : rsplit1_first ".epub" (p ++ ".epub") = p.
Proof. unfold rsplit1_first. now rewrite rpartition_epub. Qed.

Lemma join_ext a f ext : exists q, join a (f ++ ext) = q ++ ext.
Proof.
  unfold join. destruct (startswith "/" (f ++ ext)); [now exists f|].
  destruct (_ || _).
  - exists (a ++ f). now rewrite append_assoc.
  - exists (a ++ "/" ++ f). now rewrite !append_assoc.
Qed.

Lemma has_slash_append s t : FS.has_slash (s ++ t) = FS.has_slash s || FS.has_slash t.
Proof.
  induction s as [|c s IH]; simpl; [reflexivity|].
  now rewrite IH, orb_assoc.
Qed.

Lemma split_slash_no_slash s : FS.has_slash s = false -> split_slash s = [s].
Proof.
  induction s as [|c s IH]; simpl; intros H; [reflexivity|].
  apply orb_false_iff in H. destruct H as [Hc Hs].
  rewrite Hc, (IH Hs). reflexivity.
Qed.

(** Appending text without a slash extends the last component. *)
Lemma split_slash_ext ext : FS.has_slash ext = false -> forall q,
  exists init l,
    split_slash q = (init ++ [l])%list
    /\ split_slash (q ++ ext) = (init ++ [(l ++ ext)%string])%list.
Proof.
  intros He. induction q as [|c q (init & l & H1 & H2)]; simpl.
  - exists [], "". simpl. now rewrite split_slash_no_slash.
  - destruct (Ascii.eqb c "/").
    + exists ("" :: init), l. rewrite H1, H2. now split.
    + rewrite H1, H2. destruct init as [|h t]; simpl.
      * exists [], (String c l). now split.
      * exists (String c h :: t), l. now split.
Qed.

Lemma startswith_slash_append q ext :
  startswith "/" ext = false ->
  startswith "/" (q ++ ext) = startswith "/" q.
Proof.
  unfold startswith. intros H. destruct q as [|c q].
  - simpl. now rewrite H.
  - change (String c q ++ ext) with (String c (q ++ ext)).
    cbn [String.prefix]. destruct (ascii_dec "/" c); [|reflexivity].
    destruct (q ++ ext); destruct q; reflexivity.
Qed.

Lemma norm_step_push st c :
  String.eqb c "" = false -> String.eqb c "." = false ->
  String.eqb c ".." = false -> FS.norm_step st c = c :: st.
Proof. unfold FS.norm_step. now intros -> -> ->. Qed.

(** A path that ends with an extension names the entry of that name,
    and the same path with another extension names its neighbour. *)
Lemma resolve_ext cwd q ext :
  FS.has_slash ext = false -> startswith "/" ext = false ->
  3 <= String.length ext ->
  exists parent l,
    FS.resolve cwd (q ++ ext) = (parent ++ [(l ++ ext)%string])%list
    /\ (forall ext', FS.has_slash ext' = false -> startswith "/" ext' = false ->
                     3 <= String.length ext' ->
                     FS.resolve cwd (q ++ ext') = (parent ++ [(l ++ ext')%string])%list).
Proof.
  intros He0 Hs0 Hl0.
  destruct (split_slash_ext "" eq_refl q) as (init & l & H1 & _).
  exists (rev (fold_left FS.norm_step init
                 (if startswith "/" q then [] else rev cwd))), l.
  assert (G : forall e, FS.has_slash e = false -> startswith "/" e = false ->
                        3 <= String.length e ->
                        FS.resolve cwd (q ++ e)
                        = (rev (fold_left FS.norm_step init
                                  (if startswith "/" q then [] else rev cwd))
                             ++ [(l ++ e)%string])%list).
  { intros e He Hs Hl. unfold FS.resolve.
    destruct (split_slash_ext e He q) as (init' & l' & H1' & H2').
    rewrite H1 in H1'. apply app_inj_tail in H1'. destruct H1' as [<- <-].
    rewrite H2', startswith_slash_append by assumption.
    rewrite fold_left_app. simpl.
    rewrite norm_step_push; [reflexivity| | |];
      apply eqb_length; rewrite length_append; simpl; lia. }
  split; [|exact G].
  apply G; assumption.
Qed.

Lemma startswith_slash_has_slash s :
  FS.has_slash s = false -> startswith "/" s = false.
Proof.
  unfold startswith. destruct s as [|c s]; [reflexivity|].
  cbn [String.prefix FS.has_slash]. intros H.
  apply orb_false_iff in H. destruct H as [Hc _].
  destruct (ascii_dec "/" c) as [<-|]; [discriminate|reflexivity].
Qed.

Lemma has_slash_rsplit1_first sep s :
  FS.has_slash s = false -> FS.has_slash (rsplit1_first sep s) = false.
Proof.
  unfold rsplit1_first. intros H.
  destruct (rpartition sep s) as [[a b]|] eqn:Er; [|assumption].
  apply rpartition_spec in Er. subst s.
  rewrite has_slash_append in H. now apply orb_false_iff in H.
Qed.

(** A plain file name joined to [.] names an entry of the current
    directory. *)
Lemma resolve_dot_join cwd name :
  FS.has_slash name = false ->
  String.eqb name "" = false -> String.eqb name "." = false ->
  String.eqb name ".." = false ->
  FS.resolve cwd (join "." name) = (cwd ++ [name])%list.
Proof.
  intros Hs H1 H2 H3. unfold join.
  rewrite (startswith_slash_has_slash _ Hs).
  change (String.eqb "." "" || endswith_slash ".") with false.
  cbv iota. unfold FS.resolve.
  change ("." ++ "/" ++ name) with (String "." (String "/" name)).
  change (startswith "/" (String "." (String "/" name))) with false.
  cbv iota.
  change (split_slash (String "." (String "/" name)))
    with (match "" :: split_slash name with
          | [] => ["."]
          | h :: t => String "." h :: t
          end).
  rewrite (split_slash_no_slash _ Hs). simpl fold_left.
  change (FS.norm_step (rev cwd) ".") with (rev cwd).
  rewrite norm_step_push by assumption.
  simpl. now rewrite rev_involutive.
Qed.

End PyStrFacts.

(* --------------------------------------------------------------------- *)
(** *** [compress]: the names and the order of the steps                 *)
(* --------------------------------------------------------------------- *)

Lemma rename_lookup src dst root root' :
  FS.rename src dst root = inr root' ->
  FS.lookup dst root' = FS.lookup src root.
Proof.
  unfold FS.rename. destruct (FS.lookup src root) as [n|] eqn:Hs; [|discriminate].
  destruct (FS.same_path src dst) eqn:Esame.
  - intros H. inversion H; subst.
    apply FSFacts.same_path_eq in Esame. now subst dst.
  - destruct (FS.is_prefix src dst); [discriminate|].
    destruct (FS.alter_root src _ root) as [e|r1]; [discriminate|].
    intros H. apply FSFacts.alter_root_inv in H. destruct H as (o' & Ha & ->).
    apply FSFacts.alter_lookup_same in Ha.
    destruct (lookup_opt dst (Some r1)) as [[c|[|x es]]|], n as [cn|esn];
      try discriminate; inversion Ha as [K];
      destruct o' as [r|]; simpl in K; try discriminate; now rewrite K.
Qed.

Section CompressSteps.

Context (E : Env).
Implicit Types w : World E.

Lemma fs_update_ok path op ev w u w1 :
  fs_update path op ev w = (Ok u, w1) ->
  path <> ""%string
  /\ exists t, op (FS.resolve (cwd w) path) (fs w) = inr t
               /\ w1 = mkWorld (self w) t (cwd w) (ntmp w) (trace w ++ [ev]).
Proof.
  unfold fs_update. destruct (String.eqb path "") eqn:Ep; [discriminate|].
  apply String.eqb_neq in Ep.
  destruct (op _ _) as [e|t]; [discriminate|].
  intros H. inversion H; subst. split; [assumption|]. now exists t.
Qed.

Lemma rename_ok src dst w u w1 :
  rename src dst w = (Ok u, w1) ->
  exists t, FS.rename (FS.resolve (cwd w) src) (FS.resolve (cwd w) dst) (fs w)
            = inr t
            /\ w1 = mkWorld (self w) t (cwd w) (ntmp w)
                            (trace w ++ [EvRename src dst]).
Proof.
  unfold rename. destruct (_ || _); [discriminate|].
  destruct (FS.rename _ _ _) as [e|t]; [discriminate|].
  intros H. inversion H; subst. now exists t.
Qed.

Lemma os_walk_run top w : os_walk top w = (Ok (walk_of top w), w).
Proof.
  unfold os_walk, walk_of. destruct (String.eqb top ""); [reflexivity|].
  now destruct (FS.lookup _ _).
Qed.

(** The two names [compress] computes differ in their extension only. *)
Lemma compress_paths_shape ttl fpath0 :
  exists stem,
    compress_paths ttl fpath0 = ((stem ++ ".epub")%string, (stem ++ ".zip")%string).
Proof.
  unfold compress_paths.
  match goal with
  | |- context [PyStr.join ?a (?f ++ ".epub")%string] =>
      destruct (PyStrFacts.join_ext a f ".epub") as [q Hq]; rewrite Hq
  end.
  exists q. now rewrite PyStrFacts.rsplit1_first_epub.
Qed.

(** The steps of a [compress] that returned. *)
Lemma compress_ok_inv w fpath0 fpath w' :
  compress fpath0 w = (Ok fpath, w') ->
  exists d fzip t1 w3 ms t5 t6,
    dirs (self w) = Some d
    /\ compress_paths (title (epub (self w))) fpath0 = (fpath, fzip)
    /\ fzip <> ""%string
    /\ FS.write (FS.resolve (cwd w) fzip) (Zip false []) (fs w) = inr t1
    /\ (let w2 := mkWorld (self w) t1 (cwd w) (ntmp w)
                    (trace w ++ [EvDebug (LogZipping (title (epub (self w))));
                                 EvZipOpen fzip]) in
        for_each (walk_of (basedir d) w2) (compress_dir fzip (basedir d)) w2
        = (Ok tt, w3))
    /\ FS.lookup (FS.resolve (cwd w3) fzip) (fs w3) = Some (File (Zip false ms))
    /\ FS.write (FS.resolve (cwd w3) fzip) (Zip true ms) (fs w3) = inr t5
    /\ FS.rename (FS.resolve (cwd w3) fzip) (FS.resolve (cwd w3) fpath) t5 = inr t6
    /\ w' = mkWorld (self w3) t6 (cwd w3) (ntmp w3)
              (trace w3 ++ [EvZipClose fzip; EvRename fzip fpath]).
Proof.
  unfold compress. intros H.
  apply bind_ok in H. destruct H as (s & w0 & Hs & H).
  unfold get_self in Hs. inversion Hs; subst s w0; clear Hs.
  destruct (dirs (self w)) as [d|]; [|discriminate].
  destruct (compress_paths (title (epub (self w))) fpath0) as [fp fz] eqn:Ep.
  apply bind_ok in H. destruct H as (u0 & w1 & Hdbg & H).
  unfold debug, emit in Hdbg. inversion Hdbg; subst w1; clear Hdbg.
  apply bind_ok in H. destruct H as (u1 & w2 & Hopen & H).
  apply fs_update_ok in Hopen. destruct Hopen as (Hne & t1 & Hw & ->).
  simpl in Hw.
  apply bind_ok in H. destruct H as (entries & w2' & Hwalk & H).
  rewrite os_walk_run in Hwalk. inversion Hwalk; subst entries w2'; clear Hwalk.
  apply bind_ok in H. destruct H as (u2 & w3 & Hloop & H).
  apply bind_ok in H. destruct H as (u3 & w4 & Hclose & H).
  apply fs_update_ok in Hclose. destruct Hclose as (_ & t5 & Hc & ->).
  apply bind_ok in H. destruct H as (u4 & w5 & Hren & H).
  apply rename_ok in Hren. destruct Hren as (t6 & Hr & ->).
  simpl in Hr. inversion H; subst; clear H.
  destruct (FS.lookup (FS.resolve (cwd w3) fz) (fs w3)) as [[[?|[|] ms]|?]|] eqn:Hl;
    try discriminate.
  exists d, fz, t1, w3, ms, t5, t6.
  destruct u2. rewrite <- app_assoc in Hloop. simpl in Hloop.
  rewrite <- app_assoc. simpl.
  repeat (split; [first [reflexivity|assumption]|]). reflexivity.
Qed.

Lemma adds_compress_dir fzip base entry :
  adds (E:=E) (is_zip_write fzip) (compress_dir fzip base entry).
Proof.
  unfold compress_dir, zip_write. destruct entry as [[root ds] files].
  grow. apply adds_fs_update. unfold is_zip_write. eauto.
Qed.

Lemma bind_cases {A B} (c : M E A) (k : A -> M E B) w r w' :
  bind c k w = (r, w') ->
  (exists e, c w = (Raise e, w') /\ r = Raise e)
  \/ (exists a w1, c w = (Ok a, w1) /\ k a w1 = (r, w')).
Proof.
  unfold bind. destruct (c w) as [[a|e] w1]; intros H.
  - right. now exists a, w1.
  - left. inversion H; subst. now exists e.
Qed.

Lemma adds_run {A} P (c : M E A) w x w1 :
  adds P c -> c w = (x, w1) ->
  exists evs, trace w1 = trace w ++ evs /\ Forall P evs.
Proof. intros Ha Hc. specialize (Ha w). now rewrite Hc in Ha. Qed.

Lemma rename_raise src dst w e w1 :
  rename src dst w = (Raise e, w1) -> w1 = w.
Proof.
  unfold rename. destruct (_ || _); [now intros H; inversion H|].
  destruct (FS.rename _ _ _); intros H; inversion H; reflexivity.
Qed.

Lemma adds_zip_open fzip : adds (E:=E) (on_temp fzip) (zip_open fzip).
Proof. unfold zip_open. apply adds_fs_update. unfold on_temp. auto. Qed.

Lemma adds_zip_close fzip : adds (E:=E) (on_temp fzip) (zip_close fzip).
Proof. unfold zip_close. apply adds_fs_update. unfold on_temp. auto. Qed.

Lemma adds_compress_loop fzip base entries :
  adds (E:=E) (on_temp fzip) (for_each entries (compress_dir fzip base)).
Proof.
  apply adds_for_each. intros entry.
  apply adds_weaken with (P := is_zip_write fzip);
    [|apply adds_compress_dir].
  intros ev Hev. unfold on_temp. auto.
Qed.

(** When [compress] raises, whatever it has done to the file system it
    has done to the temporary archive. *)
Lemma compress_raise_trace w fpath0 e w' :
  compress fpath0 w = (Raise e, w') ->
  exists evs,
    trace w' = trace w ++ evs
    /\ Forall (on_temp (snd (compress_paths (title (epub (self w))) fpath0))) evs.
Proof.
  unfold compress. intros H.
  apply bind_cases in H. destruct H as [(e0 & Hs & _)|(s & w0 & Hs & H)];
    [discriminate|].
  unfold get_self in Hs. inversion Hs; subst s w0; clear Hs.
  destruct (dirs (self w)) as [d|].
  2:{ inversion H; subst. exists []. now rewrite app_nil_r. }
  destruct (compress_paths (title (epub (self w))) fpath0) as [fp fz] eqn:Ep.
  simpl.
  apply bind_cases in H. destruct H as [(e0 & Hs & _)|(u0 & w1 & Hdbg & H)];
    [discriminate|].
  unfold debug, emit in Hdbg. inversion Hdbg; subst w1; clear Hdbg.
  assert (Hdebug : on_temp fz (EvDebug (LogZipping (title (epub (self w)))))).
  { unfold on_temp. left. eauto. }
  apply bind_cases in H. destruct H as [(e0 & Hs & _)|(u1 & w2 & Hopen & H)].
  { destruct (adds_run _ _ _ _ _ (adds_zip_open fz) Hs) as (evs & Ht & Hp).
    simpl in Ht. exists (EvDebug (LogZipping (title (epub (self w)))) :: evs).
    split; [now rewrite Ht, <- app_assoc|now constructor]. }
  destruct (adds_run _ _ _ _ _ (adds_zip_open fz) Hopen) as (evs2 & Ht2 & Hp2).
  simpl in Ht2.
  apply bind_cases in H. destruct H as [(e0 & Hs & _)|(entries & w3 & Hwalk & H)].
  { rewrite os_walk_run in Hs. discriminate. }
  rewrite os_walk_run in Hwalk. inversion Hwalk; subst entries w3; clear Hwalk.
  apply bind_cases in H. destruct H as [(e0 & Hs & _)|(u3 & w4 & Hloop & H)].
  { destruct (adds_run _ _ _ _ _ (adds_compress_loop fz (basedir d) _) Hs)
      as (evs & Ht & Hp).
    exists (EvDebug (LogZipping (title (epub (self w)))) :: evs2 ++ evs).
    split; [rewrite Ht, Ht2, <- !app_assoc; reflexivity|].
    constructor; [assumption|]. apply Forall_app. now split. }
  destruct (adds_run _ _ _ _ _ (adds_compress_loop fz (basedir d) _) Hloop)
    as (evs4 & Ht4 & Hp4).
  apply bind_cases in H. destruct H as [(e0 & Hs & _)|(u5 & w5 & Hclose & H)].
  { destruct (adds_run _ _ _ _ _ (adds_zip_close fz) Hs) as (evs & Ht & Hp).
    exists (EvDebug (LogZipping (title (epub (self w)))) :: evs2 ++ evs4 ++ evs).
    split; [rewrite Ht, Ht4, Ht2, <- !app_assoc; reflexivity|].
    constructor; [assumption|]. repeat (apply Forall_app; split); assumption. }
  destruct (adds_run _ _ _ _ _ (adds_zip_close fz) Hclose) as (evs5 & Ht5 & Hp5).
  apply bind_cases in H. destruct H as [(e0 & Hs & _)|(u6 & w6 & Hren & H)].
  { apply rename_raise in Hs. subst w'.
    exists (EvDebug (LogZipping (title (epub (self w)))) :: evs2 ++ evs4 ++ evs5).
    split; [rewrite Ht5, Ht4, Ht2, <- !app_assoc; reflexivity|].
    constructor; [assumption|]. repeat (apply Forall_app; split); assumption. }
  discriminate.
Qed.

(** The two names of [compress] and the entries they stand for. *)
Lemma compress_names w fpath0 :
  exists stem parent leaf,
    compress_paths (title (epub (self w))) fpath0
    = ((stem ++ ".epub")%string, (stem ++ ".zip")%string)
    /\ (stem ++ ".epub")%string
       = PyStr.join
           (match truthy fpath0 with
            | Some p => PyStr.dirname p
            | None => "."%string
            end)
           (PyStr.rsplit1_first ".epub"
              (match truthy fpath0 with
               | Some p => PyStr.basename p
               | None => title (epub (self w))
               end) ++ ".epub")%string
    /\ FS.resolve (cwd w) (stem ++ ".epub")%string
       = parent ++ [(leaf ++ ".epub")%string]
    /\ FS.resolve (cwd w) (stem ++ ".zip")%string
       = parent ++ [(leaf ++ ".zip")%string]
    /\ (truthy fpath0 = None ->
        FS.has_slash (title (epub (self w))) = false ->
        FS.resolve (cwd w) (stem ++ ".epub")%string
        = cwd w ++ [(PyStr.rsplit1_first ".epub" (title (epub (self w)))
                     ++ ".epub")%string]).
Proof.
  destruct (compress_paths_shape (title (epub (self w))) fpath0) as [stem Hs].
  destruct (PyStrFacts.resolve_ext (cwd w) stem ".epub" eq_refl eq_refl)
    as (parent & leaf & Hre & Hrz); [simpl; lia|].
  exists stem, parent, leaf.
  split; [exact Hs|].
  assert (Hfp : (stem ++ ".epub")%string
                = fst (compress_paths (title (epub (self w))) fpath0))
    by now rewrite Hs.
  split; [rewrite Hfp; reflexivity|].
  split; [exact Hre|].
  split; [apply Hrz; [reflexivity|reflexivity|simpl; lia]|].
  intros Hnone Hslash. rewrite Hfp. unfold compress_paths. rewrite Hnone.
  cbn [fst].
  apply PyStrFacts.resolve_dot_join.
  - rewrite PyStrFacts.has_slash_append.
    now rewrite PyStrFacts.has_slash_rsplit1_first.
  - apply PyStrFacts.eqb_length. rewrite PyStrFacts.length_append. simpl. lia.
  - apply PyStrFacts.eqb_length. rewrite PyStrFacts.length_append. simpl. lia.
  - apply PyStrFacts.eqb_length. rewrite PyStrFacts.length_append. simpl. lia.
Qed.

(** C6, as the code has it.  The final path of [compress] is
    [os.path.join] of a directory and a file name: without a
    destination, [.] and the build title cut before its last [.epub],
    with [.epub] appended; with a destination, the directory part of the
    destination and its last component treated the same way.  The title
    is used as it is: the final path is an entry of the current directory
    when the title has no slash.  The archive is written under the same
    path with [.zip] for the final [.epub], which names another entry of
    the same directory.  When [compress] returns, it returns the final
    path, and the trace of the call is the debug line, the creation of
    the temporary file, writes to it, its closing, and last the renaming
    to the final path, where a closed archive then stands.  When it
    raises, it has touched no file but the temporary one. *)
Theorem compress_destination w fpath0 r w' :
  compress fpath0 w = (r, w') ->
  exists stem parent leaf,
    compress_paths (title (epub (self w))) fpath0
    = ((stem ++ ".epub")%string, (stem ++ ".zip")%string)
    /\ (stem ++ ".epub")%string
       = PyStr.join
           (match truthy fpath0 with
            | Some p => PyStr.dirname p
            | None => "."%string
            end)
           (PyStr.rsplit1_first ".epub"
              (match truthy fpath0 with
               | Some p => PyStr.basename p
               | None => title (epub (self w))
               end) ++ ".epub")%string
    /\ FS.resolve (cwd w) (stem ++ ".epub")%string
       = parent ++ [(leaf ++ ".epub")%string]
    /\ FS.resolve (cwd w) (stem ++ ".zip")%string
       = parent ++ [(leaf ++ ".zip")%string]
    /\ (truthy fpath0 = None ->
        FS.has_slash (title (epub (self w))) = false ->
        FS.resolve (cwd w) (stem ++ ".epub")%string
        = cwd w ++ [(PyStr.rsplit1_first ".epub" (title (epub (self w)))
                     ++ ".epub")%string])
    /\ match r with
       | Ok fpath =>
           fpath = (stem ++ ".epub")%string
           /\ exists writes ms,
                trace w'
                = trace w
                  ++ [EvDebug (LogZipping (title (epub (self w))));
                      EvZipOpen (stem ++ ".zip")%string]
                  ++ writes
                  ++ [EvZipClose (stem ++ ".zip")%string;
                      EvRename (stem ++ ".zip")%string (stem ++ ".epub")%string]
                /\ Forall (is_zip_write (stem ++ ".zip")%string) writes
                /\ archive_at (FS.resolve (cwd w) fpath) (fs w') = Some ms
       | Raise _ =>
           exists evs,
             trace w' = trace w ++ evs
             /\ Forall (on_temp (stem ++ ".zip")%string) evs
       end.
Proof.
  intros H.
  destruct (compress_names w fpath0)
    as (stem & parent & leaf & Hs & Hjoin & Hre & Hrz & Hcwdp).
  exists stem, parent, leaf.
  split; [exact Hs|]. split; [exact Hjoin|]. split; [exact Hre|].
  split; [exact Hrz|]. split; [exact Hcwdp|].
  destruct r as [fpath|e].
  - apply compress_ok_inv in H.
    destruct H as (d & fzip & t1 & w3 & ms & t5 & t6 & Hd & Hp & Hne & Hw
                   & Hloop & Hl & Hc & Hr & ->).
    cbv zeta in Hloop.
    assert (Hcwd : cwd w3 = cwd w).
    { match type of Hloop with
      | ?c ?w2 = _ =>
          assert (K : keeps (@cwd E) c)
            by (apply keeps_for_each; intros; apply keeps_compress_dir;
                apply inert_cwd);
          specialize (K w2); rewrite Hloop in K; exact K
      end. }
    rewrite Hcwd in *.
    rewrite Hs in Hp. inversion Hp; subst fpath fzip. clear Hp.
    split; [reflexivity|].
    match type of Hloop with
    | ?c ?w2 = _ =>
        assert (K : adds (is_zip_write (stem ++ ".zip")%string) c)
          by (apply adds_for_each; intros; apply adds_compress_dir);
        destruct (K w2) as (writes & Ht & Hwr); rewrite Hloop in Ht;
        simpl in Ht
    end.
    exists writes, ms.
    split; [|split; [exact Hwr|]].
    + simpl. rewrite Ht. rewrite <- !app_assoc. reflexivity.
    + unfold archive_at. simpl.
      rewrite (rename_lookup _ _ _ _ Hr).
      now rewrite (FSFacts.write_lookup_same _ _ _ _ Hc).
  - apply compress_raise_trace in H. now rewrite Hs in H.
Qed.

End CompressSteps.

(* --------------------------------------------------------------------- *)
(** *** Paths built by [os.walk]                                         *)
(* --------------------------------------------------------------------- *)

Module PathFacts.

Import PyStr PyStrFacts.
Local Open Scope string_scope.

Lemma valid_name_inv k :
  FS.valid_name k = true ->
  String.eqb k "" = false /\ String.eqb k "." = false
  /\ String.eqb k ".." = false /\ FS.has_slash k = false.
Proof.
  unfold FS.valid_name. intros H.
  repeat (apply andb_true_iff in H; destruct H as [H ?]).
  repeat split; now apply negb_true_iff.
Qed.

Lemma split_slash_nonnil a : split_slash a <> [].
Proof.
  destruct a as [|c a]; simpl; [discriminate|].
  destruct (Ascii.eqb c "/"); [discriminate|].
  destruct (split_slash a); discriminate.
Qed.

Lemma split_slash_app_slash a b :
  split_slash (a ++ String "/" b) = (split_slash a ++ split_slash b)%list.
Proof.
  induction a as [|c a IH]; simpl; [reflexivity|].
  destruct (Ascii.eqb c "/"); rewrite IH; [reflexivity|].
  pose proof (split_slash_nonnil a) as Hn.
  destruct (split_slash a); [contradiction|reflexivity].
Qed.

Lemma endswith_slash_inv a :
  endswith_slash a = true -> exists a', a = a' ++ "/".
Proof.
  induction a as [|c a IH]; simpl; [discriminate|].
  destruct a as [|c' a].
  - intros H. apply Ascii.eqb_eq in H. subst c. now exists "".
  - intros H. destruct (IH H) as [a' Ha]. exists (String c a').
    simpl. now rewrite <- Ha.
Qed.

Lemma endswith_slash_append a b :
  b <> "" -> endswith_slash (a ++ b) = endswith_slash b.
Proof.
  intros Hb. induction a as [|c a IH]; [reflexivity|].
  change (String c a ++ b) with (String c (a ++ b)).
  cbn [endswith_slash]. destruct (a ++ b) eqn:Eab; [|exact IH].
  destruct a; [simpl in Eab; contradiction|discriminate].
Qed.

Lemma endswith_slash_no_slash s : FS.has_slash s = false -> endswith_slash s = false.
Proof.
  induction s as [|c s IH]; simpl; [reflexivity|]. intros H.
  apply orb_false_iff in H. destruct H as [Hc Hs].
  destruct s; [assumption|now apply IH].
Qed.

Lemma startswith_append_nonempty a b :
  a <> "" -> startswith "/" (a ++ b) = startswith "/" a.
Proof.
  unfold startswith. destruct a as [|c a]; [contradiction|]. intros _.
  change (String c a ++ b) with (String c (a ++ b)).
  cbn [String.prefix]. destruct (ascii_dec "/" c); [|reflexivity].
  destruct (a ++ b); destruct a; reflexivity.
Qed.

Lemma eqb_empty_false a : a <> "" -> String.eqb a "" = false.
Proof. intros H. now apply String.eqb_neq. Qed.

(** [join] with a valid entry name. *)
Lemma join_valid a k :
  FS.valid_name k = true -> a <> "" ->
  join a k = if endswith_slash a then a ++ k else a ++ "/" ++ k.
Proof.
  intros Hk Ha. apply valid_name_inv in Hk. destruct Hk as (_ & _ & _ & Hs).
  unfold join. rewrite (startswith_slash_has_slash _ Hs).
  now rewrite (eqb_empty_false _ Ha).
Qed.

Lemma append_nonempty_l a b : a <> "" -> a ++ b <> "".
Proof. destruct a; [contradiction|discriminate]. Qed.

Lemma join_nonempty a k : FS.valid_name k = true -> a <> "" -> join a k <> "".
Proof.
  intros Hk Ha. rewrite join_valid by assumption.
  destruct (endswith_slash a); now apply append_nonempty_l.
Qed.

(** The entry [k] of the directory [a]. *)
Lemma resolve_join cwd a k :
  FS.valid_name k = true -> a <> "" ->
  FS.resolve cwd (join a k) = (FS.resolve cwd a ++ [k])%list.
Proof.
  intros Hk Ha. rewrite join_valid by assumption.
  apply valid_name_inv in Hk. destruct Hk as (H1 & H2 & H3 & Hs).
  unfold FS.resolve.
  destruct (endswith_slash a) eqn:Ee.
  - destruct (endswith_slash_inv _ Ee) as [a' ->].
    rewrite startswith_append_nonempty by assumption.
    rewrite append_assoc.
    change ("/" ++ k) with (String "/" k).
    change (a' ++ "/") with (a' ++ String "/" "").
    rewrite !split_slash_app_slash, (split_slash_no_slash _ Hs).
    rewrite !fold_left_app. simpl.
    change (FS.norm_step ?s "") with s.
    now rewrite norm_step_push.
  - rewrite startswith_append_nonempty by assumption.
    change ("/" ++ k) with (String "/" k).
    rewrite split_slash_app_slash, (split_slash_no_slash _ Hs).
    rewrite fold_left_app. simpl.
    now rewrite norm_step_push.
Qed.

Lemma concat_snoc comps k :
  comps <> [] ->
  String.concat "/" (comps ++ [k]) = String.concat "/" comps ++ "/" ++ k.
Proof.
  induction comps as [|c comps IH]; [contradiction|]. intros _.
  destruct comps as [|c' comps]; [reflexivity|].
  change ((c :: c' :: comps) ++ [k])%list with (c :: ((c' :: comps) ++ [k]))%list.
  change (String.concat "/" (c :: (c' :: comps) ++ [k])%list)
    with (c ++ "/" ++ String.concat "/" ((c' :: comps) ++ [k])).
  rewrite IH by discriminate.
  change (String.concat "/" (c :: c' :: comps))
    with (c ++ "/" ++ String.concat "/" (c' :: comps)).
  now rewrite !append_assoc.
Qed.

Lemma concat_nonempty comps :
  comps <> [] -> forallb FS.valid_name comps = true ->
  String.concat "/" comps <> ""
  /\ startswith "/" (String.concat "/" comps) = false
  /\ endswith_slash (String.concat "/" comps) = false.
Proof.
  induction comps as [|c comps IH]; [contradiction|]. intros _ Hv.
  simpl in Hv. apply andb_true_iff in Hv. destruct Hv as [Hc Hv].
  apply valid_name_inv in Hc. destruct Hc as (Hne & _ & _ & Hs).
  apply String.eqb_neq in Hne.
  destruct comps as [|c' comps].
  - simpl. repeat split; [assumption| |].
    + now apply startswith_slash_has_slash.
    + now apply endswith_slash_no_slash.
  - change (String.concat "/" (c :: c' :: comps))
      with (c ++ "/" ++ String.concat "/" (c' :: comps)).
    destruct (IH ltac:(discriminate) Hv) as (Hn' & _ & He').
    repeat split.
    + now apply append_nonempty_l.
    + rewrite startswith_append_nonempty by assumption.
      now apply startswith_slash_has_slash.
    + rewrite endswith_slash_append by discriminate.
      now rewrite (endswith_slash_append "/").
Qed.

Lemma lstrip_slash_id s : startswith "/" s = false -> lstrip_slash s = s.
Proof.
  unfold startswith. destruct s as [|c s]; [reflexivity|].
  cbn [String.prefix lstrip_slash].
  destruct (ascii_dec "/" c) as [<-|Hn].
  - destruct s; discriminate.
  - intros _. destruct (Ascii.eqb c "/") eqn:Ec; [|reflexivity].
    apply Ascii.eqb_eq in Ec. congruence.
Qed.

End PathFacts.

(* --------------------------------------------------------------------- *)
(** *** Trees                                                            *)
(* --------------------------------------------------------------------- *)

Lemma node_nested_ind (P : node -> Prop) :
  (forall c, P (File c)) ->
  (forall es, Forall (fun e => P (snd e)) es -> P (Dir es)) ->
  forall n, P n.
Proof.
  intros Hf Hd. fix IH 1. intros [c|es].
  - apply Hf.
  - apply Hd. induction es as [|[k ch] es IHes]; constructor.
    + apply IH.
    + exact IHes.
Qed.

Module TreeFacts.

Import FS.

Lemma walk_dir top es :
  walk top (Dir es)
  = (top,
     map fst (filter (fun e => is_dir (snd e)) es),
     map fst (filter (fun e => negb (is_dir (snd e))) es))
    :: flat_map (fun e => walk (PyStr.join top (fst e)) (snd e)) es.
Proof.
  cbn [walk]. f_equal.
  induction es as [|[k ch] es IH]; [reflexivity|].
  cbn [flat_map fst snd]. now rewrite IH.
Qed.

Lemma members_from_dir comps es :
  members_from comps (Dir es)
  = file_members comps es
    ++ flat_map (fun e => members_from (comps ++ [fst e]) (snd e)) es.
Proof.
  cbn [members_from]. f_equal.
  - unfold file_members.
    induction es as [|[k [c|es']] es IH]; cbn [flat_map fst snd app];
      [reflexivity| |]; now rewrite IH.
  - induction es as [|[k ch] es IH]; [reflexivity|].
    cbn [flat_map fst snd]. now rewrite IH.
Qed.

Lemma wf_cons k ch es :
  wf (Dir ((k, ch) :: es)) = true ->
  valid_name k = true /\ fresh k es = true /\ wf ch = true
  /\ wf (Dir es) = true.
Proof.
  cbn [wf]. intros H.
  apply andb_true_iff in H. destruct H as [H H4].
  apply andb_true_iff in H. destruct H as [H H3].
  apply andb_true_iff in H. destruct H as [H1 H2].
  repeat split; assumption.
Qed.

Lemma fresh_in k es k' ch :
  fresh k es = true -> In (k', ch) es -> String.eqb k' k = false.
Proof.
  induction es as [|[k0 v0] es IH]; simpl; [contradiction|].
  intros H [Hin|Hin].
  - inversion Hin; subst. apply andb_true_iff in H. destruct H as [H _].
    apply negb_true_iff in H. now rewrite String.eqb_sym.
  - apply andb_true_iff in H. destruct H as [_ H]. now apply IH.
Qed.

(** In a well-formed directory, each entry is found under its name. *)
Lemma wf_dir_in es : wf (Dir es) = true -> forall k ch,
  In (k, ch) es ->
  valid_name k = true /\ wf ch = true /\ assoc k es = Some ch.
Proof.
  induction es as [|[k0 ch0] es IH]; intros Hwf k ch Hin; [contradiction|].
  apply wf_cons in Hwf. destruct Hwf as (Hv & Hf & Hc & Hes).
  destruct Hin as [Hin|Hin].
  - inversion Hin; subst. simpl. now rewrite String.eqb_refl.
  - destruct (IH Hes k ch Hin) as (Hv' & Hc' & Ha).
    simpl. now rewrite (fresh_in _ _ _ _ Hf Hin).
Qed.

Lemma assoc_in k es ch : assoc k es = Some ch -> In (k, ch) es.
Proof.
  induction es as [|[k0 v0] es IH]; simpl; [discriminate|].
  destruct (String.eqb k k0) eqn:Ek.
  - apply String.eqb_eq in Ek. subst k0. intros H. inversion H. now left.
  - intros H. right. now apply IH.
Qed.

Lemma apart_extend p : forall q x,
  apart p q = true -> apart p (q ++ x) = true.
Proof.
  unfold apart.
  induction p as [|a p IH]; intros q x H; simpl in *; [discriminate|].
  destruct q as [|b q]; simpl in *; [discriminate|].
  destruct (String.eqb a b) eqn:Eab.
  - rewrite String.eqb_sym in Eab. rewrite Eab in *. simpl in *.
    now apply IH.
  - rewrite String.eqb_sym in Eab. rewrite Eab. reflexivity.
Qed.

Lemma apart_sym p q : apart p q = apart q p.
Proof. unfold apart. apply andb_comm. Qed.

End TreeFacts.

Module WalkPaths.

Import PyStr PyStrFacts PathFacts.
Local Open Scope string_scope.

Lemma sep_concat_facts base comps :
  comps <> [] -> forallb FS.valid_name comps = true ->
  sep_of base ++ String.concat "/" comps <> ""
  /\ endswith_slash (sep_of base ++ String.concat "/" comps) = false.
Proof.
  intros Hne Hv. destruct (concat_nonempty comps Hne Hv) as (Hx & _ & He).
  split.
  - unfold sep_of. destruct (endswith_slash base); simpl; [assumption|discriminate].
  - now rewrite endswith_slash_append.
Qed.

Lemma top_of_nonempty base comps : base <> "" -> top_of base comps <> "".
Proof.
  intros Hb. unfold top_of. destruct comps; [assumption|].
  now apply append_nonempty_l.
Qed.

Lemma top_of_rel base comps : top_of base comps = base ++ rel_of base comps.
Proof.
  unfold top_of, rel_of. destruct comps; [now rewrite append_nil_r|reflexivity].
Qed.

Lemma top_of_snoc base comps k :
  base <> "" -> FS.valid_name k = true ->
  forallb FS.valid_name comps = true ->
  join (top_of base comps) k = top_of base (comps ++ [k]).
Proof.
  intros Hb Hk Hv.
  rewrite join_valid by (try assumption; now apply top_of_nonempty).
  destruct comps as [|c cs].
  - simpl. unfold sep_of. now destruct (endswith_slash base).
  - destruct (sep_concat_facts base (c :: cs) ltac:(discriminate) Hv)
      as (Hne & He).
    unfold top_of.
    change ((c :: cs) ++ [k])%list with (c :: (cs ++ [k]))%list.
    cbv iota.
    change (c :: (cs ++ [k]))%list with ((c :: cs) ++ [k])%list.
    rewrite endswith_slash_append, He by assumption.
    rewrite concat_snoc by discriminate.
    now rewrite !append_assoc.
Qed.

Lemma rel_of_join base comps k :
  FS.valid_name k = true ->
  forallb FS.valid_name comps = true ->
  lstrip_slash (join (rel_of base comps) k) = String.concat "/" (comps ++ [k]).
Proof.
  intros Hk Hv.
  pose proof (valid_name_inv _ Hk) as (_ & _ & _ & Hs).
  destruct comps as [|c cs].
  - simpl. unfold join. rewrite (startswith_slash_has_slash _ Hs). simpl.
    apply lstrip_slash_id. now apply startswith_slash_has_slash.
  - destruct (sep_concat_facts base (c :: cs) ltac:(discriminate) Hv)
      as (Hne & He).
    destruct (concat_nonempty (c :: cs) ltac:(discriminate) Hv)
      as (Hx & Hst & _).
    unfold rel_of.
    rewrite join_valid, He by assumption.
    rewrite concat_snoc by discriminate.
    unfold sep_of. destruct (endswith_slash base).
    + simpl. apply lstrip_slash_id.
      now rewrite startswith_append_nonempty.
    + change (("/" ++ String.concat "/" (c :: cs)) ++ "/" ++ k)
        with (String "/" (String.concat "/" (c :: cs) ++ "/" ++ k)).
      cbn [lstrip_slash]. change (Ascii.eqb "/" "/") with true. cbv iota.
      apply lstrip_slash_id.
      now rewrite startswith_append_nonempty.
Qed.

End WalkPaths.

(* --------------------------------------------------------------------- *)
(** *** [compress]: what the loops write                                 *)
(* --------------------------------------------------------------------- *)

Lemma for_each_app {E A} (l1 l2 : list A) (body : A -> M E unit) w :
  for_each (l1 ++ l2) body w
  = bind (for_each l1 body) (fun _ => for_each l2 body) w.
Proof.
  revert w. induction l1 as [|x l1 IH]; intros w; simpl.
  - reflexivity.
  - unfold bind. destruct (body x w) as [[u|e] w1]; [|reflexivity].
    rewrite IH. reflexivity.
Qed.

Section ZipLoop.

Context (E : Env).
Variables (cwd0 : list string) (base fzip : string) (N : node).
Let B := FS.resolve cwd0 base.
Let Z := FS.resolve cwd0 fzip.
Hypothesis Hbase : base <> ""%string.
Hypothesis Hzip : fzip <> ""%string.
Hypothesis Hapart : FS.apart Z B = true.

Implicit Types w : World E.

Lemma zip_write_step w ms real arc meth comps c :
  filling cwd0 B Z N w ms ->
  real <> ""%string ->
  FS.resolve cwd0 real = B ++ comps ->
  FS.lookup comps N = Some (File c) ->
  exists w',
    zip_write fzip real arc meth w = (Ok tt, w')
    /\ filling cwd0 B Z N w'
         (ms ++ [(PyStr.lstrip_slash arc,
                  match meth with Some m => m | None => ZIP_DEFLATED end, c)]).
Proof.
  intros (Hcwd & Hz & Hsub) Hreal Hres Hfile. unfold zip_write.
  erewrite bind_run.
  2:{ unfold fs_query. rewrite (PathFacts.eqb_empty_false _ Hreal).
      rewrite Hcwd, Hres. unfold FS.read. rewrite Hsub, Hfile. reflexivity. }
  unfold fs_update. rewrite (PathFacts.eqb_empty_false _ Hzip).
  rewrite Hcwd. fold Z. unfold zip_append. rewrite Hz.
  match goal with
  | |- context [FS.write Z ?c' (fs w)] =>
      destruct (FSFacts.write_over_file Z _ c' (fs w) Hz) as [t Ht];
      rewrite Ht
  end.
  eexists. split; [reflexivity|]. unfold filling. simpl.
  split; [assumption|]. split.
  - now apply FSFacts.write_lookup_same in Ht.
  - intros q. rewrite <- Hsub.
    apply (FSFacts.write_lookup_apart _ _ _ _ _ Ht).
    now apply TreeFacts.apart_extend.
Qed.

Lemma files_loop comps top rel es :
  FS.lookup comps N = Some (Dir es) ->
  FS.wf (Dir es) = true ->
  top <> ""%string ->
  FS.resolve cwd0 top = B ++ comps ->
  (forall k, FS.valid_name k = true ->
             PyStr.lstrip_slash (PyStr.join rel k)
             = String.concat "/" (comps ++ [k])) ->
  forall l, incl l es -> forall w ms,
    filling cwd0 B Z N w ms ->
    exists w',
      for_each (map fst (filter (fun e => negb (FS.is_dir (snd e))) l))
        (fun file =>
           zip_write fzip (PyStr.join top file) (PyStr.join rel file)
             (if String.eqb file "mimetype" then Some ZIP_STORED else None)) w
      = (Ok tt, w')
      /\ filling cwd0 B Z N w' (ms ++ file_members comps l).
Proof.
  intros Hdir Hwf Htop Hres Hrel.
  induction l as [|[k [c|es']] l IH]; intros Hincl w ms Hf.
  - exists w. simpl. rewrite app_nil_r. now split.
  - assert (Hin : In (k, File c) es) by (apply Hincl; now left).
    destruct (TreeFacts.wf_dir_in es Hwf k (File c) Hin) as (Hk & _ & Ha).
    assert (Hl : incl l es) by (intros x Hx; apply Hincl; now right).
    cbn [filter map snd fst FS.is_dir negb for_each].
    destruct (zip_write_step w ms (PyStr.join top k) (PyStr.join rel k)
                (if String.eqb k "mimetype" then Some ZIP_STORED else None)
                (comps ++ [k]) c Hf) as (w1 & Hw1 & Hf1).
    + now apply PathFacts.join_nonempty.
    + rewrite PathFacts.resolve_join by assumption.
      now rewrite Hres, app_assoc.
    + rewrite FSFacts.lookup_app, Hdir. simpl. now rewrite Ha.
    + erewrite bind_run by exact Hw1.
      destruct (IH Hl w1 _ Hf1) as (w2 & Hw2 & Hf2).
      exists w2. split; [exact Hw2|].
      unfold file_members in *. cbn [flat_map snd fst].
      rewrite <- app_assoc in Hf2. simpl in Hf2.
      rewrite Hrel in Hf2 by assumption.
      unfold method_for. simpl.
      destruct (String.eqb k "mimetype"); exact Hf2.
  - assert (Hl : incl l es) by (intros x Hx; apply Hincl; now right).
    cbn [filter map snd fst FS.is_dir negb].
    destruct (IH Hl w ms Hf) as (w2 & Hw2 & Hf2).
    exists w2. split; [exact Hw2|]. exact Hf2.
Qed.

(** The loops of [compress] over the walk of a well-formed tree write
    the members of that tree, in the order of the walk, and return. *)
Lemma walk_loop : forall n comps,
  FS.lookup comps N = Some n ->
  forallb FS.valid_name comps = true ->
  FS.wf n = true ->
  FS.resolve cwd0 (top_of base comps) = B ++ comps ->
  forall w ms,
    filling cwd0 B Z N w ms ->
    exists w',
      for_each (FS.walk (top_of base comps) n) (compress_dir fzip base) w
      = (Ok tt, w')
      /\ filling cwd0 B Z N w' (ms ++ members_from comps n).
Proof.
  induction n as [c|es IHes] using node_nested_ind;
    intros comps Hn Hv Hwf Hres w ms Hf.
  - exists w. simpl. rewrite app_nil_r. now split.
  - rewrite TreeFacts.walk_dir, TreeFacts.members_from_dir.
    cbn [for_each].
    (* the files of this directory *)
    assert (Hfiles :
      exists w1,
        compress_dir fzip base
          (top_of base comps,
           map fst (filter (fun e => FS.is_dir (snd e)) es),
           map fst (filter (fun e => negb (FS.is_dir (snd e))) es)) w
        = (Ok tt, w1)
        /\ filling cwd0 B Z N w1 (ms ++ file_members comps es)).
    { unfold compress_dir.
      rewrite (PathFacts.eqb_empty_false _ Hbase).
      assert (Hsp : PyStr.split1_second base (top_of base comps)
                    = Some (rel_of base comps))
        by (rewrite WalkPaths.top_of_rel;
            apply PyStrFacts.split1_second_prefix).
      rewrite Hsp.
      erewrite bind_run by reflexivity.
      apply (files_loop comps (top_of base comps) (rel_of base comps) es);
        try assumption.
      - now apply WalkPaths.top_of_nonempty.
      - intros k Hk. now apply WalkPaths.rel_of_join.
      - apply incl_refl. }
    destruct Hfiles as (w1 & Hw1 & Hf1).
    erewrite bind_run by exact Hw1.
    (* its sub-directories *)
    assert (Hsub : forall l, incl l es ->
              Forall (fun e =>
                forall comps, FS.lookup comps N = Some (snd e) ->
                  forallb FS.valid_name comps = true ->
                  FS.wf (snd e) = true ->
                  FS.resolve cwd0 (top_of base comps) = B ++ comps ->
                  forall w ms, filling cwd0 B Z N w ms ->
                  exists w',
                    for_each (FS.walk (top_of base comps) (snd e))
                             (compress_dir fzip base) w = (Ok tt, w')
                    /\ filling cwd0 B Z N w' (ms ++ members_from comps (snd e))) l ->
              forall w ms, filling cwd0 B Z N w ms ->
              exists w',
                for_each
                  (flat_map (fun e => FS.walk (PyStr.join (top_of base comps) (fst e))
                                              (snd e)) l)
                  (compress_dir fzip base) w = (Ok tt, w')
                /\ filling cwd0 B Z N w'
                     (ms ++ flat_map (fun e => members_from (comps ++ [fst e]) (snd e)) l)).
    { induction l as [|[k ch] l IHl]; intros Hincl Hall w0 ms0 Hf0.
      - exists w0. simpl. rewrite app_nil_r. now split.
      - assert (Hin : In (k, ch) es) by (apply Hincl; now left).
        destruct (TreeFacts.wf_dir_in es Hwf k ch Hin) as (Hk & Hwc & Ha).
        assert (Hl : incl l es) by (intros x Hx; apply Hincl; now right).
        inversion Hall as [|x l' Hhead Htail]; subst.
        cbn [flat_map fst snd] in *.
        rewrite for_each_app.
        rewrite WalkPaths.top_of_snoc by assumption.
        destruct (Hhead (comps ++ [k])) with (w := w0) (ms := ms0)
          as (w2 & Hw2 & Hf2); try assumption.
        + rewrite FSFacts.lookup_app, Hn. simpl. now rewrite Ha.
        + rewrite forallb_app. simpl. now rewrite Hv, Hk.
        + rewrite <- WalkPaths.top_of_snoc by assumption.
          rewrite PathFacts.resolve_join;
            [now rewrite Hres, app_assoc|assumption|].
          now apply WalkPaths.top_of_nonempty.
        + erewrite bind_run by exact Hw2.
          destruct (IHl Hl Htail w2 _ Hf2) as (w3 & Hw3 & Hf3).
          exists w3. split; [exact Hw3|].
          now rewrite <- app_assoc in Hf3. }
    destruct (Hsub es (incl_refl es) IHes w1 _ Hf1) as (w2 & Hw2 & Hf2).
    exists w2. split; [exact Hw2|]. now rewrite <- app_assoc in Hf2.
Qed.

End ZipLoop.

(* --------------------------------------------------------------------- *)
(** *** The members of a tree                                            *)
(* --------------------------------------------------------------------- *)

Module MemberFacts.

Import FS.

Lemma last_cons_nonempty (k : string) comps :
  comps <> [] -> last (k :: comps) ""%string = last comps ""%string.
Proof. destruct comps; [contradiction|reflexivity]. Qed.

(** A member stands for each regular file of the tree, under its path,
    and for nothing else. *)
Lemma members_from_spec : forall n pre,
  wf n = true ->
  forall name meth c,
    In (name, meth, c) (members_from pre n) <->
    exists comps,
      comps <> [] /\ lookup comps n = Some (File c)
      /\ name = String.concat "/" (pre ++ comps)
      /\ meth = method_for (last comps ""%string).
Proof.
  induction n as [c0|es IHes] using node_nested_ind;
    intros pre Hwf name meth c.
  - simpl. split; [contradiction|].
    intros ([|k comps] & Hne & Hl & _); [congruence|discriminate].
  - rewrite TreeFacts.members_from_dir, in_app_iff.
    rewrite Forall_forall in IHes.
    split.
    + intros [Hin|Hin].
      * unfold file_members in Hin. apply in_flat_map in Hin.
        destruct Hin as ([k ch] & He & Hm). simpl in Hm.
        destruct ch as [c'|]; [|contradiction].
        destruct Hm as [Hm|[]]. inversion Hm; subst.
        destruct (TreeFacts.wf_dir_in es Hwf k (File c) He) as (_ & _ & Ha).
        exists [k]. split; [discriminate|].
        split; [simpl; now rewrite Ha|]. split; reflexivity.
      * apply in_flat_map in Hin. destruct Hin as ([k ch] & He & Hm).
        simpl in Hm.
        destruct (TreeFacts.wf_dir_in es Hwf k ch He) as (_ & Hwc & Ha).
        apply (IHes (k, ch) He (pre ++ [k]) Hwc) in Hm.
        destruct Hm as (comps & Hne & Hl & Hname & Hmeth).
        exists (k :: comps). repeat split.
        -- discriminate.
        -- simpl. now rewrite Ha.
        -- now rewrite <- app_assoc in Hname.
        -- now rewrite last_cons_nonempty.
    + intros ([|k comps] & Hne & Hl & Hname & Hmeth); [congruence|].
      simpl in Hl. destruct (assoc k es) as [ch|] eqn:Ha; [|discriminate].
      apply TreeFacts.assoc_in in Ha.
      destruct (TreeFacts.wf_dir_in es Hwf k ch Ha) as (_ & Hwc & _).
      destruct comps as [|k' comps].
      * left. simpl in Hl. inversion Hl; subst ch.
        unfold file_members. apply in_flat_map.
        exists (k, File c). split; [assumption|]. simpl. left.
        now subst.
      * right. apply in_flat_map. exists (k, ch). split; [assumption|].
        simpl. apply (IHes (k, ch) Ha (pre ++ [k]) Hwc).
        exists (k' :: comps). repeat split.
        -- discriminate.
        -- assumption.
        -- now rewrite <- app_assoc.
        -- now rewrite last_cons_nonempty in Hmeth by discriminate.
Qed.

Lemma wf_lookup_valid comps : forall n x,
  wf n = true -> lookup comps n = Some x ->
  forallb valid_name comps = true.
Proof.
  induction comps as [|k comps IH]; intros n x Hwf Hl; [reflexivity|].
  simpl in Hl. destruct n as [|es]; [discriminate|].
  destruct (assoc k es) as [ch|] eqn:Ha; [|discriminate].
  apply TreeFacts.assoc_in in Ha.
  destruct (TreeFacts.wf_dir_in es Hwf k ch Ha) as (Hk & Hwc & _).
  simpl. rewrite Hk. simpl. now apply (IH ch x).
Qed.

End MemberFacts.

Module BasenameFacts.

Import PyStr PyStrFacts.
Local Open Scope string_scope.

Lemma prefix_slash c k : String.prefix "/" (String c k) = Ascii.eqb c "/".
Proof.
  cbn [String.prefix]. destruct (ascii_dec "/" c) as [<-|Hn].
  - now destruct k.
  - symmetry. apply Ascii.eqb_neq. congruence.
Qed.

Lemma rpartition_no_slash k : FS.has_slash k = false -> rpartition "/" k = None.
Proof.
  induction k as [|c k IH]; [reflexivity|].
  cbn [rpartition FS.has_slash]. intros H.
  apply orb_false_iff in H. destruct H as [Hc Hk].
  now rewrite (IH Hk), prefix_slash, Hc.
Qed.

Lemma rpartition_app x : forall s a b,
  rpartition "/" s = Some (a, b) ->
  rpartition "/" (x ++ s) = Some (x ++ a, b).
Proof.
  induction x as [|c x IH]; intros s a b H; [exact H|].
  change (String c x ++ s) with (String c (x ++ s)).
  cbn [rpartition]. now rewrite (IH s a b H).
Qed.

Lemma basename_after_slash x y : basename (x ++ "/" ++ y) = basename y.
Proof.
  unfold basename.
  assert (H : exists a, rpartition "/" ("/" ++ y)
                        = Some (a, match rpartition "/" y with
                                   | Some (_, b) => b
                                   | None => y
                                   end)).
  { change ("/" ++ y) with (String "/" y). cbn [rpartition].
    destruct (rpartition "/" y) as [[a b]|]; [eauto|].
    rewrite prefix_slash. simpl. eauto. }
  destruct H as [a Ha]. now rewrite (rpartition_app x _ _ _ Ha).
Qed.

(** The file name of a path of valid components is its last one. *)
Lemma basename_concat comps :
  comps <> [] -> forallb FS.valid_name comps = true ->
  basename (String.concat "/" comps) = last comps "".
Proof.
  induction comps as [|c comps IH]; [contradiction|]. intros _ Hv.
  simpl in Hv. apply andb_true_iff in Hv. destruct Hv as [Hc Hv].
  destruct comps as [|c' comps].
  - simpl. unfold basename.
    apply PathFacts.valid_name_inv in Hc. destruct Hc as (_ & _ & _ & Hs).
    now rewrite rpartition_no_slash.
  - change (String.concat "/" (c :: c' :: comps))
      with (c ++ "/" ++ String.concat "/" (c' :: comps)).
    rewrite basename_after_slash.
    rewrite IH by (try discriminate; assumption).
    reflexivity.
Qed.

End BasenameFacts.

(* --------------------------------------------------------------------- *)
(** *** [compress]: the archive                                          *)
(* --------------------------------------------------------------------- *)

Section Archive.

Context (E : Env).
Implicit Types w : World E.

(** When the archive is written away from the base directory, a
    [compress] that returns leaves, at the path it returns, the closed
    archive of the tree that stood under the base directory. *)
Lemma compress_archive w fpath0 fpath w' d N :
  compress fpath0 w = (Ok fpath, w') ->
  dirs (self w) = Some d ->
  basedir d <> ""%string ->
  FS.lookup (FS.resolve (cwd w) (basedir d)) (fs w) = Some N ->
  FS.wf N = true ->
  FS.apart (FS.resolve (cwd w) (snd (compress_paths (title (epub (self w))) fpath0)))
           (FS.resolve (cwd w) (basedir d)) = true ->
  archive_at (FS.resolve (cwd w) fpath) (fs w') = Some (members_from [] N).
Proof.
  intros H Hd Hb HN Hwf Hap. apply compress_ok_inv in H.
  destruct H as (d' & fzip & t1 & w3 & ms & t5 & t6 & Hd' & Hp & Hne & Hw
                 & Hloop & Hl & Hc & Hr & ->).
  rewrite Hd in Hd'. inversion Hd'; subst d'. clear Hd'.
  rewrite Hp in Hap. simpl in Hap. cbv zeta in Hloop.
  set (B := FS.resolve (cwd w) (basedir d)) in *.
  set (Z := FS.resolve (cwd w) fzip) in *.
  set (w2 := mkWorld _ _ _ _ _) in Hloop.
  assert (Hsame : forall q, FS.lookup (B ++ q) t1 = FS.lookup q N).
  { intros q.
    rewrite (FSFacts.write_lookup_apart _ _ (B ++ q) _ _ Hw)
      by now apply TreeFacts.apart_extend.
    now rewrite FSFacts.lookup_app, HN. }
  assert (Hfill : filling (cwd w) B Z N w2 []).
  { unfold filling, w2. simpl. split; [reflexivity|]. split; [|exact Hsame].
    now apply FSFacts.write_lookup_same in Hw. }
  assert (Hwalk : walk_of (basedir d) w2 = FS.walk (basedir d) N).
  { unfold walk_of, w2. simpl.
    rewrite (PathFacts.eqb_empty_false _ Hb). fold B.
    specialize (Hsame []). rewrite app_nil_r in Hsame.
    now rewrite Hsame. }
  rewrite Hwalk in Hloop.
  destruct (walk_loop E (cwd w) (basedir d) fzip N Hb Hne Hap N []
              eq_refl eq_refl Hwf) with (w := w2) (ms := @nil ZipMember)
    as (w3' & Hrun & Hfill3).
  { simpl. fold B. now rewrite app_nil_r. }
  { exact Hfill. }
  change (top_of (basedir d) []) with (basedir d) in Hrun.
  rewrite Hloop in Hrun. inversion Hrun; subst w3'. clear Hrun.
  destruct Hfill3 as (Hcwd & Hz & _). simpl in Hz.
  subst B Z. rewrite Hcwd in Hl, Hc, Hr. rewrite Hz in Hl.
  inversion Hl; subst ms.
  unfold archive_at. simpl.
  rewrite (rename_lookup _ _ _ _ Hr).
  now rewrite (FSFacts.write_lookup_same _ _ _ _ Hc).
Qed.


(** The members a run of the inner loop of [compress] adds: one for
    each file, named from [rel], stored for [mimetype] and deflated
    otherwise. *)
Lemma files_loop_names fzip root rel : forall files w u w' ms,
  for_each files
    (fun file =>
       zip_write fzip (PyStr.join root file) (PyStr.join rel file)
         (if String.eqb file "mimetype" then Some ZIP_STORED else None)) w
  = (Ok u, w') ->
  FS.lookup (FS.resolve (cwd w) fzip) (fs w) = Some (File (Zip false ms)) ->
  cwd w' = cwd w
  /\ exists ms',
       FS.lookup (FS.resolve (cwd w) fzip) (fs w')
       = Some (File (Zip false (ms ++ ms')))
       /\ map (fun m => (m_name m, m_method m)) ms'
          = map (fun file => (PyStr.lstrip_slash (PyStr.join rel file),
                              method_for file)) files.
Proof.
  induction files as [|file files IH]; intros w u w' ms H Hz.
  - inversion H; subst. split; [reflexivity|]. exists [].
    now rewrite app_nil_r.
  - cbn [for_each] in H.
    apply bind_ok in H. destruct H as (u1 & w1 & Hw & H).
    unfold zip_write in Hw.
    apply bind_ok in Hw. destruct Hw as (c & w0 & Hq & Hw).
    apply fs_query_ok in Hq. subst w0.
    apply fs_update_ok in Hw. destruct Hw as (_ & t & Hop & ->).
    unfold zip_append in Hop. rewrite Hz in Hop.
    apply FSFacts.write_lookup_same in Hop.
    destruct (IH _ _ _ _ H Hop) as (Hc & ms' & Hz' & Hnames).
    simpl in Hc, Hz'. split; [exact Hc|].
    eexists (_ :: ms'). split.
    + rewrite Hz'. now rewrite <- app_assoc.
    + cbn [map]. rewrite Hnames. f_equal. unfold m_name, m_method, method_for.
      simpl. now destruct (String.eqb file "mimetype").
Qed.

(** The same for the whole walk. *)
Lemma walk_loop_names fzip base : forall entries w u w' ms,
  for_each entries (compress_dir fzip base) w = (Ok u, w') ->
  FS.lookup (FS.resolve (cwd w) fzip) (fs w) = Some (File (Zip false ms)) ->
  cwd w' = cwd w
  /\ exists ms',
       FS.lookup (FS.resolve (cwd w) fzip) (fs w')
       = Some (File (Zip false (ms ++ ms')))
       /\ map (fun m => (m_name m, m_method m)) ms'
          = map (fun rf => (arcname_of base (fst rf) (snd rf),
                            method_for (snd rf))) (walked_files entries).
Proof.
  induction entries as [|[[root ds] files] entries IH]; intros w u w' ms H Hz.
  - inversion H; subst. split; [reflexivity|]. exists [].
    now rewrite app_nil_r.
  - cbn [for_each] in H.
    apply bind_ok in H. destruct H as (u1 & w1 & Hd & H).
    unfold compress_dir in Hd.
    apply bind_ok in Hd. destruct Hd as (rel & w0 & Hrel & Hd).
    assert (Hr : PyStr.split1_second base root = Some rel /\ w0 = w).
    { destruct (String.eqb base ""); [discriminate|].
      destruct (PyStr.split1_second base root); inversion Hrel. auto. }
    destruct Hr as [Hr ->]. clear Hrel.
    destruct (files_loop_names _ _ _ _ _ _ _ _ Hd Hz)
      as (Hc1 & ms1 & Hz1 & Hn1).
    rewrite <- Hc1 in Hz1.
    destruct (IH _ _ _ _ H Hz1) as (Hc & ms2 & Hz2 & Hn2).
    split; [congruence|].
    exists (ms1 ++ ms2). split.
    + rewrite <- Hc1. rewrite Hz2. now rewrite app_assoc.
    + unfold walked_files. cbn [flat_map fst snd].
      fold (walked_files entries).
      rewrite (map_app _ ms1 ms2), (map_app _ _ (walked_files entries)).
      f_equal; [|exact Hn2].
      etransitivity; [exact Hn1|].
      rewrite map_map. apply map_ext. intros file.
      unfold arcname_of. cbn [fst snd]. now rewrite Hr.
Qed.

(** The archive a [compress] that returned leaves: its members are the
    files of the walk, in its order. *)
Lemma compress_members w fpath0 fpath w' :
  compress fpath0 w = (Ok fpath, w') ->
  exists d ms,
    dirs (self w) = Some d
    /\ archive_at (FS.resolve (cwd w) fpath) (fs w') = Some ms
    /\ map (fun m => (m_name m, m_method m)) ms
       = map (fun rf => (arcname_of (basedir d) (fst rf) (snd rf),
                         method_for (snd rf)))
             (walked_files (listing fpath0 w)).
Proof.
  intros H. apply compress_ok_inv in H.
  destruct H as (d & fzip & t1 & w3 & ms & t5 & t6 & Hd & Hp & Hne & Hw
                 & Hloop & Hl & Hc & Hr & ->).
  cbv zeta in Hloop.
  exists d, ms. split; [exact Hd|].
  match type of Hloop with
  | for_each _ _ ?w2 = _ =>
      destruct (walk_loop_names fzip (basedir d) _ w2 tt w3 [] Hloop)
        as (Hcw & ms' & Hz & Hnames)
  end.
  { simpl. now apply FSFacts.write_lookup_same in Hw. }
  simpl in Hcw, Hz. rewrite Hcw in Hl, Hc, Hr. rewrite Hz in Hl.
  inversion Hl; subst ms. clear Hl. simpl app in *.
  split.
  - unfold archive_at. simpl.
    rewrite (rename_lookup _ _ _ _ Hr).
    now rewrite (FSFacts.write_lookup_same _ _ _ _ Hc).
  - rewrite Hnames. unfold listing. rewrite Hd, Hp. simpl snd. rewrite Hw.
    reflexivity.
Qed.

(** The member made for the file [mimetype] of the base directory. *)
Lemma first_member_marker base rest (ms : list ZipMember) :
  base <> ""%string ->
  map (fun m => (m_name m, m_method m)) ms
  = map (fun rf => (arcname_of base (fst rf) (snd rf), method_for (snd rf)))
        ((base, "mimetype"%string) :: rest) ->
  exists c others, ms = ("mimetype"%string, ZIP_STORED, c) :: others.
Proof.
  intros Hb Hn. cbn [map fst snd] in Hn.
  destruct ms as [|[[name meth] c] others]; [discriminate|].
  inversion Hn as [[Hname Hmeth Hrest]]. exists c, others.
  unfold m_name, m_method in *. simpl in Hname, Hmeth. subst name meth.
  unfold arcname_of.
  pose proof (PyStrFacts.split1_second_prefix base "") as Hs.
  rewrite PyStrFacts.append_nil_r in Hs. rewrite Hs. reflexivity.
Qed.


End Archive.

(* ===================================================================== *)
(** ** The theorems at work on the concrete installation                 *)
(* ===================================================================== *)

Import Demo DemoMore.

Lemma guards_before_begin_witness :
  forallb (fun c => negb (is_begin c)) [CallCleanup; CallIndex] = true
  /\ index (snd (run_calls [CallCleanup; CallIndex] (world0 "Test Book" None)))
     = (Raise (RuntimeError "cannot index epub before `begin`"),
        snd (run_calls [CallCleanup; CallIndex] (world0 "Test Book" None))).
Proof.
  split; [reflexivity|].
  apply (guards_before_begin demo_env (spec_of "Test Book" None) disk
           ["home"; "user"] 0 [] [CallCleanup; CallIndex] assign1 chap1 None).
  reflexivity.
Defined.

Lemma chapters_in_call_order_witness :
  renders_ok calls_312 (fst (run_calls calls_312 (world0 "Test Book" None))) = true
  /\ map (fun ac => a_play_order (fst ac))
         (chapters (self (snd (run_calls calls_312 (world0 "Test Book" None)))))
     = [3%Z; 1%Z; 2%Z].
Proof.
  split; [vm_compute; reflexivity|].
  destruct (chapters_in_call_order demo_env (spec_of "Test Book" None) disk
              ["home"; "user"] 0 [] calls_312
              (fst (run_calls calls_312 (world0 "Test Book" None)))
              (snd (run_calls calls_312 (world0 "Test Book" None))))
    as [H _].
  - apply surjective_pairing.
  - vm_compute; reflexivity.
  - rewrite H. reflexivity.
Defined.

Lemma begin_idempotent_witness :
  begin (world0 "Test Book" None) = (Ok layout0, began_world)
  /\ begin began_world = (Ok layout0, began_world).
Proof.
  split; [vm_compute; reflexivity|].
  apply (begin_idempotent demo_env (world0 "Test Book" None)).
  vm_compute; reflexivity.
Defined.

Lemma compress_destination_witness :
  compress None built_world
  = (Ok "./Test Book.epub"%string, after (compress None) built_world)
  /\ FS.resolve (cwd built_world) "./Test Book.epub"
     = cwd built_world ++ ["Test Book.epub"%string].
Proof.
  split; [vm_compute; reflexivity|].
  destruct (compress_destination demo_env built_world None
              (Ok "./Test Book.epub"%string)
              (after (compress None) built_world))
    as (stem & parent & leaf & _ & _ & _ & _ & Hcwd & Hfp & _).
  - vm_compute; reflexivity.
  - rewrite Hfp. rewrite Hcwd by (vm_compute; reflexivity).
    vm_compute; reflexivity.
Defined.

Lemma conversion_error_propagates_witness :
  dirs (self began_world) = Some layout0
  /\ template (self began_world) = Some "page.xhtml.j2"%string
  /\ demo_factory_render bad_chapter "/tmp/tmp/OEBPS/images" "page.xhtml.j2"
       (ChapterKw (spec_of "Test Book" None) bad_chapter) (fs began_world)
     = (Raise (CollaboratorError "ConversionError" "Broken"), fs began_world)
  /\ exists w',
       render_chapter assign2 bad_chapter began_world
       = (Raise (CollaboratorError "ConversionError" "Broken"), w')
       /\ dirs (self w') = Some layout0.
Proof.
  split; [reflexivity|]. split; [reflexivity|]. split; [reflexivity|].
  destruct (conversion_error_propagates demo_env began_world layout0
              "page.xhtml.j2"%string assign2 bad_chapter
              (CollaboratorError "ConversionError" "Broken") (fs began_world))
    as (w' & H & Hd & _); try reflexivity.
  exists w'. now split.
Defined.

Lemma failed_chapter_stays_recorded_witness :
  dirs (self began_world) = Some layout0
  /\ template (self began_world) = Some "page.xhtml.j2"%string
  /\ fst (render_chapter assign2 bad_chapter began_world)
     = Raise (CollaboratorError "ConversionError" "Broken")
  /\ chapters (self (after (render_chapter assign2 bad_chapter) began_world))
     = [(assign2, bad_chapter)]
  /\ exists styles images,
       In (EvTemplateRender
             (IndexKw "3f2a-uid" (spec_of "Test Book" None) styles
                      [(assign2, bad_chapter)] images))
          (trace (after index
                    (after (render_chapter assign2 bad_chapter) began_world))).
Proof.
  split; [reflexivity|]. split; [reflexivity|]. split; [vm_compute; reflexivity|].
  destruct (failed_chapter_stays_recorded demo_env began_world layout0
              "page.xhtml.j2"%string assign2 bad_chapter
              (fst (render_chapter assign2 bad_chapter began_world))
              (after (render_chapter assign2 bad_chapter) began_world))
    as (Hc & _ & Hi); try reflexivity.
  split; [exact Hc|].
  apply (Hi (after index (after (render_chapter assign2 bad_chapter) began_world))).
  vm_compute; reflexivity.
Defined.









(** C6 does not hold as stated: the title is not sanitized.  For the
    title [/tmp/book] and no destination, [compress] returns
    [/tmp/book.epub], which is not an entry of the current directory
    [/home/user]. *)
Lemma title_is_not_sanitized :
  fst (compress None slash_world) = Ok "/tmp/book.epub"%string
  /\ cwd slash_world = ["home"; "user"]
  /\ ~ (exists name,
          FS.resolve (cwd slash_world) "/tmp/book.epub"
          = cwd slash_world ++ [name]).
Proof.
  split; [vm_compute; reflexivity|]. split; [reflexivity|].
  intros [name H]. vm_compute in H. discriminate.
Qed.

(* ===================================================================== *)
(** ** Further properties of the functions of [builder.py]               *)
(* ===================================================================== *)

Module ExtensionFacts.

Import PyStr PyStrFacts.
Local Open Scope string_scope.

Lemma prefix_dot c k : String.prefix "." (String c k) = Ascii.eqb c ".".
Proof.
  cbn [String.prefix]. destruct (ascii_dec "." c) as [<-|Hn].
  - now destruct k.
  - symmetry. apply Ascii.eqb_neq. congruence.
Qed.

Lemma rpartition_dot_none s : rpartition "." s = None <-> has_dot s = false.
Proof.
  induction s as [|c s IH]; [split; reflexivity|].
  cbn [rpartition has_dot]. rewrite prefix_dot.
  destruct (rpartition "." s) as [[a b]|].
  - split; [discriminate|]. intros H. apply orb_false_iff in H.
    destruct H as [_ H]. apply IH in H. discriminate.
  - destruct (Ascii.eqb c "."); simpl; [split; discriminate|].
    split; intros _; [now apply IH|reflexivity].
Qed.

Lemma rpartition_dot_tail s : forall a b,
  rpartition "." s = Some (a, b) -> has_dot b = false.
Proof.
  induction s as [|c s IH]; intros a b H; cbn [rpartition] in H; [discriminate|].
  destruct (rpartition "." s) as [[a' b']|] eqn:Er.
  - inversion H; subst. now apply (IH a').
  - rewrite prefix_dot in H. destruct (Ascii.eqb c "."); [|discriminate].
    inversion H; subst. simpl. now apply rpartition_dot_none.
Qed.

End ExtensionFacts.

(** X1. [get_extension] returns what follows the last dot of the name,
    which has no dot itself; a name without a dot is returned whole. *)
Theorem get_extension_spec (fname : string) :
  has_dot (get_extension fname) = false
  /\ (has_dot fname = false -> get_extension fname = fname)
  /\ (has_dot fname = true ->
      exists stem, fname = (stem ++ "." ++ get_extension fname)%string).
Proof.
  unfold get_extension, PyStr.rsplit1_last.
  destruct (PyStr.rpartition "." fname) as [[a b]|] eqn:Er.
  - split; [now apply (ExtensionFacts.rpartition_dot_tail fname a)|].
    split.
    + intros H. apply ExtensionFacts.rpartition_dot_none in H. congruence.
    + intros _. exists a. now apply PyStrFacts.rpartition_spec.
  - apply ExtensionFacts.rpartition_dot_none in Er.
    split; [assumption|]. split; [reflexivity|]. congruence.
Qed.

Lemma get_extension_spec_witness :
  has_dot "cover.final.png" = true
  /\ get_extension "cover.final.png" = "png"%string
  /\ get_extension "README" = "README"%string.
Proof.
  split; [reflexivity|].
  destruct (get_extension_spec "README") as (_ & H & _).
  split; [reflexivity|]. apply H. reflexivity.
Defined.

Section Copies.

Context (E : Env).
Implicit Types w : World E.

Lemma fs_update_raise path op ev w e w1 :
  fs_update (E:=E) path op ev w = (Raise e, w1) -> w1 = w.
Proof.
  unfold fs_update. destruct (String.eqb path ""); [now intros H; inversion H|].
  destruct (op _ _); intros H; inversion H; reflexivity.
Qed.

Lemma fs_query_raise {A} path (op : list string -> node -> errno + A) w e w1 :
  fs_query (E:=E) path op w = (Raise e, w1) -> w1 = w.
Proof.
  unfold fs_query. destruct (String.eqb path ""); [now intros H; inversion H|].
  destruct (op _ _); intros H; inversion H; reflexivity.
Qed.

Lemma fs_query_inv {A} path (op : list string -> node -> errno + A) w a w1 :
  fs_query (E:=E) path op w = (Ok a, w1) ->
  w1 = w /\ path <> ""%string /\ op (FS.resolve (cwd w) path) (fs w) = inr a.
Proof.
  unfold fs_query. destruct (String.eqb path "") eqn:Ep; [discriminate|].
  apply String.eqb_neq in Ep.
  destruct (op _ _) as [e|x]; intros H; inversion H; subst. auto.
Qed.

(** X2. [copy_file] is all or nothing.  When it returns, the source was a
    regular file and the entry named like it in the directory [into]
    holds the same content; when it raises (the source is missing or is
    no regular file, the destination is the source itself, or the
    destination cannot be opened), nothing has changed. *)
Theorem copy_file_all_or_nothing src into w r w' :
  copy_file src into w = (r, w') ->
  match r with
  | Ok _ =>
      exists c,
        FS.lookup (FS.resolve (cwd w) src) (fs w) = Some (File c)
        /\ FS.lookup (FS.resolve (cwd w) (PyStr.join into (PyStr.basename src)))
                     (fs w') = Some (File c)
        /\ self w' = self w /\ cwd w' = cwd w
  | Raise _ => w' = w
  end.
Proof.
  unfold copy_file, copyfile.
  destruct (FS.lookup (FS.resolve (cwd w) src) (fs w)) as [n|] eqn:Hl.
  2:{ intros H. inversion H; subst. reflexivity. }
  destruct (_ && _ && _).
  { intros H. inversion H; subst. reflexivity. }
  intros H. apply bind_cases in H.
  destruct H as [(e & Hq & ->)|(c & w1 & Hq & H)].
  { now apply fs_query_raise in Hq. }
  apply fs_query_inv in Hq. destruct Hq as (-> & Hne & Hread).
  unfold FS.read in Hread. rewrite Hl in Hread.
  destruct n as [c0|es]; [|discriminate]. inversion Hread; subst c0.
  destruct r as [u|e].
  - apply fs_update_ok in H. destruct H as (_ & t & Hw & ->).
    exists c. simpl. repeat split.
    now apply FSFacts.write_lookup_same in Hw.
  - now apply fs_update_raise in H.
Qed.

(** What a [render_template] that returned has loaded, rendered and
    written. *)
Lemma render_template_outcome name into enc kw w u w' :
  render_template name into enc kw w = (Ok u, w') ->
  exists t content,
    get_template E name = Ok t
    /\ template_render E t kw = Ok content
    /\ FS.lookup
         (FS.resolve (cwd w)
            (PyStr.join into (PyStr.basename (PyStr.rsplit1_first ".j2" name))))
         (fs w') = Some (File (Data content)).
Proof.
  unfold render_template. intros H.
  apply bind_ok in H. destruct H as (t & w1 & Hg & H).
  unfold jinja_get_template, bind, emit, lift_res in Hg. simpl in Hg.
  inversion Hg as [[Hgt Hw1]]. clear Hg.
  apply bind_ok in H. destruct H as (content & w2 & Hr & H).
  unfold render, bind, emit, lift_res in Hr. simpl in Hr.
  inversion Hr as [[Hrt Hw2]]. clear Hr.
  apply bind_ok in H. destruct H as (u1 & w3 & Ho & H).
  apply fs_update_ok in Ho. destruct Ho as (Hne & t3 & Hw & ->).
  apply fs_update_ok in H. destruct H as (_ & t4 & Hw4 & ->).
  exists t, content. subst w2 w1. simpl in *.
  repeat split; try assumption.
  now apply FSFacts.write_lookup_same in Hw4.
Qed.

(** X3. [render_template] loads and renders the template before it
    opens the file.  When the template cannot be loaded, or cannot be
    rendered, it raises that exception and the file system is as it was;
    otherwise, when it returns, the entry of [into] named like the
    template without its [.j2] holds the rendered text. *)
Theorem render_template_writes_or_leaves name into enc kw w r w' :
  render_template name into enc kw w = (r, w') ->
  match get_template E name with
  | Raise e => r = Raise e /\ fs w' = fs w
  | Ok t =>
      match template_render E t kw with
      | Raise e => r = Raise e /\ fs w' = fs w
      | Ok content =>
          forall u, r = Ok u ->
            FS.lookup
              (FS.resolve (cwd w)
                 (PyStr.join into
                    (PyStr.basename (PyStr.rsplit1_first ".j2" name))))
              (fs w') = Some (File (Data content))
      end
  end.
Proof.
  intros H.
  destruct (get_template E name) as [t|e] eqn:Hg.
  - destruct (template_render E t kw) as [content|e] eqn:Hr.
    + intros u ->. apply render_template_outcome in H.
      destruct H as (t' & content' & Hg' & Hr' & Hl).
      rewrite Hg in Hg'. inversion Hg'; subst t'.
      rewrite Hr in Hr'. inversion Hr'; subst content'. exact Hl.
    + unfold render_template, jinja_get_template, render, bind, emit,
        lift_res in H.
      simpl in H. rewrite Hg in H. simpl in H. rewrite Hr in H.
      inversion H; subst. split; reflexivity.
  - unfold render_template, jinja_get_template, render, bind, emit,
      lift_res in H.
    simpl in H. rewrite Hg in H. inversion H; subst. split; reflexivity.
Qed.

(** X4. When [render_chapter] returns, the factory has rendered the
    chapter on the file system as it stood, and the entry [assign.link]
    of the content directory holds the bytes it returned, whatever stood
    there before. *)
Theorem render_chapter_writes_page a ch w u w' :
  render_chapter a ch w = (Ok u, w') ->
  exists d t content t1,
    dirs (self w) = Some d
    /\ template (self w) = Some t
    /\ factory_render E ch (images d) t (ChapterKw (epub (self w)) ch) (fs w)
       = (Ok content, t1)
    /\ FS.lookup (FS.resolve (cwd w) (PyStr.join (oebps d) (a_link a))) (fs w')
       = Some (File (Data content)).
Proof.
  intros H.
  destruct (render_chapter_ok E _ _ _ _ _ H) as (d & t & Hd & Ht).
  exists d, t. unfold render_chapter in H.
  apply bind_ok in H. destruct H as (s & w0 & Hs & H).
  unfold get_self in Hs. inversion Hs; subst s w0; clear Hs.
  rewrite Hd, Ht in H.
  apply bind_ok in H. destruct H as (u0 & w1 & Ha & H).
  unfold append_chapter, bind, get_self, set_self in Ha.
  inversion Ha; subst w1; clear Ha.
  apply bind_ok in H. destruct H as (u1 & w2 & Hdbg & H).
  unfold debug, emit in Hdbg. inversion Hdbg; subst w2; clear Hdbg.
  apply bind_ok in H. destruct H as (content & w3 & Hf & H).
  unfold factory_call, bind, emit, set_fs in Hf. simpl in Hf.
  destruct (factory_render E ch (images d) t (ChapterKw (epub (self w)) ch) (fs w))
    as [[c|e] t1] eqn:Ef; inversion Hf; subst; clear Hf.
  exists content, t1. repeat split; try assumption.
  apply bind_ok in H. destruct H as (u2 & w4 & Ho & H).
  apply fs_update_ok in Ho. destruct Ho as (_ & t3 & _ & ->).
  apply fs_update_ok in H. destruct H as (_ & t4 & Hw4 & ->).
  simpl in *. now apply FSFacts.write_lookup_same in Hw4.
Qed.

End Copies.

Lemma keeps_set_dirs_template {E} d :
  keeps (fun w : World E => template (self w)) (set_dirs d).
Proof. intros w. reflexivity. Qed.

#[global] Hint Resolve keeps_set_dirs_template : frames.

Section BeginFailure.

Context (E : Env).
Implicit Types w : World E.

(** X5. [begin] sets [self.dirs] before it copies the assets.  When it
    raises after that (a stylesheet is missing, say), [self.dirs] stays
    set, and the next [begin] returns the layout at once: it copies and
    renders nothing of what the first call left undone. *)
Theorem begin_failure_sticks w e w1 d :
  begin w = (Raise e, w1) ->
  dirs (self w) = None ->
  dirs (self w1) = Some d ->
  begin w1 = (Ok d, w1).
Proof.
  intros H Hnone Hd.
  assert (Ht : exists t, template (self w1) = Some t).
  { unfold begin in H.
    apply bind_cases in H. destruct H as [(e0 & Hs & _)|(s & w0 & Hs & H)];
      [discriminate|].
    unfold get_self in Hs. inversion Hs; subst s w0; clear Hs.
    apply bind_cases in H. destruct H as [(e0 & Hl & _)|(u & wb & Hl & H)].
    - exfalso. destruct (template (self w)) as [t|]; [discriminate|].
      apply bind_cases in Hl. destruct Hl as [(e1 & Hg & _)|(t & wc & _ & Hset)].
      + pose proof (keeps_jinja_get_template (@self E) "page.xhtml.j2"
                      inert_self w) as K.
        rewrite Hg in K. simpl in K. rewrite K in Hd. congruence.
      + discriminate.
    - assert (Hb : (exists t, template (self wb) = Some t)
                   /\ dirs (self wb) = None).
      { destruct (template (self w)) as [t|] eqn:Et.
        - inversion Hl; subst. split; [now exists t|assumption].
        - apply bind_ok in Hl. destruct Hl as (t & wc & Hg & Hset).
          pose proof (keeps_jinja_get_template (@self E) "page.xhtml.j2"
                        inert_self w) as K.
          rewrite Hg in K. simpl in K.
          unfold set_template, bind, get_self, set_self in Hset.
          inversion Hset; subst; simpl. rewrite K.
          split; [now exists t|assumption]. }
      destruct Hb as [[t Hbt] Hbd].
      apply bind_cases in H. destruct H as [(e0 & Hs & _)|(s & w0 & Hs & H)];
        [discriminate|].
      unfold get_self in Hs. inversion Hs; subst s w0; clear Hs.
      rewrite Hbd in H. cbv zeta in H.
      match type of H with
      | ?rest wb = _ =>
          assert (K : keeps (fun w : World E => template (self w)) rest)
            by frame;
          specialize (K wb); rewrite H in K; simpl in K
      end.
      exists t. now rewrite K. }
  destruct Ht as [t Ht]. now apply begin_again with t.
Qed.

End BeginFailure.

Lemma begin_failure_sticks_witness :
  fst (begin DemoMore.missing_css_world)
  = Raise (OSError ENOENT "/nowhere/extra.css")
  /\ dirs (self DemoMore.missing_css_world) = None
  /\ dirs (self (snd (begin DemoMore.missing_css_world))) = Some Demo.layout0
  /\ begin (snd (begin DemoMore.missing_css_world))
     = (Ok Demo.layout0, snd (begin DemoMore.missing_css_world))
  /\ FS.lookup ["tmp"; "tmp"; "OEBPS"; "coverpage.xhtml"]
               (fs (snd (begin DemoMore.missing_css_world))) = None.
Proof.
  split; [vm_compute; reflexivity|]. split; [reflexivity|].
  split; [vm_compute; reflexivity|].
  split; [|vm_compute; reflexivity].
  apply (begin_failure_sticks Demo.demo_env DemoMore.missing_css_world
           (OSError ENOENT "/nowhere/extra.css")).
  - vm_compute; reflexivity.
  - reflexivity.
  - vm_compute; reflexivity.
Defined.

(* --------------------------------------------------------------------- *)
(** *** Making directories                                               *)
(* --------------------------------------------------------------------- *)

Module MakedirsFacts.

Import FS.

(** The directory [makedirs] was asked for is there afterwards. *)
Lemma makedirs_from_made p : forall o n',
  makedirs_from p o = inr n' -> lookup p n' = Some (Dir []).
Proof.
  induction p as [|c p IH]; intros o n' H.
  - destruct o as [[?|?]|]; simpl in H; try discriminate.
    inversion H; subst. reflexivity.
  - destruct o as [[?|es]|]; simpl in H; try discriminate.
    + destruct (makedirs_from p (assoc c es)) as [e|v] eqn:Ev; [discriminate|].
      inversion H; subst. simpl. rewrite FSFacts.assoc_set_entry_eq.
      now apply (IH (assoc c es)).
    + destruct (makedirs_from p None) as [e|v] eqn:Ev; [discriminate|].
      inversion H; subst. simpl. rewrite String.eqb_refl.
      now apply (IH None).
Qed.

(** [makedirs] only adds: a regular file stays as it is, a directory
    stays a directory. *)
Lemma makedirs_from_keeps p : forall o n' q,
  makedirs_from p o = inr n' ->
  match lookup_opt q o with
  | Some (File c) => lookup q n' = Some (File c)
  | Some (Dir _) => exists es, lookup q n' = Some (Dir es)
  | None => True
  end.
Proof.
  induction p as [|c p IH]; intros o n' q H.
  - destruct o as [[?|?]|]; simpl in H; try discriminate. exact I.
  - destruct o as [[?|es]|]; simpl in H; try discriminate; [|exact I].
    destruct (makedirs_from p (assoc c es)) as [e|v] eqn:Ev; [discriminate|].
    inversion H; subst. clear H.
    destruct q as [|c' q]; [simpl; eauto|].
    rewrite FSFacts.lookup_opt_cons.
    change (lookup (c' :: q) (Dir (set_entry c v es)))
      with (lookup_opt (c' :: q) (Some (Dir (set_entry c v es)))).
    rewrite FSFacts.lookup_opt_cons.
    destruct (String.eqb c' c) eqn:Ec.
    + apply String.eqb_eq in Ec. subst c'.
      rewrite FSFacts.assoc_set_entry_eq.
      exact (IH (assoc c es) v q Ev).
    + rewrite FSFacts.assoc_set_entry_neq by assumption.
      destruct (lookup_opt q (assoc c' es)) as [[?|?]|]; eauto.
Qed.

Lemma makedirs_keeps_dir p q root root' es :
  makedirs p root = inr root' ->
  lookup q root = Some (Dir es) ->
  exists es', lookup q root' = Some (Dir es').
Proof.
  intros H Hl. pose proof (makedirs_from_keeps p (Some root) root' q H) as K.
  simpl in K. now rewrite Hl in K.
Qed.

(** What exists cannot be made. *)
Lemma makedirs_exists p : forall root n,
  lookup p root = Some n -> makedirs p root = inl EEXIST.
Proof.
  unfold makedirs.
  induction p as [|c p IH]; intros root n Hl.
  - now destruct root.
  - destruct root as [?|es]; [discriminate|]. simpl in Hl. simpl.
    destruct (assoc c es) as [ch|]; [|discriminate].
    now rewrite (IH ch n Hl).
Qed.

Lemma lookup_parent p k root n :
  lookup (p ++ [k]) root = Some n -> exists es, lookup p root = Some (Dir es).
Proof.
  rewrite FSFacts.lookup_app. destruct (lookup p root) as [[c|es]|];
    simpl; try discriminate. eauto.
Qed.

End MakedirsFacts.

Section Scaffold.

Context (E : Env).
Implicit Types w : World E.

Lemma makedirs_ok path w u w1 :
  makedirs path w = (Ok u, w1) ->
  path <> ""%string
  /\ cwd w1 = cwd w /\ self w1 = self w
  /\ FS.makedirs (FS.resolve (cwd w) path) (fs w) = inr (fs w1).
Proof.
  unfold makedirs. intros H. apply fs_update_ok in H.
  destruct H as (Hne & t & Hop & ->). simpl. auto.
Qed.

(** The base directory [epub_dirs] settles on is never the empty path. *)
Lemma epub_dirs_base b0 w b w1 :
  match truthy b0 with
  | Some b' => ret b'
  | None => mkdtemp
  end w = (Ok b, w1) ->
  b <> ""%string /\ cwd w1 = cwd w /\ self w1 = self w.
Proof.
  destruct (truthy b0) as [b'|] eqn:Eb.
  - intros H. inversion H; subst. split; [|auto].
    unfold truthy in Eb. destruct b0 as [s|]; [|discriminate].
    destruct (String.eqb s "") eqn:Es; [discriminate|].
    inversion Eb; subst. now apply String.eqb_neq.
  - unfold mkdtemp. intros H.
    apply bind_ok in H. destruct H as (u & w2 & Hm & H).
    apply fs_update_ok in Hm. destruct Hm as (Hne & t & _ & ->).
    inversion H; subst. simpl. auto.
Qed.

(** The paths [epub_dirs] builds and the directories it makes. *)
Lemma epub_dirs_layout b0 w d w' :
  epub_dirs b0 w = (Ok d, w') ->
  basedir d <> ""%string
  /\ oebps d = PyStr.join (basedir d) "OEBPS"
  /\ metainf d = PyStr.join (basedir d) "META-INF"
  /\ images d = PyStr.join (oebps d) "images"
  /\ styles d = PyStr.join (oebps d) "styles"
  /\ cwd w' = cwd w
  /\ forall path,
       In path [basedir d; oebps d; metainf d; images d; styles d] ->
       exists es, FS.lookup (FS.resolve (cwd w) path) (fs w') = Some (Dir es).
Proof.
  unfold epub_dirs. intros H.
  apply bind_ok in H. destruct H as (b & w0 & Hb & H).
  apply epub_dirs_base in Hb. destruct Hb as (Hne & Hc0 & _).
  cbv zeta in H.
  apply bind_ok in H. destruct H as (u1 & w1 & H1 & H).
  apply makedirs_ok in H1. destruct H1 as (_ & Hc1 & _ & Hm1).
  apply bind_ok in H. destruct H as (u2 & w2 & H2 & H).
  apply makedirs_ok in H2. destruct H2 as (_ & Hc2 & _ & Hm2).
  apply bind_ok in H. destruct H as (u3 & w3 & H3 & H).
  apply makedirs_ok in H3. destruct H3 as (_ & Hc3 & _ & Hm3).
  apply bind_ok in H. destruct H as (u4 & w4 & H4 & H).
  apply makedirs_ok in H4. destruct H4 as (_ & Hc4 & _ & Hm4).
  inversion H; subst d w'; clear H. simpl.
  rewrite Hc3 in Hm4. rewrite Hc2 in Hm3, Hm4. rewrite Hc1 in Hm2, Hm3, Hm4.
  rewrite Hc0 in Hm1, Hm2, Hm3, Hm4.
  assert (Hcw : cwd w4 = cwd w) by congruence.
  repeat (split; [first [assumption|reflexivity]|]).
  assert (Ho : exists es, FS.lookup (FS.resolve (cwd w) (PyStr.join b "OEBPS")) (fs w4)
                          = Some (Dir es)).
  { apply MakedirsFacts.makedirs_from_made in Hm1.
    destruct (MakedirsFacts.makedirs_keeps_dir _ _ _ _ _ Hm2 Hm1) as [e2 K2].
    destruct (MakedirsFacts.makedirs_keeps_dir _ _ _ _ _ Hm3 K2) as [e3 K3].
    exact (MakedirsFacts.makedirs_keeps_dir _ _ _ _ _ Hm4 K3). }
  assert (Hm : exists es, FS.lookup (FS.resolve (cwd w) (PyStr.join b "META-INF")) (fs w4)
                          = Some (Dir es)).
  { apply MakedirsFacts.makedirs_from_made in Hm2.
    destruct (MakedirsFacts.makedirs_keeps_dir _ _ _ _ _ Hm3 Hm2) as [e3 K3].
    exact (MakedirsFacts.makedirs_keeps_dir _ _ _ _ _ Hm4 K3). }
  assert (Hi : exists es,
             FS.lookup (FS.resolve (cwd w)
                          (PyStr.join (PyStr.join b "OEBPS") "images")) (fs w4)
             = Some (Dir es)).
  { apply MakedirsFacts.makedirs_from_made in Hm3.
    exact (MakedirsFacts.makedirs_keeps_dir _ _ _ _ _ Hm4 Hm3). }
  assert (Hs : exists es,
             FS.lookup (FS.resolve (cwd w)
                          (PyStr.join (PyStr.join b "OEBPS") "styles")) (fs w4)
             = Some (Dir es)).
  { apply MakedirsFacts.makedirs_from_made in Hm4. eauto. }
  intros path [<-|[<-|[<-|[<-|[<-|[]]]]]]; try assumption.
  destruct Ho as [es Ho].
  rewrite PathFacts.resolve_join in Ho by (try reflexivity; assumption).
  now apply MakedirsFacts.lookup_parent in Ho.
Qed.

(** X6. When [epub_dirs] returns a layout, the four other paths of the
    layout are the joins the code builds from the base directory, the
    base directory is not the empty path, all five are directories of
    the file system, and neither the builder nor the current directory
    has changed. *)
Theorem epub_dirs_makes_layout b0 w d w' :
  epub_dirs b0 w = (Ok d, w') ->
  basedir d <> ""%string
  /\ oebps d = PyStr.join (basedir d) "OEBPS"
  /\ metainf d = PyStr.join (basedir d) "META-INF"
  /\ images d = PyStr.join (oebps d) "images"
  /\ styles d = PyStr.join (oebps d) "styles"
  /\ self w' = self w
  /\ cwd w' = cwd w
  /\ forall path,
       In path [basedir d; oebps d; metainf d; images d; styles d] ->
       exists es, FS.lookup (FS.resolve (cwd w) path) (fs w') = Some (Dir es).
Proof.
  intros H.
  pose proof (keeps_epub_dirs (@self E) b0 inert_self w) as Ks.
  rewrite H in Ks. simpl in Ks.
  destruct (epub_dirs_layout b0 w d w' H)
    as (Hne & Ho & Hm & Hi & Hst & Hcw & Hdirs).
  repeat (split; [assumption|]). exact Hdirs.
Qed.

(** X7. [epub_dirs] cannot be run twice for one base directory: after a
    call that returned, a call for the same base directory raises
    [FileExistsError] for the content directory and changes nothing. *)
Theorem epub_dirs_twice_fails b0 w d w' :
  epub_dirs b0 w = (Ok d, w') ->
  epub_dirs (Some (basedir d)) w' = (Raise (OSError EEXIST (oebps d)), w').
Proof.
  intros H. apply epub_dirs_layout in H.
  destruct H as (Hne & Ho & _ & _ & _ & Hcw & Hdirs).
  destruct (Hdirs (oebps d)) as [es Hl]; [simpl; auto|].
  unfold epub_dirs, truthy.
  rewrite (PathFacts.eqb_empty_false _ Hne).
  erewrite bind_run by reflexivity. cbv zeta.
  erewrite bind_raise; [reflexivity|].
  unfold makedirs, fs_update. rewrite <- Ho.
  assert (Hop : oebps d <> ""%string).
  { rewrite Ho. now apply PathFacts.join_nonempty. }
  rewrite (PathFacts.eqb_empty_false _ Hop), Hcw.
  now rewrite (MakedirsFacts.makedirs_exists _ _ _ Hl).
Qed.

End Scaffold.

(* --------------------------------------------------------------------- *)
(** *** [index]                                                          *)
(* --------------------------------------------------------------------- *)

Module SiblingFacts.

Import PyStr PyStrFacts PathFacts.
Local Open Scope string_scope.

(** The entry [k] of the directory named [a], the empty name standing
    for the current directory. *)
Lemma resolve_join_entry cwd a :
  exists R, forall k, FS.valid_name k = true ->
                      FS.resolve cwd (join a k) = (R ++ [k])%list.
Proof.
  destruct (String.eqb a "") eqn:Ea.
  - apply String.eqb_eq in Ea. subst a. exists cwd. intros k Hk.
    pose proof (valid_name_inv _ Hk) as (H1 & H2 & H3 & Hs).
    unfold join. rewrite (startswith_slash_has_slash _ Hs). simpl.
    unfold FS.resolve. rewrite (startswith_slash_has_slash _ Hs).
    rewrite (split_slash_no_slash _ Hs). simpl.
    rewrite norm_step_push by assumption. simpl.
    now rewrite rev_involutive.
  - apply String.eqb_neq in Ea. exists (FS.resolve cwd a). intros k Hk.
    now apply resolve_join.
Qed.

Lemma apart_siblings R k k' :
  String.eqb k k' = false -> FS.apart (R ++ [k]) (R ++ [k'])%list = true.
Proof.
  intros Hk. unfold FS.apart.
  induction R as [|c R IH]; simpl.
  - rewrite Hk. rewrite String.eqb_sym in Hk. now rewrite Hk.
  - rewrite String.eqb_refl. exact IH.
Qed.

End SiblingFacts.

Section Index.

Context (E : Env).
Implicit Types w : World E.

(** What a [render_template] that returned has changed. *)
Lemma render_template_frame name into enc kw w u w' :
  render_template name into enc kw w = (Ok u, w') ->
  cwd w' = cwd w /\ self w' = self w
  /\ forall q,
       FS.apart
         (FS.resolve (cwd w)
            (PyStr.join into (PyStr.basename (PyStr.rsplit1_first ".j2" name)))) q
       = true ->
       FS.lookup q (fs w') = FS.lookup q (fs w).
Proof.
  unfold render_template. intros H.
  apply bind_ok in H. destruct H as (t & w1 & Hg & H).
  unfold jinja_get_template, bind, emit, lift_res in Hg. simpl in Hg.
  inversion Hg as [[Hgt Hw1]]. clear Hg.
  apply bind_ok in H. destruct H as (content & w2 & Hr & H).
  unfold render, bind, emit, lift_res in Hr. simpl in Hr.
  inversion Hr as [[Hrt Hw2]]. clear Hr.
  apply bind_ok in H. destruct H as (u1 & w3 & Ho & H).
  apply fs_update_ok in Ho. destruct Ho as (Hne & t3 & Hw3 & ->).
  apply fs_update_ok in H. destruct H as (_ & t4 & Hw4 & ->).
  subst w2 w1. simpl in *. repeat split.
  intros q Hq.
  rewrite (FSFacts.write_lookup_apart _ _ _ _ _ Hw4 Hq).
  exact (FSFacts.write_lookup_apart _ _ _ _ _ Hw3 Hq).
Qed.

(** What [index] reads, renders and writes. *)
Lemma index_documents w u w' :
  index w = (Ok u, w') ->
  exists d style_entries image_entries t1 c1 t2 c2,
    dirs (self w) = Some d
    /\ FS.lookup (FS.resolve (cwd w) (styles d)) (fs w) = Some (Dir style_entries)
    /\ FS.lookup (FS.resolve (cwd w) (images d)) (fs w) = Some (Dir image_entries)
    /\ get_template E "book.ncx.j2" = Ok t1
    /\ get_template E "book.opf.j2" = Ok t2
    /\ template_render E t1
         (IndexKw (uid (self w)) (epub (self w)) (map fst style_entries)
            (chapters (self w))
            (map (fun fname => mkMimeFile fname (get_extension fname))
                 (map fst image_entries))) = Ok c1
    /\ template_render E t2
         (IndexKw (uid (self w)) (epub (self w)) (map fst style_entries)
            (chapters (self w))
            (map (fun fname => mkMimeFile fname (get_extension fname))
                 (map fst image_entries))) = Ok c2
    /\ FS.lookup (FS.resolve (cwd w) (PyStr.join (oebps d) "book.ncx")) (fs w')
       = Some (File (Data c1))
    /\ FS.lookup (FS.resolve (cwd w) (PyStr.join (oebps d) "book.opf")) (fs w')
       = Some (File (Data c2)).
Proof.
  unfold index. intros H.
  apply bind_ok in H. destruct H as (s & w0 & Hs & H).
  unfold get_self in Hs. inversion Hs; subst s w0; clear Hs.
  destruct (dirs (self w)) as [d|]; [|discriminate].
  apply bind_ok in H. destruct H as (st & w1 & Hst & H).
  apply fs_query_inv in Hst. destruct Hst as (-> & _ & Hst).
  apply bind_ok in H. destruct H as (im & w1 & Him & H).
  apply fs_query_inv in Him. destruct Him as (-> & _ & Him).
  unfold FS.listdir in Hst, Him.
  destruct (FS.lookup (FS.resolve (cwd w) (styles d)) (fs w))
    as [[?|ses]|] eqn:Els; try discriminate.
  destruct (FS.lookup (FS.resolve (cwd w) (images d)) (fs w))
    as [[?|ies]|] eqn:Eli; try discriminate.
  inversion Hst; subst st. inversion Him; subst im. clear Hst Him.
  apply bind_ok in H. destruct H as (u0 & w1 & Hdbg & H).
  unfold debug, emit in Hdbg. inversion Hdbg; subst w1; clear Hdbg.
  apply bind_ok in H. destruct H as (u1 & w2 & Hncx & Hopf).
  pose proof (render_template_frame _ _ _ _ _ _ _ Hncx) as (Hc1 & _ & _).
  pose proof (render_template_frame _ _ _ _ _ _ _ Hopf) as (_ & _ & Hfr).
  apply render_template_outcome in Hncx.
  apply render_template_outcome in Hopf.
  destruct Hncx as (t1 & c1 & Hg1 & Hr1 & Hl1).
  destruct Hopf as (t2 & c2 & Hg2 & Hr2 & Hl2).
  simpl in Hc1, Hl1. rewrite Hc1 in Hl2, Hfr.
  change (PyStr.basename (PyStr.rsplit1_first ".j2" "book.ncx.j2"))
    with "book.ncx"%string in Hl1.
  change (PyStr.basename (PyStr.rsplit1_first ".j2" "book.opf.j2"))
    with "book.opf"%string in Hl2, Hfr.
  exists d, ses, ies, t1, c1, t2, c2.
  repeat (split; [first [reflexivity|assumption]|]).
  split; [|exact Hl2].
  rewrite Hfr; [exact Hl1|].
  destruct (SiblingFacts.resolve_join_entry (cwd w) (oebps d)) as [R HR].
  rewrite !HR by reflexivity.
  now apply SiblingFacts.apart_siblings.
Qed.

(** X8. When [index] returns, it has listed the style and image
    directories as they stood at the call, labelled each image with what
    [get_extension] gives for its name, rendered both templates with
    these lists and the accumulated chapters, and left the two renderings
    in [book.ncx] and [book.opf] of the content directory; the builder
    itself is as it was. *)
Theorem index_writes_documents w u w' :
  index w = (Ok u, w') ->
  self w' = self w
  /\ exists d style_entries image_entries t1 c1 t2 c2,
    dirs (self w) = Some d
    /\ FS.lookup (FS.resolve (cwd w) (styles d)) (fs w) = Some (Dir style_entries)
    /\ FS.lookup (FS.resolve (cwd w) (images d)) (fs w) = Some (Dir image_entries)
    /\ get_template E "book.ncx.j2" = Ok t1
    /\ get_template E "book.opf.j2" = Ok t2
    /\ template_render E t1
         (IndexKw (uid (self w)) (epub (self w)) (map fst style_entries)
            (chapters (self w))
            (map (fun fname => mkMimeFile fname (get_extension fname))
                 (map fst image_entries))) = Ok c1
    /\ template_render E t2
         (IndexKw (uid (self w)) (epub (self w)) (map fst style_entries)
            (chapters (self w))
            (map (fun fname => mkMimeFile fname (get_extension fname))
                 (map fst image_entries))) = Ok c2
    /\ FS.lookup (FS.resolve (cwd w) (PyStr.join (oebps d) "book.ncx")) (fs w')
       = Some (File (Data c1))
    /\ FS.lookup (FS.resolve (cwd w) (PyStr.join (oebps d) "book.opf")) (fs w')
       = Some (File (Data c2)).
Proof.
  intros H. split.
  - pose proof (@index_keeps_self E w) as K. rewrite H in K. exact K.
  - exact (index_documents w u w' H).
Qed.

End Index.

(* --------------------------------------------------------------------- *)
(** *** [compress] at its edges                                          *)
(* --------------------------------------------------------------------- *)

Module WriteFacts.

Import FS.

(** Writing a regular file makes no directory. *)
Lemma alter_file_no_dir p f : forall q o o',
  (forall x r, f x = inr r -> exists c, r = Some (File c)) ->
  alter p f o = inr o' ->
  lookup_opt q o = None ->
  forall es, lookup_opt q o' <> Some (Dir es).
Proof.
  induction p as [|k p IH]; intros q o o' Hf H Hq es.
  - simpl in H. destruct (Hf _ _ H) as [c ->].
    destruct q; simpl; discriminate.
  - simpl in H. destruct o as [[?|es0]|]; try discriminate.
    destruct (alter p f (assoc k es0)) as [e|r] eqn:Ea; [discriminate|].
    assert (Hr : exists v, r = Some v).
    { destruct p as [|k' p'].
      - simpl in Ea. destruct (Hf _ _ Ea) as [c ->]. eauto.
      - now apply FSFacts.alter_nonempty_some in Ea. }
    destruct Hr as [v ->]. inversion H; subst o'. clear H.
    destruct q as [|k' q]; [discriminate|].
    rewrite FSFacts.lookup_opt_cons in Hq. rewrite FSFacts.lookup_opt_cons.
    destruct (String.eqb k' k) eqn:Ek.
    + apply String.eqb_eq in Ek. subst k'.
      rewrite FSFacts.assoc_set_entry_eq.
      exact (IH q _ _ Hf Ea Hq es).
    + rewrite FSFacts.assoc_set_entry_neq by assumption.
      rewrite Hq. discriminate.
Qed.

Lemma write_no_dir p c q root root' :
  write p c root = inr root' ->
  lookup q root = None ->
  forall es, lookup q root' <> Some (Dir es).
Proof.
  unfold write. intros H Hq es.
  apply FSFacts.alter_root_inv in H. destruct H as (o' & Ha & ->).
  assert (Hf : forall x r,
             (fun o => match o with
                       | Some (Dir _) => inl EISDIR
                       | _ => inr (Some (File c))
                       end) x = inr r -> exists c0, r = Some (File c0)).
  { intros [[?|?]|] r Hx; inversion Hx; eauto. }
  pose proof (alter_file_no_dir p _ q (Some root) o' Hf Ha Hq es) as K.
  destruct o' as [r|]; [exact K|].
  destruct q; simpl; [|discriminate].
  simpl in Hq. discriminate.
Qed.

End WriteFacts.

Section CompressEdges.

Context (E : Env).
Implicit Types w : World E.

(** X9. [os.walk] swallows the error of a missing directory: when there
    is nothing at the base directory, a [compress] that returns has not
    raised [FileNotFoundError] for it; the archive it leaves at the
    returned path is closed and has no member. *)
Theorem compress_without_base_is_empty w fpath0 fpath w' d :
  compress fpath0 w = (Ok fpath, w') ->
  dirs (self w) = Some d ->
  FS.lookup (FS.resolve (cwd w) (basedir d)) (fs w) = None ->
  archive_at (FS.resolve (cwd w) fpath) (fs w') = Some [].
Proof.
  intros H Hd HB. apply compress_ok_inv in H.
  destruct H as (d' & fzip & t1 & w3 & ms & t5 & t6 & Hd' & Hp & Hne & Hw
                 & Hloop & Hl & Hc & Hr & ->).
  rewrite Hd in Hd'. inversion Hd'; subst d'. clear Hd'.
  cbv zeta in Hloop.
  assert (Hwalk : forall tr,
             walk_of (basedir d)
               (mkWorld (self w) t1 (cwd w) (ntmp w) tr) = []).
  { intros tr. unfold walk_of. simpl.
    destruct (String.eqb (basedir d) ""); [reflexivity|].
    pose proof (WriteFacts.write_no_dir _ _ _ _ _ Hw HB) as K.
    destruct (FS.lookup (FS.resolve (cwd w) (basedir d)) t1) as [[c|es]|];
      try reflexivity.
    now destruct (K es). }
  rewrite Hwalk in Hloop. simpl in Hloop. inversion Hloop; subst w3.
  simpl in *.
  apply FSFacts.write_lookup_same in Hw. rewrite Hw in Hl.
  inversion Hl; subst ms.
  unfold archive_at.
  rewrite (rename_lookup _ _ _ _ Hr).
  now rewrite (FSFacts.write_lookup_same _ _ _ _ Hc).
Qed.

End CompressEdges.

Module DestinationFacts.

Import PyStr PyStrFacts PathFacts BasenameFacts.
Local Open Scope string_scope.

Lemma rstrip_slash_app_slash s : rstrip_slash (s ++ "/") = rstrip_slash s.
Proof.
  induction s as [|c s IH]; [reflexivity|].
  change (String c s ++ "/") with (String c (s ++ "/")).
  cbn [rstrip_slash]. now rewrite IH.
Qed.

Lemma rstrip_slash_id s : endswith_slash s = false -> rstrip_slash s = s.
Proof.
  induction s as [|c s IH]; [reflexivity|].
  cbn [endswith_slash rstrip_slash]. destruct s as [|c' s'].
  - intros ->. reflexivity.
  - intros H. rewrite (IH H). now rewrite andb_false_r.
Qed.

Lemma all_slashes_ends s :
  all_slashes s = true -> s = "" \/ endswith_slash s = true.
Proof.
  induction s as [|c s IH]; [now left|].
  cbn [all_slashes endswith_slash]. intros H.
  apply andb_true_iff in H. destruct H as [Hc Hs]. right.
  destruct s as [|c' s']; [assumption|].
  destruct (IH Hs) as [Hn|He]; [discriminate|assumption].
Qed.

Lemma all_slashes_append s t : all_slashes (s ++ t) = all_slashes s && all_slashes t.
Proof.
  induction s as [|c s IH]; [reflexivity|].
  simpl. now rewrite IH, andb_assoc.
Qed.

Lemma rpartition_dir_name dir n :
  FS.has_slash n = false ->
  rpartition "/" (dir ++ "/" ++ n) = Some (dir, n).
Proof.
  intros Hn.
  assert (H : rpartition "/" ("/" ++ n) = Some ("", n)).
  { change ("/" ++ n) with (String "/" n). cbn [rpartition].
    now rewrite (rpartition_no_slash _ Hn), prefix_slash. }
  rewrite (rpartition_app dir _ _ _ H). now rewrite append_nil_r.
Qed.

Lemma basename_dir_name dir n :
  FS.has_slash n = false -> basename (dir ++ "/" ++ n) = n.
Proof. intros Hn. unfold basename. now rewrite rpartition_dir_name. Qed.

Lemma dirname_dir_name dir n :
  dir <> "" -> endswith_slash dir = false -> FS.has_slash n = false ->
  dirname (dir ++ "/" ++ n) = dir.
Proof.
  intros Hd He Hn. unfold dirname. rewrite rpartition_dir_name by assumption.
  assert (Ha : all_slashes (dir ++ "/") = false).
  { rewrite all_slashes_append.
    destruct (all_slashes dir) eqn:Ea; [|reflexivity].
    destruct (all_slashes_ends _ Ea); congruence. }
  rewrite Ha. rewrite (eqb_empty_false (dir ++ "/")) by now apply append_nonempty_l.
  simpl. now rewrite rstrip_slash_app_slash, rstrip_slash_id.
Qed.

End DestinationFacts.

(** X10. A destination of the form [dir/name], with a plain [name] and a
    directory part that is not empty and does not end with a slash, is
    kept but for the extension: the final path is [dir/] followed by the
    name cut before its last [.epub] and by [.epub], and the temporary
    path is the same with [.zip]; a destination [dir/stem.epub] comes
    back as it is. *)
Theorem destination_is_kept (E : Env) (ttl dir n : string) :
  dir <> ""%string ->
  PyStr.endswith_slash dir = false ->
  FS.has_slash n = false ->
  compress_paths ttl (Some (dir ++ "/" ++ n)%string)
  = ((dir ++ "/" ++ PyStr.rsplit1_first ".epub" n ++ ".epub")%string,
     (dir ++ "/" ++ PyStr.rsplit1_first ".epub" n ++ ".zip")%string)
  /\ forall stem, n = (stem ++ ".epub")%string ->
       fst (compress_paths ttl (Some (dir ++ "/" ++ n)%string))
       = (dir ++ "/" ++ n)%string.
Proof.
  intros Hd He Hn.
  assert (Hp : compress_paths ttl (Some (dir ++ "/" ++ n)%string)
               = ((dir ++ "/" ++ PyStr.rsplit1_first ".epub" n ++ ".epub")%string,
                  (dir ++ "/" ++ PyStr.rsplit1_first ".epub" n ++ ".zip")%string)).
  { unfold compress_paths, truthy.
    rewrite (PathFacts.eqb_empty_false (dir ++ "/" ++ n)%string)
      by now apply PathFacts.append_nonempty_l.
    rewrite DestinationFacts.basename_dir_name by assumption.
    rewrite DestinationFacts.dirname_dir_name by assumption.
    assert (Hs : FS.has_slash (PyStr.rsplit1_first ".epub" n ++ ".epub")%string
                 = false).
    { rewrite PyStrFacts.has_slash_append.
      now rewrite PyStrFacts.has_slash_rsplit1_first. }
    unfold PyStr.join at 1 2.
    rewrite (PyStrFacts.startswith_slash_has_slash _ Hs).
    rewrite (PathFacts.eqb_empty_false _ Hd), He. simpl orb. cbv iota.
    f_equal.
    replace (dir ++ "/" ++ PyStr.rsplit1_first ".epub" n ++ ".epub")%string
      with ((dir ++ "/" ++ PyStr.rsplit1_first ".epub" n) ++ ".epub")%string
      by now rewrite !PyStrFacts.append_assoc.
    rewrite PyStrFacts.rsplit1_first_epub.
    now rewrite !PyStrFacts.append_assoc. }
  split; [exact Hp|].
  intros stem ->. rewrite Hp. simpl.
  now rewrite PyStrFacts.rsplit1_first_epub.
Qed.

(* --------------------------------------------------------------------- *)
(** *** [finalize]                                                       *)
(* --------------------------------------------------------------------- *)

Module WfFacts.

Import FS.

Lemma wf_cons_intro k ch es :
  valid_name k = true -> fresh k es = true -> wf ch = true ->
  wf (Dir es) = true -> wf (Dir ((k, ch) :: es)) = true.
Proof.
  intros H1 H2 H3 H4. cbn [wf]. rewrite H1, H2, H3. exact H4.
Qed.

Lemma fresh_set_entry k' k v es :
  fresh k' es = true -> String.eqb k' k = false ->
  fresh k' (set_entry k v es) = true.
Proof.
  induction es as [|[k0 v0] es IH]; simpl; intros H Hk.
  - now rewrite Hk.
  - apply andb_true_iff in H. destruct H as [H0 H].
    destruct (String.eqb k k0); simpl; rewrite H0; simpl; auto.
Qed.

(** Replacing an entry, or adding one under a valid name, keeps a
    directory well formed. *)
Lemma wf_set_entry k v : forall es,
  wf (Dir es) = true -> wf v = true ->
  valid_name k = true \/ assoc k es <> None ->
  wf (Dir (set_entry k v es)) = true.
Proof.
  induction es as [|[k0 v0] es IH]; intros Hwf Hv Hk.
  - destruct Hk as [Hk|Hk]; [|now destruct Hk].
    simpl set_entry. now apply wf_cons_intro.
  - apply TreeFacts.wf_cons in Hwf. destruct Hwf as (H1 & H2 & H3 & H4).
    simpl set_entry. destruct (String.eqb k k0) eqn:Ek.
    + now apply wf_cons_intro.
    + apply wf_cons_intro; try assumption.
      * apply fresh_set_entry; [assumption|]. now rewrite String.eqb_sym.
      * apply IH; try assumption.
        destruct Hk as [Hk|Hk]; [now left|right].
        simpl in Hk. now rewrite Ek in Hk.
Qed.

Lemma wf_assoc k es ch :
  wf (Dir es) = true -> assoc k es = Some ch -> wf ch = true.
Proof.
  intros Hwf Ha. apply TreeFacts.assoc_in in Ha.
  now destruct (TreeFacts.wf_dir_in es Hwf k ch Ha) as (_ & H & _).
Qed.

Lemma wf_lookup p : forall n x,
  wf n = true -> lookup p n = Some x -> wf x = true.
Proof.
  induction p as [|k p IH]; intros n x Hwf Hl.
  - simpl in Hl. now inversion Hl; subst.
  - simpl in Hl. destruct n as [?|es]; [discriminate|].
    destruct (assoc k es) as [ch|] eqn:Ha; [|discriminate].
    exact (IH ch x (wf_assoc _ _ _ Hwf Ha) Hl).
Qed.

(** Writing a regular file under a valid name keeps the tree well
    formed. *)
Lemma alter_write_wf c p : forall o o',
  alter p (fun o => match o with
                    | Some (Dir _) => inl EISDIR
                    | _ => inr (Some (File c))
                    end) o = inr o' ->
  (forall n, o = Some n -> wf n = true) ->
  (p <> [] -> valid_name (last p ""%string) = true) ->
  exists n', o' = Some n' /\ wf n' = true.
Proof.
  induction p as [|k p IH]; intros o o' H Ho Hp.
  - simpl in H. exists (File c).
    destruct o as [[?|?]|]; inversion H; auto.
  - simpl in H. destruct o as [[?|es]|]; try discriminate.
    destruct (alter p _ (assoc k es)) as [e|r] eqn:Ea; [discriminate|].
    pose proof (Ho _ eq_refl) as Hes.
    destruct (IH _ _ Ea) as (v & -> & Hv).
    + intros n Hn. exact (wf_assoc _ _ _ Hes Hn).
    + intros Hne. rewrite <- (MemberFacts.last_cons_nonempty k p Hne).
      apply Hp. discriminate.
    + inversion H; subst o'. eexists. split; [reflexivity|].
      apply wf_set_entry; try assumption.
      destruct p as [|k' p'].
      * left. apply (Hp ltac:(discriminate)).
      * right. intros Hn. rewrite Hn in Ea. discriminate.
Qed.

Lemma write_wf R k c root root' :
  write (R ++ [k]) c root = inr root' ->
  valid_name k = true -> wf root = true -> wf root' = true.
Proof.
  unfold write. intros H Hk Hwf.
  apply FSFacts.alter_root_inv in H. destruct H as (o' & Ha & Hr).
  apply alter_write_wf in Ha.
  - destruct Ha as (n' & -> & Hn'). now subst root'.
  - intros n Hn. now inversion Hn; subst.
  - intros _. now rewrite last_last.
Qed.

End WfFacts.

Section Finalize.

Context (E : Env).
Implicit Types w : World E.

(** A [render_template] into a directory keeps the file system well
    formed. *)
Lemma render_template_wf name into enc kw w u w' R k :
  render_template name into enc kw w = (Ok u, w') ->
  FS.resolve (cwd w)
    (PyStr.join into (PyStr.basename (PyStr.rsplit1_first ".j2" name)))
  = R ++ [k] ->
  FS.valid_name k = true ->
  FS.wf (fs w) = true -> FS.wf (fs w') = true.
Proof.
  unfold render_template. intros H HR Hk Hwf.
  apply bind_ok in H. destruct H as (t & w1 & Hg & H).
  unfold jinja_get_template, bind, emit, lift_res in Hg. simpl in Hg.
  inversion Hg as [[Hgt Hw1]]. clear Hg.
  apply bind_ok in H. destruct H as (content & w2 & Hr & H).
  unfold render, bind, emit, lift_res in Hr. simpl in Hr.
  inversion Hr as [[Hrt Hw2]]. clear Hr.
  apply bind_ok in H. destruct H as (u1 & w3 & Ho & H).
  apply fs_update_ok in Ho. destruct Ho as (Hne & t3 & Hw3 & ->).
  apply fs_update_ok in H. destruct H as (_ & t4 & Hw4 & ->).
  subst w2 w1. simpl in *. rewrite HR in Hw3, Hw4.
  apply (WfFacts.write_wf _ _ _ _ _ Hw4 Hk).
  exact (WfFacts.write_wf _ _ _ _ _ Hw3 Hk Hwf).
Qed.

(** What an [index] that returned has changed. *)
Lemma index_frame w u w' :
  index w = (Ok u, w') ->
  self w' = self w /\ cwd w' = cwd w
  /\ (FS.wf (fs w) = true -> FS.wf (fs w') = true).
Proof.
  intros H.
  assert (Hs : self w' = self w).
  { pose proof (@index_keeps_self E w) as K. unfold keeps in K.
    rewrite H in K. exact K. }
  split; [exact Hs|].
  unfold index in H.
  apply bind_ok in H. destruct H as (s & w0 & Hg & H).
  unfold get_self in Hg. inversion Hg; subst s w0; clear Hg.
  destruct (dirs (self w)) as [d|] eqn:Hd; [|discriminate].
  apply bind_ok in H. destruct H as (sn & w1 & Hls & H).
  apply fs_query_inv in Hls. destruct Hls as (-> & _ & _).
  apply bind_ok in H. destruct H as (im & w2 & Hli & H).
  apply fs_query_inv in Hli. destruct Hli as (-> & _ & _).
  cbv zeta in H.
  apply bind_ok in H. destruct H as (u0 & w3 & Hdb & H).
  unfold debug, emit in Hdb. inversion Hdb; subst u0 w3; clear Hdb.
  apply bind_ok in H. destruct H as (u1 & w4 & Hncx & Hopf).
  pose proof (render_template_frame _ _ _ _ _ _ _ _ Hncx) as (Hc1 & _ & _).
  pose proof (render_template_frame _ _ _ _ _ _ _ _ Hopf) as (Hc2 & _ & _).
  simpl in Hc1. split; [congruence|].
  intros Hwf.
  destruct (SiblingFacts.resolve_join_entry (cwd w) (oebps d)) as [R HR].
  eapply (render_template_wf _ _ _ _ _ _ _ R "book.opf" Hopf).
  - rewrite Hc1. now apply HR.
  - reflexivity.
  - eapply (render_template_wf _ _ _ _ _ _ _ R "book.ncx" Hncx).
    + now apply HR.
    + reflexivity.
    + exact Hwf.
Qed.

(** X11. [finalize] packs what [index] wrote.  On a well-formed file
    system, with the layout [epub_dirs] makes and the archive written
    away from the base directory, a [finalize] that returns leaves an
    archive with the members [OEBPS/book.ncx] and [OEBPS/book.opf], both
    deflated, holding the two documents [index] left in the layout. *)
Theorem finalize_packs_index w fpath0 fpath w' d :
  finalize fpath0 w = (Ok fpath, w') ->
  dirs (self w) = Some d ->
  basedir d <> ""%string ->
  oebps d = PyStr.join (basedir d) "OEBPS" ->
  FS.wf (fs w) = true ->
  FS.apart (FS.resolve (cwd w) (snd (compress_paths (title (epub (self w))) fpath0)))
           (FS.resolve (cwd w) (basedir d)) = true ->
  exists ms c1 c2,
    archive_at (FS.resolve (cwd w) fpath) (fs w') = Some ms
    /\ FS.lookup (FS.resolve (cwd w) (PyStr.join (oebps d) "book.ncx"))
                 (fs (snd (index w))) = Some (File c1)
    /\ FS.lookup (FS.resolve (cwd w) (PyStr.join (oebps d) "book.opf"))
                 (fs (snd (index w))) = Some (File c2)
    /\ In ("OEBPS/book.ncx"%string, ZIP_DEFLATED, c1) ms
    /\ In ("OEBPS/book.opf"%string, ZIP_DEFLATED, c2) ms.
Proof.
  intros H Hd Hb Ho Hwf Hap. unfold finalize in H.
  apply bind_ok in H. destruct H as (u & w1 & Hi & Hc).
  destruct (index_frame _ _ _ Hi) as (Hs1 & Hc1 & Hwf1).
  specialize (Hwf1 Hwf).
  destruct (index_documents E _ _ _ Hi)
    as (d' & ses & ies & t1 & c1 & t2 & c2 & Hd' & _ & _ & _ & _ & _ & _
        & Hl1 & Hl2).
  rewrite Hd in Hd'. inversion Hd'; subst d'. clear Hd'.
  assert (Hob : oebps d <> ""%string).
  { rewrite Ho. now apply PathFacts.join_nonempty. }
  rewrite (PathFacts.resolve_join (cwd w) (oebps d) "book.ncx" eq_refl Hob) in Hl1.
  rewrite (PathFacts.resolve_join (cwd w) (oebps d) "book.opf" eq_refl Hob) in Hl2.
  rewrite Ho in Hl1, Hl2.
  rewrite (PathFacts.resolve_join (cwd w) (basedir d) "OEBPS" eq_refl Hb)
    in Hl1, Hl2.
  rewrite <- app_assoc in Hl1, Hl2. simpl app in Hl1, Hl2.
  set (B := FS.resolve (cwd w) (basedir d)) in *.
  destruct (FS.lookup B (fs w1)) as [N|] eqn:HN.
  2:{ rewrite FSFacts.lookup_app, HN in Hl1. discriminate. }
  assert (HwN : FS.wf N = true) by exact (WfFacts.wf_lookup _ _ _ Hwf1 HN).
  rewrite FSFacts.lookup_app, HN in Hl1, Hl2. simpl lookup_opt in Hl1, Hl2.
  pose proof (compress_archive E w1 fpath0 fpath w' d N Hc) as Ha.
  rewrite Hs1, Hc1 in Ha. fold B in Ha.
  specialize (Ha Hd Hb HN HwN Hap).
  exists (members_from [] N), (Data c1), (Data c2).
  split; [exact Ha|].
  replace (snd (index w)) with w1 by now rewrite Hi.
  rewrite (PathFacts.resolve_join (cwd w) (oebps d) "book.ncx" eq_refl Hob).
  rewrite (PathFacts.resolve_join (cwd w) (oebps d) "book.opf" eq_refl Hob).
  rewrite Ho.
  rewrite (PathFacts.resolve_join (cwd w) (basedir d) "OEBPS" eq_refl Hb).
  rewrite <- !app_assoc. simpl app. fold B.
  rewrite !FSFacts.lookup_app, HN. simpl lookup_opt.
  split; [exact Hl1|]. split; [exact Hl2|].
  split.
  - apply (MemberFacts.members_from_spec N [] HwN).
    exists ["OEBPS"; "book.ncx"]%string.
    split; [discriminate|]. split; [exact Hl1|]. split; reflexivity.
  - apply (MemberFacts.members_from_spec N [] HwN).
    exists ["OEBPS"; "book.opf"]%string.
    split; [discriminate|]. split; [exact Hl2|]. split; reflexivity.
Qed.

End Finalize.

(* --------------------------------------------------------------------- *)
(** *** The skeleton [begin] lays out                                    *)
(* --------------------------------------------------------------------- *)

Module OriginFacts.

Import FS.

(** A regular file found after an [alter] that leaves nothing below the
    place it changed was there before, unless it is the place changed. *)
Lemma alter_other_file p f :
  (forall x r, f x = inr r -> forall k q, lookup_opt (k :: q) r = None) ->
  forall q o o' c,
    alter p f o = inr o' -> q <> p ->
    lookup_opt q o' = Some (File c) -> lookup_opt q o = Some (File c).
Proof.
  intros Hf. induction p as [|k p IH]; intros q o o' c H Hq Hl.
  - simpl in H. destruct q as [|k q]; [congruence|].
    rewrite (Hf _ _ H) in Hl. discriminate.
  - simpl in H. destruct o as [[?|es]|]; try discriminate.
    destruct (alter p f (assoc k es)) as [e|r] eqn:Ea; [discriminate|].
    destruct q as [|k' q].
    { destruct r; inversion H; subst o'; discriminate. }
    rewrite FSFacts.lookup_opt_cons.
    destruct (String.eqb k' k) eqn:Ek.
    + apply String.eqb_eq in Ek. subst k'.
      assert (Hq' : q <> p) by congruence.
      destruct r as [v|]; inversion H; subst o'; clear H;
        rewrite FSFacts.lookup_opt_cons in Hl.
      * rewrite FSFacts.assoc_set_entry_eq in Hl.
        exact (IH q _ _ c Ea Hq' Hl).
      * rewrite FSFacts.assoc_del_entry_eq in Hl. discriminate.
    + destruct r as [v|]; inversion H; subst o'; clear H;
        rewrite FSFacts.lookup_opt_cons in Hl.
      * now rewrite FSFacts.assoc_set_entry_neq in Hl.
      * now rewrite FSFacts.assoc_del_entry_neq in Hl.
Qed.

Lemma alter_root_other_file p f q root root' c :
  (forall x r, f x = inr r -> forall k q, lookup_opt (k :: q) r = None) ->
  alter_root p f root = inr root' -> q <> p ->
  lookup q root' = Some (File c) -> lookup q root = Some (File c).
Proof.
  intros Hf H Hq Hl. apply FSFacts.alter_root_inv in H.
  destruct H as (o' & Ha & ->).
  apply (alter_other_file p f Hf q (Some root) o' c Ha Hq).
  destruct o' as [r|]; [exact Hl|].
  destruct q; simpl in Hl; discriminate.
Qed.

(** A regular file found after a write elsewhere was there before. *)
Lemma write_other_file p c0 q root root' c :
  write p c0 root = inr root' -> q <> p ->
  lookup q root' = Some (File c) -> lookup q root = Some (File c).
Proof.
  unfold write. apply alter_root_other_file.
  intros [[?|?]|] r Hx k q'; inversion Hx; reflexivity.
Qed.

(** [mkdir] makes no regular file. *)
Lemma mkdir_no_file p q root root' c :
  mkdir p root = inr root' ->
  lookup q root' = Some (File c) -> lookup q root = Some (File c).
Proof.
  unfold mkdir. intros H Hl.
  destruct (list_eq_dec string_dec q p) as [->|Hq].
  - exfalso. apply FSFacts.alter_root_inv in H. destruct H as (o' & Ha & ->).
    apply FSFacts.alter_lookup_same in Ha.
    destruct (lookup_opt p (Some root)); [discriminate|].
    inversion Ha as [K]. destruct o' as [r|].
    + simpl in K. rewrite Hl in K. discriminate.
    + simpl in K. discriminate.
  - revert H Hq Hl. apply alter_root_other_file.
    intros [?|] r Hx k q'; inversion Hx; reflexivity.
Qed.

(** [makedirs] makes no regular file. *)
Lemma makedirs_from_no_file p : forall o n' q c,
  makedirs_from p o = inr n' ->
  lookup q n' = Some (File c) -> lookup_opt q o = Some (File c).
Proof.
  induction p as [|k p IH]; intros o n' q c H Hl.
  - destruct o as [[?|?]|]; simpl in H; try discriminate.
    inversion H; subst n'. destruct q; simpl in Hl; discriminate.
  - destruct o as [[?|es]|]; simpl in H; try discriminate.
    + destruct (makedirs_from p (assoc k es)) as [e|v] eqn:Ev; [discriminate|].
      inversion H; subst n'. clear H.
      destruct q as [|k' q]; [discriminate|].
      change (lookup (k' :: q) (Dir (set_entry k v es)))
        with (lookup_opt (k' :: q) (Some (Dir (set_entry k v es)))) in Hl.
      rewrite FSFacts.lookup_opt_cons in Hl. rewrite FSFacts.lookup_opt_cons.
      destruct (String.eqb k' k) eqn:Ek.
      * apply String.eqb_eq in Ek. subst k'.
        rewrite FSFacts.assoc_set_entry_eq in Hl.
        exact (IH _ _ _ _ Ev Hl).
      * now rewrite FSFacts.assoc_set_entry_neq in Hl.
    + destruct (makedirs_from p None) as [e|v] eqn:Ev; [discriminate|].
      inversion H; subst n'. clear H.
      destruct q as [|k' q]; [discriminate|].
      simpl in Hl. destruct (String.eqb k' k); [|discriminate].
      exact (IH _ _ _ _ Ev Hl).
Qed.

Lemma makedirs_no_file p q root root' c :
  makedirs p root = inr root' ->
  lookup q root' = Some (File c) -> lookup q root = Some (File c).
Proof. intros H Hl. exact (makedirs_from_no_file p _ _ q c H Hl). Qed.

(** Two paths that part at one component are apart. *)
Lemma apart_diverge B k k' x y :
  String.eqb k k' = false ->
  apart (B ++ k :: x) (B ++ k' :: y) = true.
Proof.
  intros Hk. unfold apart.
  induction B as [|c B IH]; simpl.
  - rewrite Hk. rewrite String.eqb_sym in Hk. now rewrite Hk.
  - rewrite String.eqb_refl. exact IH.
Qed.

End OriginFacts.

Module StaticFacts.

Import PyStr PyStrFacts PathFacts BasenameFacts.
Local Open Scope string_scope.

Lemma rpartition_slash_none s :
  rpartition "/" s = None -> FS.has_slash s = false.
Proof.
  induction s as [|c s IH]; [reflexivity|].
  cbn [rpartition FS.has_slash]. rewrite prefix_slash.
  destruct (rpartition "/" s) as [[a b]|]; [discriminate|].
  destruct (Ascii.eqb c "/"); [discriminate|].
  intros _. now apply IH.
Qed.

Lemma rpartition_slash_tail s : forall a b,
  rpartition "/" s = Some (a, b) -> FS.has_slash b = false.
Proof.
  induction s as [|c s IH]; intros a b H; cbn [rpartition] in H; [discriminate|].
  destruct (rpartition "/" s) as [[a' b']|] eqn:Er.
  - inversion H; subst. now apply (IH a').
  - rewrite prefix_slash in H. destruct (Ascii.eqb c "/"); [|discriminate].
    inversion H; subst. simpl. now apply rpartition_slash_none.
Qed.

(** A file name has no slash. *)
Lemma basename_no_slash p : FS.has_slash (basename p) = false.
Proof.
  unfold basename. destruct (rpartition "/" p) as [[a b]|] eqn:Er.
  - now apply (rpartition_slash_tail p a).
  - now apply rpartition_slash_none.
Qed.

(** A name without a slash, joined to a directory, is resolved by one
    step from the directory: the entry, the directory itself for the
    empty name and [.], its parent for [..]. *)
Lemma resolve_join_step cwd a k :
  FS.has_slash k = false -> a <> "" ->
  FS.resolve cwd (join a k)
  = rev (FS.norm_step (rev (FS.resolve cwd a)) k).
Proof.
  intros Hs Ha. unfold join.
  rewrite (startswith_slash_has_slash _ Hs), (eqb_empty_false _ Ha).
  simpl orb. unfold FS.resolve. rewrite rev_involutive.
  destruct (endswith_slash a) eqn:Ee.
  - destruct (endswith_slash_inv _ Ee) as [a' ->].
    rewrite startswith_append_nonempty by assumption.
    rewrite append_assoc.
    change ("/" ++ k) with (String "/" k).
    change (a' ++ "/") with (a' ++ String "/" "").
    rewrite !split_slash_app_slash, (split_slash_no_slash _ Hs).
    rewrite !fold_left_app. simpl.
    change (FS.norm_step ?s "") with s. reflexivity.
  - rewrite startswith_append_nonempty by assumption.
    change ("/" ++ k) with (String "/" k).
    rewrite split_slash_app_slash, (split_slash_no_slash _ Hs).
    rewrite fold_left_app. reflexivity.
Qed.

(** Whatever the name, the entry stays under the parent of the
    directory. *)
Lemma resolve_join_under cwd a k R c :
  FS.has_slash k = false -> a <> "" ->
  FS.resolve cwd a = (R ++ [c])%list ->
  exists y, FS.resolve cwd (join a k) = (R ++ y)%list.
Proof.
  intros Hs Ha HR. rewrite resolve_join_step by assumption.
  rewrite HR, rev_app_distr. simpl rev at 2. simpl app at 1.
  unfold FS.norm_step.
  destruct (String.eqb k "" || String.eqb k ".").
  - exists [c]. simpl. now rewrite rev_involutive.
  - destruct (String.eqb k "..").
    + exists []. simpl. now rewrite rev_involutive, app_nil_r.
    + exists [c; k]. simpl. rewrite rev_involutive.
      now rewrite <- app_assoc.
Qed.

Lemma join_after_slash a f :
  endswith_slash a = true -> startswith "/" f = false ->
  exists a', join a f = a' ++ "/" ++ f.
Proof.
  intros He Hf. unfold join. rewrite Hf, He, orb_true_r.
  destruct (endswith_slash_inv _ He) as [a' ->]. exists a'.
  now rewrite append_assoc.
Qed.

End StaticFacts.

Section Skeleton.

Context (E : Env).
Implicit Types w : World E.

(** [epub_dirs] makes directories only: a regular file found after it
    was there before. *)
Lemma epub_dirs_origin b0 w d w' q c :
  epub_dirs b0 w = (Ok d, w') ->
  FS.lookup q (fs w') = Some (File c) -> FS.lookup q (fs w) = Some (File c).
Proof.
  unfold epub_dirs. intros H Hl.
  apply bind_ok in H. destruct H as (b & w0 & Hb & H).
  assert (H0 : FS.lookup q (fs w0) = Some (File c)
               -> FS.lookup q (fs w) = Some (File c)).
  { destruct (truthy b0) as [b'|].
    - inversion Hb; subst. auto.
    - unfold mkdtemp in Hb.
      apply bind_ok in Hb. destruct Hb as (u & w2 & Hm & Hb).
      apply fs_update_ok in Hm. destruct Hm as (_ & t & Hm & ->).
      inversion Hb; subst. simpl in *.
      now apply OriginFacts.mkdir_no_file with (1 := Hm). }
  cbv zeta in H.
  apply bind_ok in H. destruct H as (u1 & w1 & H1 & H).
  apply makedirs_ok in H1. destruct H1 as (_ & _ & _ & Hm1).
  apply bind_ok in H. destruct H as (u2 & w2 & H2 & H).
  apply makedirs_ok in H2. destruct H2 as (_ & _ & _ & Hm2).
  apply bind_ok in H. destruct H as (u3 & w3 & H3 & H).
  apply makedirs_ok in H3. destruct H3 as (_ & _ & _ & Hm3).
  apply bind_ok in H. destruct H as (u4 & w4 & H4 & H).
  apply makedirs_ok in H4. destruct H4 as (_ & _ & _ & Hm4).
  inversion H; subst d w'; clear H.
  apply H0.
  apply (OriginFacts.makedirs_no_file _ _ _ _ _ Hm1).
  apply (OriginFacts.makedirs_no_file _ _ _ _ _ Hm2).
  apply (OriginFacts.makedirs_no_file _ _ _ _ _ Hm3).
  exact (OriginFacts.makedirs_no_file _ _ _ _ _ Hm4 Hl).
Qed.

(** What a [copy_file] that returned has done. *)
Lemma copy_file_effect src into w u w' :
  copy_file src into w = (Ok u, w') ->
  self w' = self w /\ cwd w' = cwd w
  /\ exists c,
       FS.lookup (FS.resolve (cwd w) src) (fs w) = Some (File c)
       /\ FS.write (FS.resolve (cwd w) (PyStr.join into (PyStr.basename src)))
                   c (fs w) = inr (fs w').
Proof.
  unfold copy_file, copyfile.
  destruct (FS.lookup (FS.resolve (cwd w) src) (fs w)) as [n|] eqn:Hl;
    [|discriminate].
  destruct (_ && _ && _); [discriminate|].
  intros H. apply bind_ok in H. destruct H as (c & w1 & Hq & H).
  apply fs_query_inv in Hq. destruct Hq as (-> & Hne & Hread).
  unfold FS.read in Hread. rewrite Hl in Hread.
  destruct n as [c0|es]; [|discriminate]. inversion Hread; subst c0.
  apply fs_update_ok in H. destruct H as (_ & t & Hw & ->).
  simpl. split; [reflexivity|]. split; [reflexivity|]. now exists c.
Qed.

(** The stylesheets of the loop are written under the parent of the
    style directory, and nowhere else. *)
Lemma css_loop_frame into R k : forall l w u w',
  for_each l (fun path => copy_file path into) w = (Ok u, w') ->
  into <> ""%string ->
  FS.resolve (cwd w) into = R ++ [k] ->
  self w' = self w /\ cwd w' = cwd w
  /\ forall q, (forall y, FS.apart (R ++ y) q = true) ->
               FS.lookup q (fs w') = FS.lookup q (fs w).
Proof.
  induction l as [|p l IH]; intros w u w' H Hne HR.
  - inversion H; subst. auto.
  - cbn [for_each] in H.
    apply bind_ok in H. destruct H as (u1 & w1 & Hc & H).
    apply copy_file_effect in Hc. destruct Hc as (Hs1 & Hc1 & c & _ & Hw).
    rewrite <- Hc1 in HR.
    destruct (IH _ _ _ H Hne HR) as (Hs & Hc & Hfr).
    split; [congruence|]. split; [congruence|].
    intros q Hq. rewrite (Hfr q Hq).
    rewrite Hc1 in HR.
    destruct (StaticFacts.resolve_join_under (cwd w) into (PyStr.basename p)
                R k (StaticFacts.basename_no_slash p) Hne HR) as [y Hy].
    rewrite Hy in Hw.
    exact (FSFacts.write_lookup_apart _ _ _ _ _ Hw (Hq y)).
Qed.

(** The directory of the packaged files ends with a slash. *)
Lemma static_entry f :
  PyStr.startswith "/" f = false ->
  exists a, PyStr.join (STATIC E) f = (a ++ "/" ++ f)%string.
Proof.
  apply StaticFacts.join_after_slash.
  unfold STATIC, PyStr.join.
  change (PyStr.startswith "/" "static/") with false. cbv iota.
  destruct (_ || _); now rewrite PathFacts.endswith_slash_append.
Qed.

(** The steps of a first [begin] that returned, on the file system. *)
Lemma begin_writes w d w' :
  begin w = (Ok d, w') ->
  dirs (self w) = None ->
  exists (wb wc w1 w2 w3 w4 w5 : World E) t7 t cm cc c3 c4 u6 entries cover,
    fs wb = fs w /\ cwd wb = cwd w /\ epub (self wb) = epub (self w)
    /\ epub_dirs (epub_dir (epub (self wb))) wb = (Ok d, wc)
    /\ FS.lookup (FS.resolve (cwd w) (PyStr.join (STATIC E) "mimetype")) (fs wc)
       = Some (File cm)
    /\ FS.write (FS.resolve (cwd w) (basedir d) ++ ["mimetype"%string])
                cm (fs wc) = inr (fs w1)
    /\ FS.lookup (FS.resolve (cwd w) (PyStr.join (STATIC E) "container.xml"))
                 (fs w1) = Some (File cc)
    /\ FS.write (FS.resolve (cwd w) (basedir d)
                 ++ ["META-INF"; "container.xml"]%string) cc (fs w1)
       = inr (fs w2)
    /\ FS.write (FS.resolve (cwd w) (basedir d)
                 ++ ["OEBPS"; "styles"; "coverpage.css"]%string) c3 (fs w2)
       = inr (fs w3)
    /\ FS.write (FS.resolve (cwd w) (basedir d)
                 ++ ["OEBPS"; "styles"; "styles.css"]%string) c4 (fs w3)
       = inr (fs w4)
    /\ cwd w4 = cwd w
    /\ for_each (css_paths (epub (self wb)))
                (fun path => copy_file path (styles d)) w4 = (Ok u6, w5)
    /\ FS.lookup ((FS.resolve (cwd w) (basedir d) ++ ["OEBPS"%string])
                  ++ ["styles"%string]) (fs w5) = Some (Dir entries)
    /\ FS.write ((FS.resolve (cwd w) (basedir d) ++ ["OEBPS"%string])
                 ++ ["coverpage.xhtml"%string]) (Data "") (fs w5) = inr t7
    /\ template (self w') = Some t
    /\ template_render E t (CoverKw (epub (self wb)) (map fst entries))
       = Ok cover
    /\ FS.write ((FS.resolve (cwd w) (basedir d) ++ ["OEBPS"%string])
                 ++ ["coverpage.xhtml"%string]) (Data cover) t7 = inr (fs w').
Proof.
  intros H Hnone. unfold begin in H.
  apply bind_ok in H. destruct H as (s & wa & Hs & H).
  unfold get_self in Hs. inversion Hs; subst s wa; clear Hs.
  apply bind_ok in H. destruct H as (u & wb & Ht & H).
  assert (Hb : fs wb = fs w /\ cwd wb = cwd w /\ epub (self wb) = epub (self w)
               /\ dirs (self wb) = None
               /\ exists t, template (self wb) = Some t).
  { destruct (template (self w)) as [t|] eqn:Et.
    - inversion Ht; subst. repeat split; try assumption. now exists t.
    - apply bind_ok in Ht. destruct Ht as (t & wc & Hg & Hset).
      unfold jinja_get_template, bind, emit, lift_res in Hg. simpl in Hg.
      inversion Hg as [[Hgt Hwc]]. clear Hg.
      unfold set_template, bind, get_self, set_self in Hset.
      inversion Hset; subst; simpl. repeat split; try assumption.
      now exists t. }
  destruct Hb as (Hfb & Hcb & Heb & Hdb & t & Htb). clear Ht.
  apply bind_ok in H. destruct H as (s & wa & Hs & H).
  unfold get_self in Hs. inversion Hs; subst s wa; clear Hs.
  rewrite Hdb in H.
  apply bind_ok in H. destruct H as (d0 & wc & Hdirs & H).
  pose proof (epub_dirs_layout E _ _ _ _ Hdirs)
    as (Hne & Ho & Hm & _ & Hst & Hcc & _).
  pose proof (keeps_epub_dirs (@self E) (epub_dir (epub (self wb)))
                inert_self wb) as Ksc.
  rewrite Hdirs in Ksc. simpl in Ksc.
  apply bind_ok in H. destruct H as (u1 & wd & Hset & H).
  unfold set_dirs, bind, get_self, set_self in Hset.
  inversion Hset; subst wd; clear Hset.
  cbv zeta in H.
  apply bind_ok in H. destruct H as (u2 & w1 & K1 & H).
  apply bind_ok in H. destruct H as (u3 & w2 & K2 & H).
  apply bind_ok in H. destruct H as (u4 & w3 & K3 & H).
  apply bind_ok in H. destruct H as (u5 & w4 & K4 & H).
  apply bind_ok in H. destruct H as (u6 & w5 & K5 & H).
  apply bind_ok in H. destruct H as (names & w6 & K6 & H).
  apply bind_ok in H. destruct H as (u7 & w7 & K7 & H).
  apply bind_ok in H. destruct H as (s' & w8 & K8 & H).
  unfold get_self in K8. inversion K8; subst s' w8; clear K8.

  assert (Htw : forall x : World E,
             self x = {| uid := uid (self wc); epub := epub (self wc);
                         b_encoding := b_encoding (self wc); dirs := Some d0;
                         template := template (self wc);
                         chapters := chapters (self wc) |}
             -> template (self x) = Some t).
  { intros x ->. simpl. now rewrite Ksc. }
  unfold copy_static in K1, K2, K3, K4.
  apply copy_file_effect in K1. simpl in K1.
  destruct K1 as (Hs1 & Hc1 & cm & Hsrc1 & Hw1).
  apply copy_file_effect in K2. destruct K2 as (Hs2 & Hc2 & cc & Hsrc2 & Hw2).
  apply copy_file_effect in K3. destruct K3 as (Hs3 & Hc3 & c3 & _ & Hw3).
  apply copy_file_effect in K4. destruct K4 as (Hs4 & Hc4 & c4 & _ & Hw4).
  assert (Hcw1 : cwd w1 = cwd w) by congruence.
  assert (Hcw2 : cwd w2 = cwd w) by congruence.
  assert (Hcw3 : cwd w3 = cwd w) by congruence.
  assert (Hcw4 : cwd w4 = cwd w) by congruence.
  rewrite Hcc, Hcb in Hsrc1, Hw1. rewrite Hcw1 in Hsrc2, Hw2.
  rewrite Hcw2 in Hw3. rewrite Hcw3 in Hw4.
  (* the paths of the layout *)
  set (B := FS.resolve (cwd w) (basedir d0)).
  assert (Hob : oebps d0 <> ""%string)
    by (rewrite Ho; now apply PathFacts.join_nonempty).
  assert (Hmb : metainf d0 <> ""%string)
    by (rewrite Hm; now apply PathFacts.join_nonempty).
  assert (Hsb : styles d0 <> ""%string)
    by (rewrite Hst; now apply PathFacts.join_nonempty).
  assert (EO : FS.resolve (cwd w) (oebps d0) = B ++ ["OEBPS"%string])
    by (rewrite Ho; now apply PathFacts.resolve_join).
  assert (EM : FS.resolve (cwd w) (metainf d0) = B ++ ["META-INF"%string])
    by (rewrite Hm; now apply PathFacts.resolve_join).
  assert (ES : FS.resolve (cwd w) (styles d0)
               = (B ++ ["OEBPS"%string]) ++ ["styles"%string])
    by (rewrite Hst, <- EO; now apply PathFacts.resolve_join).
  assert (E1 : FS.resolve (cwd w) (PyStr.join (basedir d0) "mimetype")
               = B ++ ["mimetype"%string])
    by now apply PathFacts.resolve_join.
  assert (E2 : FS.resolve (cwd w) (PyStr.join (metainf d0) "container.xml")
               = B ++ ["META-INF"; "container.xml"]%string).
  { rewrite PathFacts.resolve_join by (reflexivity || assumption).
    now rewrite EM, <- app_assoc. }
  assert (E6 : FS.resolve (cwd w) (PyStr.join (oebps d0) "coverpage.xhtml")
               = (B ++ ["OEBPS"%string]) ++ ["coverpage.xhtml"%string]).
  { rewrite PathFacts.resolve_join by (reflexivity || assumption).
    now rewrite EO. }
  (* the names of the packaged files *)
  destruct (static_entry "mimetype" eq_refl) as [a1 Ha1].
  destruct (static_entry "container.xml" eq_refl) as [a2 Ha2].
  destruct (static_entry "css/coverpage.css" eq_refl) as [a3 Ha3].
  destruct (static_entry "css/styles.css" eq_refl) as [a4 Ha4].
  rewrite Ha1, BasenameFacts.basename_after_slash in Hw1.
  rewrite Ha2, BasenameFacts.basename_after_slash in Hw2.
  rewrite Ha3, BasenameFacts.basename_after_slash in Hw3.
  rewrite Ha4, BasenameFacts.basename_after_slash in Hw4.
  change (PyStr.basename "mimetype") with "mimetype"%string in Hw1.
  change (PyStr.basename "container.xml") with "container.xml"%string in Hw2.
  change (PyStr.basename "css/coverpage.css") with "coverpage.css"%string in Hw3.
  change (PyStr.basename "css/styles.css") with "styles.css"%string in Hw4.
  rewrite E1 in Hw1. rewrite E2 in Hw2.
  rewrite (PathFacts.resolve_join (cwd w) (styles d0) "coverpage.css" eq_refl Hsb),
    ES, <- !app_assoc in Hw3.
  rewrite (PathFacts.resolve_join (cwd w) (styles d0) "styles.css" eq_refl Hsb),
    ES, <- !app_assoc in Hw4.
  simpl app in Hw3, Hw4.
  (* the loop, the listing and the cover *)
  rewrite <- Hcw4 in ES.
  destruct (css_loop_frame _ _ _ _ _ _ _ K5 Hsb ES) as (Hs5 & Hc5 & Hfr5).
  rewrite Hcw4 in ES.
  assert (Hcw5 : cwd w5 = cwd w) by congruence.
  apply fs_query_inv in K6. destruct K6 as (-> & _ & Hls).
  rewrite Hcw5, ES in Hls. unfold FS.listdir in Hls.
  destruct (FS.lookup ((B ++ ["OEBPS"%string]) ++ ["styles"%string]) (fs w5))
    as [[?|entries]|] eqn:Els; try discriminate.
  inversion Hls; subst names. clear Hls.
  apply fs_update_ok in K7. destruct K7 as (_ & t7 & Hw7 & ->).
  rewrite Hcw5, E6 in Hw7.
  simpl in H.
  rewrite (Htw w5) in H by congruence.
  apply bind_ok in H. destruct H as (cover & w8 & Hr & H).
  unfold render, bind, emit, lift_res in Hr. simpl in Hr.
  inversion Hr as [[Hrt Hw8]]. clear Hr.
  apply bind_ok in H. destruct H as (u8 & w9 & Hf & H).
  apply fs_update_ok in Hf. destruct Hf as (_ & t9 & Hw9 & ->).
  subst w8. simpl in Hw9. rewrite Hcw5, E6 in Hw9.
  inversion H; subst d0 w'. clear H. simpl.
  exists wb, wc, w1, w2, w3, w4, w5, t7, t, cm, cc, c3, c4, u6, entries, cover.
  fold B.
  repeat (split; [first [assumption|reflexivity]|]).
  split; [apply Htw; congruence|].
  split; assumption.
Qed.

(** X12. The skeleton of a build.  When the first [begin] returns, the
    entry [mimetype] of the base directory and the entry [container.xml]
    of [META-INF] hold what the packaged files of these names held when
    [begin] was called; the template is loaded; and [coverpage.xhtml] in
    the content directory holds the rendering of that template with the
    names the style directory has at the end, stylesheets of the build
    included. *)
Theorem begin_lays_out_skeleton w d w' :
  begin w = (Ok d, w') ->
  dirs (self w) = None ->
  exists cm cc t entries cover,
    FS.lookup (FS.resolve (cwd w) (PyStr.join (STATIC E) "mimetype")) (fs w)
    = Some (File cm)
    /\ FS.lookup (FS.resolve (cwd w) (PyStr.join (STATIC E) "container.xml"))
                 (fs w) = Some (File cc)
    /\ FS.lookup (FS.resolve (cwd w) (PyStr.join (basedir d) "mimetype")) (fs w')
       = Some (File cm)
    /\ FS.lookup (FS.resolve (cwd w) (PyStr.join (metainf d) "container.xml"))
                 (fs w') = Some (File cc)
    /\ template (self w') = Some t
    /\ FS.lookup (FS.resolve (cwd w) (styles d)) (fs w') = Some (Dir entries)
    /\ template_render E t (CoverKw (epub (self w)) (map fst entries)) = Ok cover
    /\ FS.lookup (FS.resolve (cwd w) (PyStr.join (oebps d) "coverpage.xhtml"))
                 (fs w') = Some (File (Data cover)).
Proof.
  intros H Hnone.
  destruct (begin_writes w d w' H Hnone)
    as (wb & wc & w1 & w2 & w3 & w4 & w5 & t7 & t & cm & cc & c3 & c4 & u6
        & entries & cover & Hfb & Hcb & Heb & Hdirs & Hsrc1 & Hw1 & Hsrc2
        & Hw2 & Hw3 & Hw4 & Hcw4 & K5 & Els & Hw7 & Htw & Hrt & Hw9).
  pose proof (epub_dirs_layout E _ _ _ _ Hdirs)
    as (Hne & Ho & Hm & _ & Hst & _ & _).
  set (B := FS.resolve (cwd w) (basedir d)) in *.
  assert (Hob : oebps d <> ""%string)
    by (rewrite Ho; now apply PathFacts.join_nonempty).
  assert (Hmb : metainf d <> ""%string)
    by (rewrite Hm; now apply PathFacts.join_nonempty).
  assert (Hsb : styles d <> ""%string)
    by (rewrite Hst; now apply PathFacts.join_nonempty).
  assert (EO : FS.resolve (cwd w) (oebps d) = B ++ ["OEBPS"%string])
    by (rewrite Ho; now apply PathFacts.resolve_join).
  assert (EM : FS.resolve (cwd w) (metainf d) = B ++ ["META-INF"%string])
    by (rewrite Hm; now apply PathFacts.resolve_join).
  assert (ES : FS.resolve (cwd w) (styles d)
               = (B ++ ["OEBPS"%string]) ++ ["styles"%string])
    by (rewrite Hst, <- EO; now apply PathFacts.resolve_join).
  assert (E1 : FS.resolve (cwd w) (PyStr.join (basedir d) "mimetype")
               = B ++ ["mimetype"%string])
    by now apply PathFacts.resolve_join.
  assert (E2 : FS.resolve (cwd w) (PyStr.join (metainf d) "container.xml")
               = B ++ ["META-INF"; "container.xml"]%string).
  { rewrite PathFacts.resolve_join by (reflexivity || assumption).
    now rewrite EM, <- app_assoc. }
  assert (E6 : FS.resolve (cwd w) (PyStr.join (oebps d) "coverpage.xhtml")
               = (B ++ ["OEBPS"%string]) ++ ["coverpage.xhtml"%string]).
  { rewrite PathFacts.resolve_join by (reflexivity || assumption).
    now rewrite EO. }
  rewrite <- Hcw4 in ES.
  destruct (css_loop_frame _ _ _ _ _ _ _ K5 Hsb ES) as (_ & _ & Hfr5).
  rewrite Hcw4 in ES.
  rewrite E1, E2, E6, ES.
  (* what the later steps leave alone *)
  assert (Hkeep : forall q,
             (forall y, FS.apart (B ++ "OEBPS"%string :: y) q = true) ->
             FS.lookup q (fs w') = FS.lookup q (fs w2)).
  { intros q Hq.
    rewrite (FSFacts.write_lookup_apart _ _ q _ _ Hw9)
      by (rewrite <- app_assoc; apply Hq).
    rewrite (FSFacts.write_lookup_apart _ _ q _ _ Hw7)
      by (rewrite <- app_assoc; apply Hq).
    rewrite Hfr5 by (intros y; rewrite <- app_assoc; apply Hq).
    rewrite (FSFacts.write_lookup_apart _ _ q _ _ Hw4) by apply Hq.
    exact (FSFacts.write_lookup_apart _ _ q _ _ Hw3 (Hq _)). }
  exists cm, cc, t, entries, cover.
  split.
  { rewrite <- Hfb. exact (epub_dirs_origin _ _ _ _ _ _ Hdirs Hsrc1). }
  split.
  { rewrite <- Hfb. apply (epub_dirs_origin _ _ _ _ _ _ Hdirs).
    apply (OriginFacts.write_other_file _ _ _ _ _ _ Hw1); [|exact Hsrc2].
    destruct (SiblingFacts.resolve_join_entry (cwd w) (STATIC E)) as [RS HRS].
    rewrite (HRS "container.xml"%string eq_refl).
    intros Heq. apply app_inj_tail in Heq. destruct Heq as [_ Heq].
    discriminate. }
  split.
  { rewrite Hkeep by (intros y; now apply OriginFacts.apart_diverge).
    rewrite (FSFacts.write_lookup_apart _ _ _ _ _ Hw2)
      by now apply OriginFacts.apart_diverge.
    exact (FSFacts.write_lookup_same _ _ _ _ Hw1). }
  split.
  { rewrite Hkeep by (intros y; now apply OriginFacts.apart_diverge).
    exact (FSFacts.write_lookup_same _ _ _ _ Hw2). }
  split; [exact Htw|].
  split.
  { rewrite (FSFacts.write_lookup_apart _ _ _ _ _ Hw9)
      by now apply SiblingFacts.apart_siblings.
    rewrite (FSFacts.write_lookup_apart _ _ _ _ _ Hw7)
      by now apply SiblingFacts.apart_siblings.
    exact Els. }
  split; [now rewrite <- Heb|].
  exact (FSFacts.write_lookup_same _ _ _ _ Hw9).
Qed.

End Skeleton.

(* --------------------------------------------------------------------- *)
(** *** The layout is new                                                *)
(* --------------------------------------------------------------------- *)

Module FreshFacts.

Import FS.

(** [makedirs] of an entry of an existing directory adds that entry,
    empty, and nothing else. *)
Lemma makedirs_from_entry k p : forall o n' es,
  makedirs_from (p ++ [k]) o = inr n' ->
  lookup_opt p o = Some (Dir es) ->
  lookup p n' = Some (Dir (set_entry k (Dir []) es)).
Proof.
  induction p as [|c p IH]; intros o n' es H Hl.
  - destruct o as [n|]; [|discriminate]. simpl in Hl.
    inversion Hl; subst n. simpl in H.
    destruct (assoc k es) as [[?|?]|]; simpl in H; try discriminate.
    now inversion H.
  - destruct o as [[?|es0]|]; try discriminate.
    rewrite FSFacts.lookup_opt_cons in Hl.
    simpl in H.
    destruct (makedirs_from (p ++ [k]) (assoc c es0)) as [e|v] eqn:Ev;
      [discriminate|].
    inversion H; subst n'. simpl.
    rewrite FSFacts.assoc_set_entry_eq.
    exact (IH _ _ _ Ev Hl).
Qed.

(** [makedirs] leaves alone what lies apart from its path. *)
Lemma makedirs_from_apart p : forall q o n',
  makedirs_from p o = inr n' ->
  apart p q = true ->
  lookup q n' = lookup_opt q o.
Proof.
  unfold apart.
  induction p as [|c p IH]; intros q o n' H Hq; simpl in Hq; [discriminate|].
  destruct q as [|c' q]; simpl in Hq; [discriminate|].
  destruct o as [[?|es]|]; simpl in H; try discriminate.
  - destruct (makedirs_from p (assoc c es)) as [e|v] eqn:Ev; [discriminate|].
    inversion H; subst n'. clear H.
    change (lookup (c' :: q) (Dir (set_entry c v es)))
      with (lookup_opt (c' :: q) (Some (Dir (set_entry c v es)))).
    rewrite !FSFacts.lookup_opt_cons.
    destruct (String.eqb c c') eqn:Ec.
    + apply String.eqb_eq in Ec. subst c'. rewrite String.eqb_refl in Hq.
      simpl in Hq. rewrite FSFacts.assoc_set_entry_eq.
      exact (IH q _ _ Ev Hq).
    + rewrite FSFacts.assoc_set_entry_neq; [reflexivity|].
      now rewrite String.eqb_sym.
  - destruct (makedirs_from p None) as [e|v] eqn:Ev; [discriminate|].
    inversion H; subst n'. clear H. simpl.
    destruct (String.eqb c c') eqn:Ec.
    + apply String.eqb_eq in Ec. subst c'. rewrite String.eqb_refl in *.
      simpl in Hq. exact (IH q _ _ Ev Hq).
    + rewrite String.eqb_sym in Ec. now rewrite Ec.
Qed.

Lemma makedirs_apart p q root root' :
  makedirs p root = inr root' -> apart p q = true ->
  lookup q root' = lookup q root.
Proof. intros H Hq. exact (makedirs_from_apart p q _ _ H Hq). Qed.

End FreshFacts.

Section Fresh.

Context (E : Env).
Implicit Types w : World E.

(** X13. The layout [epub_dirs] returns is new, whatever base directory
    it was given: the directories [images], [styles] and [META-INF] are
    empty, and the content directory has no other entry than [images]
    and [styles]. *)
Theorem epub_dirs_layout_is_new b0 w d w' :
  epub_dirs b0 w = (Ok d, w') ->
  FS.lookup (FS.resolve (cwd w) (images d)) (fs w') = Some (Dir [])
  /\ FS.lookup (FS.resolve (cwd w) (styles d)) (fs w') = Some (Dir [])
  /\ FS.lookup (FS.resolve (cwd w) (metainf d)) (fs w') = Some (Dir [])
  /\ forall k n,
       FS.lookup (FS.resolve (cwd w) (oebps d) ++ [k]) (fs w') = Some n ->
       k = "images"%string \/ k = "styles"%string.
Proof.
  unfold epub_dirs. intros H.
  apply bind_ok in H. destruct H as (b & w0 & Hb & H).
  apply epub_dirs_base in Hb. destruct Hb as (Hne & Hc0 & _).
  cbv zeta in H.
  apply bind_ok in H. destruct H as (u1 & w1 & K1 & H).
  apply makedirs_ok in K1. destruct K1 as (_ & Hc1 & _ & Hm1).
  apply bind_ok in H. destruct H as (u2 & w2 & K2 & H).
  apply makedirs_ok in K2. destruct K2 as (_ & Hc2 & _ & Hm2).
  apply bind_ok in H. destruct H as (u3 & w3 & K3 & H).
  apply makedirs_ok in K3. destruct K3 as (_ & Hc3 & _ & Hm3).
  apply bind_ok in H. destruct H as (u4 & w4 & K4 & H).
  apply makedirs_ok in K4. destruct K4 as (_ & Hc4 & _ & Hm4).
  inversion H; subst d w'; clear H. simpl.
  rewrite Hc3 in Hm4. rewrite Hc2 in Hm3, Hm4. rewrite Hc1 in Hm2, Hm3, Hm4.
  rewrite Hc0 in Hm1, Hm2, Hm3, Hm4.
  assert (Hob : PyStr.join b "OEBPS" <> ""%string)
    by now apply PathFacts.join_nonempty.
  rewrite (PathFacts.resolve_join (cwd w) _ "images" eq_refl Hob) in *.
  rewrite (PathFacts.resolve_join (cwd w) _ "styles" eq_refl Hob) in *.
  rewrite (PathFacts.resolve_join (cwd w) b "OEBPS" eq_refl Hne) in *.
  rewrite (PathFacts.resolve_join (cwd w) b "META-INF" eq_refl Hne) in *.
  set (B := FS.resolve (cwd w) b) in *.
  pose proof (MakedirsFacts.makedirs_from_made _ _ _ Hm1) as L1.
  pose proof (MakedirsFacts.makedirs_from_made _ _ _ Hm2) as L2.
  assert (A2 : FS.apart (B ++ ["META-INF"%string]) (B ++ ["OEBPS"%string]) = true)
    by now apply SiblingFacts.apart_siblings.
  rewrite <- (FreshFacts.makedirs_apart _ _ _ _ Hm2 A2) in L1.
  pose proof (FreshFacts.makedirs_from_entry _ _ _ _ _ Hm3 L1) as L3.
  pose proof (FreshFacts.makedirs_from_entry _ _ _ _ _ Hm4 L3) as L4.
  change (FS.set_entry "styles" (Dir []) (FS.set_entry "images" (Dir []) []))
    with [("images"%string, Dir []); ("styles"%string, Dir [])] in L4.
  rewrite !(FSFacts.lookup_app (B ++ ["OEBPS"%string])), L4.
  simpl lookup_opt.
  split; [reflexivity|]. split; [reflexivity|]. split.
  - rewrite (FreshFacts.makedirs_apart _ _ _ _ Hm4)
      by (rewrite <- app_assoc; now apply OriginFacts.apart_diverge).
    rewrite (FreshFacts.makedirs_apart _ _ _ _ Hm3)
      by (rewrite <- app_assoc; now apply OriginFacts.apart_diverge).
    exact L2.
  - intros k n. rewrite (FSFacts.lookup_app (B ++ ["OEBPS"%string])), L4.
    cbn [lookup_opt FS.lookup FS.assoc].
    destruct (String.eqb k "images") eqn:E1;
      [apply String.eqb_eq in E1; auto|].
    destruct (String.eqb k "styles") eqn:E2;
      [apply String.eqb_eq in E2; auto|discriminate].
Qed.


End Fresh.

(* --------------------------------------------------------------------- *)
(** *** What no call changes                                             *)
(* --------------------------------------------------------------------- *)

Lemma inert_constants {E} : inert (@constants E).
Proof. intros b t d n tr t' n' tr'. reflexivity. Qed.

Lemma keeps_set_dirs_constants {E} d : keeps (@constants E) (set_dirs d).
Proof. intros w. reflexivity. Qed.

Lemma keeps_set_template_constants {E} t :
  keeps (@constants E) (set_template t).
Proof. intros w. reflexivity. Qed.

Lemma keeps_append_chapter_constants {E} ac :
  keeps (@constants E) (append_chapter ac).
Proof. intros w. reflexivity. Qed.

Lemma keeps_append_chapter_template {E} ac :
  keeps (fun w : World E => template (self w)) (append_chapter ac).
Proof. intros w. reflexivity. Qed.

#[global] Hint Resolve inert_constants keeps_set_dirs_constants
     keeps_set_template_constants keeps_append_chapter_constants
     keeps_append_chapter_template : frames.

Section Invariants.

Context (E : Env).
Implicit Types w : World E.

Lemma do_call_constants c : keeps (@constants E) (do_call c).
Proof.
  destruct c; simpl;
    unfold begin, render_chapter, index, finalize, compress, cleanup, index;
    frame.
Qed.

(** A loaded template stays loaded. *)
Lemma do_call_template c w t :
  template (self w) = Some t ->
  template (self (snd (do_call c w))) = Some t.
Proof.
  intros Ht. destruct c; simpl.
  - assert (Hb : template (self (snd (begin w))) = Some t).
    { unfold begin.
      erewrite bind_run by (unfold get_self; reflexivity).
      rewrite Ht.
      erewrite bind_run by reflexivity.
      match goal with
      | |- template (self (snd (?rest w))) = _ =>
          assert (K : keeps (fun w : World E => template (self w)) rest)
            by frame;
          now rewrite K
      end. }
    unfold bind. destruct (begin w) as [[d|e] w1]; exact Hb.
  - assert (K : keeps (fun w : World E => template (self w))
                      (render_chapter assign chapter))
      by (unfold render_chapter; frame).
    now rewrite K.
  - now rewrite (@index_keeps_self E w).
  - pose proof (@compress_keeps_self E fpath w) as K.
    unfold bind. destruct (compress fpath w) as [[p|e] w1]; simpl in *;
      now rewrite K.
  - pose proof (@finalize_keeps_self E fpath w) as K.
    unfold bind. destruct (finalize fpath w) as [[p|e] w1]; simpl in *;
      now rewrite K.
  - assert (K : keeps (fun w : World E => template (self w)) cleanup)
      by (unfold cleanup; frame).
    now rewrite K.
Qed.

(** No call takes a chapter away. *)
Lemma do_call_grows c w :
  exists more,
    chapters (self (snd (do_call c w))) = chapters (self w) ++ more.
Proof.
  destruct (do_call c w) as [r w1] eqn:Hc.
  pose proof (do_call_chapters E _ _ _ _ Hc) as K. simpl.
  destruct c; try (exists []; now rewrite app_nil_r).
  destruct r as [u|e]; [now exists [(assign, chapter)]|].
  clear K. simpl in Hc.
  destruct (dirs (self w)) as [d|] eqn:Hd;
    [destruct (template (self w)) as [t|] eqn:Ht|].
  - pose proof (render_chapter_began E w d t assign chapter Hd Ht) as K.
    rewrite Hc in K. simpl in K. rewrite K. simpl.
    now exists [(assign, chapter)].
  - unfold render_chapter, bind, get_self in Hc. rewrite Hd, Ht in Hc.
    inversion Hc; subst. exists []. now rewrite app_nil_r.
  - unfold render_chapter, bind, get_self in Hc. rewrite Hd in Hc.
    inversion Hc; subst. exists []. now rewrite app_nil_r.
Qed.

(** X14. Whatever the calls and their outcomes, from whatever state: the
    uid, the book and the encoding of the builder and the current
    directory stay as they were; the accumulated chapters are only added
    to, never removed or reset, not even by [cleanup]; and a template
    that is loaded stays loaded. *)
Theorem calls_keep_the_builder cs : forall w rs w',
  run_calls cs w = (rs, w') ->
  uid (self w') = uid (self w)
  /\ epub (self w') = epub (self w)
  /\ b_encoding (self w') = b_encoding (self w)
  /\ cwd w' = cwd w
  /\ (exists more, chapters (self w') = chapters (self w) ++ more)
  /\ (forall t, template (self w) = Some t -> template (self w') = Some t).
Proof.
  induction cs as [|c cs IH]; intros w rs w' H; simpl in H.
  - inversion H; subst. repeat split; auto.
    exists []. now rewrite app_nil_r.
  - destruct (do_call c w) as [r w1] eqn:Hc.
    destruct (run_calls cs w1) as [rs1 w2] eqn:Hcs.
    inversion H; subst; clear H.
    destruct (IH _ _ _ Hcs) as (Hu & He & Hb & Hcw & (m2 & Hm2) & Htt).
    pose proof (do_call_constants c w) as K. rewrite Hc in K.
    unfold constants in K. simpl in K. inversion K as [[Ku Ke Kb Kc]].
    destruct (do_call_grows c w) as (m1 & Hm1). rewrite Hc in Hm1.
    simpl in Hm1.
    pose proof (do_call_template c w) as Kt. rewrite Hc in Kt. simpl in Kt.
    split; [congruence|]. split; [congruence|]. split; [congruence|].
    split; [congruence|]. split.
    + exists (m1 ++ m2). now rewrite Hm2, Hm1, app_assoc.
    + intros t Ht. apply Htt. now apply Kt.
Qed.

End Invariants.

(* --------------------------------------------------------------------- *)
(** *** The whole build in the archive                                   *)
(* --------------------------------------------------------------------- *)

Module KeepFacts.

Import FS.

(** An [alter] that refuses directories leaves every other regular file
    as it is. *)
Lemma alter_keeps_file p f :
  (forall es r, f (Some (Dir es)) <> inr r) ->
  forall q o o' c,
    alter p f o = inr o' -> q <> p ->
    lookup_opt q o = Some (File c) -> lookup_opt q o' = Some (File c).
Proof.
  intros Hf. induction p as [|k p IH]; intros q o o' c H Hq Hl.
  - simpl in H. destruct q as [|k q]; [congruence|].
    destruct o as [[?|es]|]; try discriminate.
    now destruct (Hf es o').
  - simpl in H. destruct o as [[?|es]|]; try discriminate.
    destruct (alter p f (assoc k es)) as [e|r] eqn:Ea; [discriminate|].
    destruct q as [|k' q]; [discriminate|].
    rewrite FSFacts.lookup_opt_cons in Hl.
    destruct (String.eqb k' k) eqn:Ek.
    + apply String.eqb_eq in Ek. subst k'.
      assert (Hq' : q <> p) by congruence.
      pose proof (IH q _ _ c Ea Hq' Hl) as K.
      destruct r as [v|]; [|discriminate].
      inversion H; subst o'.
      now rewrite FSFacts.lookup_opt_cons, FSFacts.assoc_set_entry_eq.
    + destruct r as [v|]; inversion H; subst o';
        rewrite FSFacts.lookup_opt_cons.
      * now rewrite FSFacts.assoc_set_entry_neq.
      * now rewrite FSFacts.assoc_del_entry_neq.
Qed.

Lemma write_keeps_file p c0 q root root' c :
  write p c0 root = inr root' -> q <> p ->
  lookup q root = Some (File c) -> lookup q root' = Some (File c).
Proof.
  unfold write. intros H Hq Hl.
  apply FSFacts.alter_root_inv in H. destruct H as (o' & Ha & ->).
  assert (K : lookup_opt q o' = Some (File c)).
  { revert Ha Hq Hl. apply alter_keeps_file.
    intros es r Hx. discriminate. }
  destruct o' as [r|]; [exact K|discriminate].
Qed.

End KeepFacts.

Section PackBuild.

Context (E : Env).
Implicit Types w : World E.

Lemma render_template_keeps_file name into enc kw w u w' q c :
  render_template name into enc kw w = (Ok u, w') ->
  q <> FS.resolve (cwd w)
         (PyStr.join into (PyStr.basename (PyStr.rsplit1_first ".j2" name))) ->
  FS.lookup q (fs w) = Some (File c) -> FS.lookup q (fs w') = Some (File c).
Proof.
  unfold render_template. intros H Hq Hl.
  apply bind_ok in H. destruct H as (t & w1 & Hg & H).
  unfold jinja_get_template, bind, emit, lift_res in Hg. simpl in Hg.
  inversion Hg as [[Hgt Hw1]]. clear Hg.
  apply bind_ok in H. destruct H as (content & w2 & Hr & H).
  unfold render, bind, emit, lift_res in Hr. simpl in Hr.
  inversion Hr as [[Hrt Hw2]]. clear Hr.
  apply bind_ok in H. destruct H as (u1 & w3 & Ho & H).
  apply fs_update_ok in Ho. destruct Ho as (Hne & t3 & Hw3 & ->).
  apply fs_update_ok in H. destruct H as (_ & t4 & Hw4 & ->).
  subst w2 w1. simpl in *.
  apply (KeepFacts.write_keeps_file _ _ _ _ _ _ Hw4 Hq).
  exact (KeepFacts.write_keeps_file _ _ _ _ _ _ Hw3 Hq Hl).
Qed.

(** [index] leaves every regular file but its two documents as it is. *)
Lemma index_keeps_file w u w' d q c :
  index w = (Ok u, w') ->
  dirs (self w) = Some d ->
  q <> FS.resolve (cwd w) (PyStr.join (oebps d) "book.ncx") ->
  q <> FS.resolve (cwd w) (PyStr.join (oebps d) "book.opf") ->
  FS.lookup q (fs w) = Some (File c) -> FS.lookup q (fs w') = Some (File c).
Proof.
  intros H Hd Hq1 Hq2 Hl. unfold index in H.
  apply bind_ok in H. destruct H as (s & w0 & Hg & H).
  unfold get_self in Hg. inversion Hg; subst s w0; clear Hg.
  rewrite Hd in H.
  apply bind_ok in H. destruct H as (sn & w1 & Hls & H).
  apply fs_query_inv in Hls. destruct Hls as (-> & _ & _).
  apply bind_ok in H. destruct H as (im & w2 & Hli & H).
  apply fs_query_inv in Hli. destruct Hli as (-> & _ & _).
  cbv zeta in H.
  apply bind_ok in H. destruct H as (u0 & w3 & Hdb & H).
  unfold debug, emit in Hdb. inversion Hdb; subst u0 w3; clear Hdb.
  apply bind_ok in H. destruct H as (u1 & w4 & Hncx & Hopf).
  pose proof (render_template_frame _ _ _ _ _ _ _ _ Hncx) as (Hc1 & _ & _).
  simpl in Hc1.
  apply (render_template_keeps_file _ _ _ _ _ _ _ _ _ Hopf).
  - now rewrite Hc1.
  - now apply (render_template_keeps_file _ _ _ _ _ _ _ _ _ Hncx).
Qed.

(** X15. [finalize] packs the build as it stands.  Under the conditions
    of X11, every regular file that lies under the base directory when
    [finalize] is called, the two documents of [index] apart, is a member
    of the archive under its path from the base directory, with its
    content, stored when its name is [mimetype] and deflated otherwise. *)
Theorem finalize_packs_build w fpath0 fpath w' d comps c :
  finalize fpath0 w = (Ok fpath, w') ->
  dirs (self w) = Some d ->
  basedir d <> ""%string ->
  oebps d = PyStr.join (basedir d) "OEBPS" ->
  FS.wf (fs w) = true ->
  FS.apart (FS.resolve (cwd w) (snd (compress_paths (title (epub (self w))) fpath0)))
           (FS.resolve (cwd w) (basedir d)) = true ->
  comps <> [] ->
  comps <> ["OEBPS"; "book.ncx"]%string ->
  comps <> ["OEBPS"; "book.opf"]%string ->
  FS.lookup (FS.resolve (cwd w) (basedir d) ++ comps) (fs w) = Some (File c) ->
  exists ms,
    archive_at (FS.resolve (cwd w) fpath) (fs w') = Some ms
    /\ In (String.concat "/" comps, method_for (last comps ""%string), c) ms.
Proof.
  intros H Hd Hb Ho Hwf Hap Hne Hn1 Hn2 Hl. unfold finalize in H.
  apply bind_ok in H. destruct H as (u & w1 & Hi & Hc).
  destruct (index_frame E _ _ _ Hi) as (Hs1 & Hc1 & Hwf1).
  specialize (Hwf1 Hwf).
  assert (Hob : oebps d <> ""%string).
  { rewrite Ho. now apply PathFacts.join_nonempty. }
  set (B := FS.resolve (cwd w) (basedir d)) in *.
  assert (Hl1 : FS.lookup (B ++ comps) (fs w1) = Some (File c)).
  { apply (index_keeps_file _ _ _ d _ _ Hi Hd); [| |exact Hl].
    - rewrite (PathFacts.resolve_join (cwd w) (oebps d) "book.ncx" eq_refl Hob).
      rewrite Ho.
      rewrite (PathFacts.resolve_join (cwd w) (basedir d) "OEBPS" eq_refl Hb).
      fold B. rewrite <- app_assoc. intros Heq.
      apply app_inv_head in Heq. now apply Hn1.
    - rewrite (PathFacts.resolve_join (cwd w) (oebps d) "book.opf" eq_refl Hob).
      rewrite Ho.
      rewrite (PathFacts.resolve_join (cwd w) (basedir d) "OEBPS" eq_refl Hb).
      fold B. rewrite <- app_assoc. intros Heq.
      apply app_inv_head in Heq. now apply Hn2. }
  destruct (FS.lookup B (fs w1)) as [N|] eqn:HN.
  2:{ rewrite FSFacts.lookup_app, HN in Hl1. discriminate. }
  assert (HwN : FS.wf N = true) by exact (WfFacts.wf_lookup _ _ _ Hwf1 HN).
  rewrite FSFacts.lookup_app, HN in Hl1. simpl lookup_opt in Hl1.
  pose proof (compress_archive E w1 fpath0 fpath w' d N Hc) as Ha.
  rewrite Hs1, Hc1 in Ha. fold B in Ha.
  specialize (Ha Hd Hb HN HwN Hap).
  exists (members_from [] N). split; [exact Ha|].
  apply (MemberFacts.members_from_spec N [] HwN).
  exists comps. split; [assumption|]. split; [exact Hl1|]. split; reflexivity.
Qed.

End PackBuild.

(* --------------------------------------------------------------------- *)
(** *** The archive and the [with] statement                             *)
(* --------------------------------------------------------------------- *)

Section Scope.

Context (E : Env).
Implicit Types w : World E.

Lemma finalize_keeps_cwd p : keeps (@cwd E) (finalize p).
Proof. unfold finalize, index, compress. frame. Qed.


End Scope.

(* --------------------------------------------------------------------- *)
(** *** The regular files directly in the base directory                  *)
(* --------------------------------------------------------------------- *)

Module MarkerFacts.

Import FS.

(** A directory put among the entries, where no regular file stood,
    changes no regular file. *)
Lemma files_of_set_dir k v : forall es,
  is_dir v = true ->
  (forall c, assoc k es <> Some (File c)) ->
  files_of (set_entry k v es) = files_of es.
Proof.
  unfold files_of.
  induction es as [|[k' v'] es IH]; intros Hv Hk; simpl.
  - now rewrite Hv.
  - simpl in Hk. destruct (String.eqb k k') eqn:Ek; simpl.
    + rewrite Hv. destruct v' as [c|x]; [now elim (Hk c)|reflexivity].
    + destruct (negb (is_dir v')); simpl; [f_equal|]; now apply IH.
Qed.

(** A regular file put among entries that are all directories is the
    only one. *)
Lemma files_of_set_file k c : forall es,
  files_of es = [] ->
  (forall x, assoc k es <> Some (Dir x)) ->
  files_of (set_entry k (File c) es) = [k].
Proof.
  unfold files_of.
  induction es as [|[k' v'] es IH]; intros He Hk; simpl; [reflexivity|].
  simpl in He, Hk. destruct v' as [c'|x]; simpl in He; [discriminate|].
  destruct (String.eqb k k') eqn:Ek; [now elim (Hk x)|].
  simpl. now apply IH.
Qed.

(** A change two levels or more below a directory leaves its regular
    files. *)
Lemma alter_files_below k c r f : forall B o o',
  alter (B ++ k :: c :: r) f o = inr o' ->
  files_in (lookup_opt B o') = files_in (lookup_opt B o).
Proof.
  induction B as [|b B IH]; intros o o' H.
  - simpl app in H. destruct o as [[?|es]|]; try discriminate.
    change (alter (k :: c :: r) f (Some (Dir es)))
      with (match alter (c :: r) f (assoc k es) with
            | inl e => inl e
            | inr (Some v) => inr (Some (Dir (set_entry k v es)))
            | inr None => inr (Some (Dir (del_entry k es)))
            end) in H.
    destruct (alter (c :: r) f (assoc k es)) as [e|r0] eqn:Ea; [discriminate|].
    assert (Hk : exists es2 es3, assoc k es = Some (Dir es2)
                                 /\ r0 = Some (Dir es3)).
    { simpl in Ea. destruct (assoc k es) as [[?|es2]|]; try discriminate.
      destruct (alter r f (assoc c es2)) as [e|[v|]]; inversion Ea; eauto. }
    destruct Hk as (es2 & es3 & Hk & ->). inversion H; subst o'.
    simpl. apply files_of_set_dir; [reflexivity|].
    intros c0. rewrite Hk. discriminate.
  - change ((b :: B) ++ k :: c :: r) with (b :: (B ++ k :: c :: r)) in H.
    destruct o as [[?|es]|]; try discriminate.
    change (alter (b :: B ++ k :: c :: r) f (Some (Dir es)))
      with (match alter (B ++ k :: c :: r) f (assoc b es) with
            | inl e => inl e
            | inr (Some v) => inr (Some (Dir (set_entry b v es)))
            | inr None => inr (Some (Dir (del_entry b es)))
            end) in H.
    destruct (alter (B ++ k :: c :: r) f (assoc b es)) as [e|r0] eqn:Ea;
      [discriminate|].
    apply IH in Ea.
    destruct r0 as [v|]; inversion H; subst o';
      rewrite !FSFacts.lookup_opt_cons.
    + now rewrite FSFacts.assoc_set_entry_eq.
    + now rewrite FSFacts.assoc_del_entry_eq.
Qed.

(** A regular file written directly into a directory without regular
    files is the only one there. *)
Lemma alter_files_new k c0 : forall B o o',
  alter (B ++ [k]) (fun o => match o with
                             | Some (Dir _) => inl EISDIR
                             | _ => inr (Some (File c0))
                             end) o = inr o' ->
  files_in (lookup_opt B o) = [] ->
  files_in (lookup_opt B o') = [k].
Proof.
  induction B as [|b B IH]; intros o o' H He.
  - simpl in H. destruct o as [[?|es]|]; try discriminate.
    simpl in He.
    destruct (assoc k es) as [[?|x]|] eqn:Ek; try discriminate;
      inversion H; subst o'; simpl; apply files_of_set_file; try assumption;
      intros y; rewrite Ek; discriminate.
  - change ((b :: B) ++ [k]) with (b :: (B ++ [k])) in H.
    destruct o as [[?|es]|]; try discriminate.
    cbn [alter] in H.
    destruct (alter (B ++ [k]) _ (assoc b es)) as [e|r0] eqn:Ea;
      [discriminate|].
    rewrite FSFacts.lookup_opt_cons in He.
    apply IH in Ea; [|exact He].
    destruct r0 as [v|]; inversion H; subst o';
      rewrite !FSFacts.lookup_opt_cons.
    + now rewrite FSFacts.assoc_set_entry_eq.
    + now rewrite FSFacts.assoc_del_entry_eq.
Qed.

Lemma write_files_new B k c root root' :
  write (B ++ [k]) c root = inr root' ->
  files_at B root = [] -> files_at B root' = [k].
Proof.
  unfold write, files_at. intros H He.
  apply FSFacts.alter_root_inv in H. destruct H as (o' & Ha & ->).
  pose proof (alter_files_new k c B (Some root) o' Ha He) as K.
  destruct o' as [r|]; [exact K|].
  destruct B; simpl in K; discriminate.
Qed.

(** A change below a directory finds that directory. *)
Lemma alter_on_dir c r f : forall p o o',
  alter (p ++ c :: r) f o = inr o' ->
  exists es, lookup_opt p o = Some (Dir es).
Proof.
  induction p as [|b p IH]; intros o o' H.
  - simpl in H. destruct o as [[?|es]|]; try discriminate.
    now exists es.
  - change ((b :: p) ++ c :: r) with (b :: (p ++ c :: r)) in H.
    destruct o as [[?|es]|]; try discriminate.
    cbn [alter] in H.
    destruct (alter (p ++ c :: r) f (assoc b es)) as [e|r0] eqn:Ea;
      [discriminate|].
    rewrite FSFacts.lookup_opt_cons. exact (IH _ _ Ea).
Qed.

(** A regular file written two levels or more below a directory leaves
    its regular files. *)
Lemma write_files_deep B k c r c0 root root' :
  write (B ++ k :: c :: r) c0 root = inr root' ->
  files_at B root' = files_at B root.
Proof.
  unfold write, files_at. intros H.
  apply FSFacts.alter_root_inv in H. destruct H as (o' & Ha & ->).
  pose proof (alter_files_below k c r _ B (Some root) o' Ha) as K.
  assert (Hp : exists p, B ++ k :: c :: r = k :: p \/ exists b, B ++ k :: c :: r = b :: p).
  { destruct B as [|b B']; simpl; eauto. }
  destruct o' as [r0|]; [exact K|].
  destruct Hp as [p [Hp|[b Hp]]]; rewrite Hp in Ha;
    apply FSFacts.alter_nonempty_some in Ha; destruct Ha; discriminate.
Qed.

(** A regular file written below a sub-directory that is a directory
    afterwards leaves the regular files of the directory, and found
    the sub-directory. *)
Lemma write_files_under B k y c0 root root' es' :
  write ((B ++ [k]) ++ y) c0 root = inr root' ->
  lookup (B ++ [k]) root' = Some (Dir es') ->
  files_at B root' = files_at B root
  /\ exists es, lookup (B ++ [k]) root = Some (Dir es).
Proof.
  intros H Hd. pose proof (FSFacts.write_lookup_same _ _ _ _ H) as Hs.
  destruct y as [|c r].
  - rewrite app_nil_r in Hs. rewrite Hs in Hd. discriminate.
  - split.
    + rewrite <- app_assoc in H. exact (write_files_deep _ _ _ _ _ _ _ H).
    + unfold write in H. apply FSFacts.alter_root_inv in H.
      destruct H as (o' & Ha & _).
      exact (alter_on_dir c r _ (B ++ [k]) (Some root) o' Ha).
Qed.

(** [makedirs] gives a directory. *)
Lemma makedirs_from_dir p : forall o n',
  makedirs_from p o = inr n' -> is_dir n' = true.
Proof.
  destruct p as [|c p]; intros o n' H; destruct o as [[?|es]|];
    simpl in H; try discriminate.
  - now inversion H.
  - destruct (makedirs_from p (assoc c es)); inversion H; reflexivity.
  - destruct (makedirs_from p None); inversion H; reflexivity.
Qed.

(** Directories made below a directory leave its regular files. *)
Lemma makedirs_from_files k r : forall B o n',
  makedirs_from (B ++ k :: r) o = inr n' ->
  files_in (lookup_opt B (Some n')) = files_in (lookup_opt B o).
Proof.
  induction B as [|b B IH]; intros o n' H.
  - simpl app in H. destruct o as [[?|es]|]; simpl in H; try discriminate.
    + destruct (makedirs_from r (assoc k es)) as [e|v] eqn:Ev; [discriminate|].
      inversion H; subst n'. simpl.
      apply files_of_set_dir; [exact (makedirs_from_dir _ _ _ Ev)|].
      intros c0 Hk. rewrite Hk in Ev. destruct r; discriminate.
    + destruct (makedirs_from r None) as [e|v] eqn:Ev; [discriminate|].
      inversion H; subst n'. simpl. unfold files_of. simpl.
      now rewrite (makedirs_from_dir _ _ _ Ev).
  - change ((b :: B) ++ k :: r) with (b :: (B ++ k :: r)) in H.
    destruct o as [[?|es]|]; simpl in H; try discriminate.
    + destruct (makedirs_from (B ++ k :: r) (assoc b es)) as [e|v] eqn:Ev;
        [discriminate|].
      inversion H; subst n'. apply IH in Ev.
      rewrite !FSFacts.lookup_opt_cons.
      now rewrite FSFacts.assoc_set_entry_eq.
    + destruct (makedirs_from (B ++ k :: r) None) as [e|v] eqn:Ev;
        [discriminate|].
      inversion H; subst n'. apply IH in Ev.
      rewrite FSFacts.lookup_opt_cons. simpl assoc.
      rewrite String.eqb_refl. rewrite Ev.
      now rewrite !FSFacts.lookup_opt_none.
Qed.

Lemma makedirs_files B k r root root' :
  makedirs (B ++ k :: r) root = inr root' ->
  files_at B root' = files_at B root.
Proof. apply makedirs_from_files. Qed.

(** A directory made by [mkdir] is empty. *)
Lemma mkdir_files p root root' :
  mkdir p root = inr root' -> files_at p root' = [].
Proof.
  unfold mkdir, files_at. intros H.
  apply FSFacts.alter_root_inv in H. destruct H as (o' & Ha & ->).
  apply FSFacts.alter_lookup_same in Ha.
  destruct (lookup_opt p (Some root)); [discriminate|].
  inversion Ha as [K]. destruct o' as [r|]; simpl in K.
  - now rewrite <- K.
  - destruct p; simpl in *; [discriminate|reflexivity].
Qed.

End MarkerFacts.

Section Marker.

Context (E : Env).
Implicit Types w : World E.

(** [epub_dirs] puts no regular file into a base directory it made, or
    found without one. *)
Lemma epub_dirs_files b0 w d w' :
  epub_dirs b0 w = (Ok d, w') ->
  (forall b, truthy b0 = Some b ->
             files_at (FS.resolve (cwd w) b) (fs w) = []) ->
  files_at (FS.resolve (cwd w) (basedir d)) (fs w') = [].
Proof.
  unfold epub_dirs. intros H Hfree.
  apply bind_ok in H. destruct H as (b & w0 & Hb & H).
  pose proof (epub_dirs_base E b0 w b w0 Hb) as (Hne & Hc0 & _).
  assert (H0 : files_at (FS.resolve (cwd w) b) (fs w0) = []).
  { destruct (truthy b0) as [b'|].
    - inversion Hb; subst. now apply Hfree.
    - unfold mkdtemp in Hb.
      apply bind_ok in Hb. destruct Hb as (u & w2 & Hm & Hb).
      apply fs_update_ok in Hm. destruct Hm as (_ & t & Hm & ->).
      inversion Hb; subst. simpl in *.
      exact (MarkerFacts.mkdir_files _ _ _ Hm). }
  cbv zeta in H.
  apply bind_ok in H. destruct H as (u1 & w1 & H1 & H).
  apply makedirs_ok in H1. destruct H1 as (_ & Hc1 & _ & Hm1).
  apply bind_ok in H. destruct H as (u2 & w2 & H2 & H).
  apply makedirs_ok in H2. destruct H2 as (_ & Hc2 & _ & Hm2).
  apply bind_ok in H. destruct H as (u3 & w3 & H3 & H).
  apply makedirs_ok in H3. destruct H3 as (_ & Hc3 & _ & Hm3).
  apply bind_ok in H. destruct H as (u4 & w4 & H4 & H).
  apply makedirs_ok in H4. destruct H4 as (_ & Hc4 & _ & Hm4).
  inversion H; subst d w'; clear H. simpl.
  rewrite Hc3 in Hm4. rewrite Hc2 in Hm3, Hm4. rewrite Hc1 in Hm2, Hm3, Hm4.
  rewrite Hc0 in Hm1, Hm2, Hm3, Hm4.
  assert (Ho : PyStr.join b "OEBPS" <> ""%string)
    by now apply PathFacts.join_nonempty.
  rewrite PathFacts.resolve_join in Hm1, Hm2, Hm3, Hm4
    by (reflexivity || assumption).
  rewrite (PathFacts.resolve_join _ b) in Hm3, Hm4
    by (reflexivity || assumption).
  rewrite <- app_assoc in Hm3, Hm4. simpl app in Hm3, Hm4.
  rewrite (MarkerFacts.makedirs_files _ _ _ _ _ Hm4).
  rewrite (MarkerFacts.makedirs_files _ _ _ _ _ Hm3).
  rewrite (MarkerFacts.makedirs_files _ _ _ _ _ Hm2).
  rewrite (MarkerFacts.makedirs_files _ _ _ _ _ Hm1).
  exact H0.
Qed.

(** The stylesheets of the loop leave the regular files of the base
    directory. *)
Lemma css_loop_files into B k s : forall l w u w' es',
  for_each l (fun path => copy_file path into) w = (Ok u, w') ->
  into <> ""%string ->
  FS.resolve (cwd w) into = (B ++ [k]) ++ [s] ->
  FS.lookup (B ++ [k]) (fs w') = Some (Dir es') ->
  files_at B (fs w') = files_at B (fs w)
  /\ exists es, FS.lookup (B ++ [k]) (fs w) = Some (Dir es).
Proof.
  induction l as [|p l IH]; intros w u w' es' H Hne HR Hd.
  - inversion H; subst. eauto.
  - cbn [for_each] in H.
    apply bind_ok in H. destruct H as (u1 & w1 & Hc & H).
    apply copy_file_effect in Hc. destruct Hc as (Hs1 & Hc1 & c & _ & Hw).
    rewrite <- Hc1 in HR.
    destruct (IH _ _ _ _ H Hne HR Hd) as (Hf & es1 & Hd1).
    rewrite Hc1 in HR.
    destruct (StaticFacts.resolve_join_under (cwd w) into (PyStr.basename p)
                (B ++ [k]) s (StaticFacts.basename_no_slash p) Hne HR)
      as [y Hy].
    rewrite Hy in Hw.
    destruct (MarkerFacts.write_files_under _ _ _ _ _ _ _ Hw Hd1)
      as (Hf1 & Hd0).
    split; [congruence|exact Hd0].
Qed.

(** X17. A first [begin] that returned leaves the marker [mimetype] as
    the only regular file directly in the base directory, when the
    base directory is a new temporary one or was asked for where no
    regular file lay directly. *)
Theorem begin_leaves_marker_alone w d w' :
  begin w = (Ok d, w') ->
  dirs (self w) = None ->
  (forall b, truthy (epub_dir (epub (self w))) = Some b ->
             files_at (FS.resolve (cwd w) b) (fs w) = []) ->
  files_at (FS.resolve (cwd w) (basedir d)) (fs w') = ["mimetype"%string].
Proof.
  intros H Hnone Hfree.
  destruct (begin_writes E w d w' H Hnone)
    as (wb & wc & w1 & w2 & w3 & w4 & w5 & t7 & t & cm & cc & c3 & c4 & u6
        & entries & cover & Hfb & Hcb & Heb & Hdirs & Hsrc1 & Hw1 & Hsrc2
        & Hw2 & Hw3 & Hw4 & Hcw4 & K5 & Els & Hw7 & Htw & Hrt & Hw9).
  pose proof (epub_dirs_layout E _ _ _ _ Hdirs)
    as (Hne & Ho & _ & _ & Hst & _ & _).
  assert (F0 : files_at (FS.resolve (cwd w) (basedir d)) (fs wc) = []).
  { rewrite <- Hcb. apply (epub_dirs_files _ _ _ _ Hdirs).
    rewrite Heb, Hcb, Hfb. exact Hfree. }
  set (B := FS.resolve (cwd w) (basedir d)) in *.
  assert (Hob : oebps d <> ""%string)
    by (rewrite Ho; now apply PathFacts.join_nonempty).
  assert (Hsb : styles d <> ""%string)
    by (rewrite Hst; now apply PathFacts.join_nonempty).
  assert (ES : FS.resolve (cwd w4) (styles d)
               = (B ++ ["OEBPS"%string]) ++ ["styles"%string]).
  { rewrite Hcw4, Hst, Ho.
    rewrite !PathFacts.resolve_join
      by (reflexivity || assumption || (rewrite <- Ho; assumption)).
    reflexivity. }
  destruct (MakedirsFacts.lookup_parent _ _ _ _ Els) as [eo Ho5].
  destruct (css_loop_files _ _ _ _ _ _ _ _ _ K5 Hsb ES Ho5) as (F5 & _).
  pose proof (MarkerFacts.write_files_new _ _ _ _ _ Hw1 F0) as F1.
  pose proof (MarkerFacts.write_files_deep B _ _ [] _ _ _ Hw2) as F2.
  pose proof (MarkerFacts.write_files_deep B _ _ _ _ _ _ Hw3) as F3.
  pose proof (MarkerFacts.write_files_deep B _ _ _ _ _ _ Hw4) as F4.
  rewrite <- app_assoc in Hw7, Hw9. simpl app in Hw7, Hw9.
  pose proof (MarkerFacts.write_files_deep B _ _ [] _ _ _ Hw7) as F7.
  pose proof (MarkerFacts.write_files_deep B _ _ [] _ _ _ Hw9) as F9.
  congruence.
Qed.


End Marker.

(* --------------------------------------------------------------------- *)
(** *** The further properties on the concrete installation              *)
(* --------------------------------------------------------------------- *)

Import Demo DemoMore.

Lemma copy_file_all_or_nothing_witness :
  copy_file "/lib/pypub/static/mimetype" "out" (world0 "Test Book" None)
  = (Ok tt, after (copy_file "/lib/pypub/static/mimetype" "out")
                  (world0 "Test Book" None))
  /\ exists c,
       FS.lookup (FS.resolve (cwd (world0 "Test Book" None))
                    "/lib/pypub/static/mimetype")
                 (fs (world0 "Test Book" None)) = Some (File c)
       /\ FS.lookup (FS.resolve (cwd (world0 "Test Book" None))
                       (PyStr.join "out"
                          (PyStr.basename "/lib/pypub/static/mimetype")))
                    (fs (after (copy_file "/lib/pypub/static/mimetype" "out")
                               (world0 "Test Book" None)))
          = Some (File c)
       /\ self (after (copy_file "/lib/pypub/static/mimetype" "out")
                      (world0 "Test Book" None))
          = self (world0 "Test Book" None)
       /\ cwd (after (copy_file "/lib/pypub/static/mimetype" "out")
                     (world0 "Test Book" None))
          = cwd (world0 "Test Book" None).
Proof.
  split; [vm_compute; reflexivity|].
  apply (copy_file_all_or_nothing demo_env "/lib/pypub/static/mimetype" "out"
           (world0 "Test Book" None) (Ok tt)).
  vm_compute; reflexivity.
Defined.

Lemma render_template_writes_or_leaves_witness :
  render_template "page.xhtml.j2" "out" "utf-8"
    (CoverKw (spec_of "Test Book" None) []) (world0 "Test Book" None)
  = (Ok tt, after (render_template "page.xhtml.j2" "out" "utf-8"
                     (CoverKw (spec_of "Test Book" None) []))
                  (world0 "Test Book" None))
  /\ FS.lookup
       (FS.resolve (cwd (world0 "Test Book" None))
          (PyStr.join "out"
             (PyStr.basename (PyStr.rsplit1_first ".j2" "page.xhtml.j2"))))
       (fs (after (render_template "page.xhtml.j2" "out" "utf-8"
                     (CoverKw (spec_of "Test Book" None) []))
                  (world0 "Test Book" None)))
     = Some (File (Data "page.xhtml.j2:cover:Test Book")).
Proof.
  split; [vm_compute; reflexivity|].
  apply (render_template_writes_or_leaves demo_env "page.xhtml.j2" "out"
           "utf-8" (CoverKw (spec_of "Test Book" None) [])
           (world0 "Test Book" None) (Ok tt)
           (after (render_template "page.xhtml.j2" "out" "utf-8"
                     (CoverKw (spec_of "Test Book" None) []))
                  (world0 "Test Book" None))
           ltac:(vm_compute; reflexivity) tt eq_refl).
Defined.

Lemma render_chapter_writes_page_witness :
  render_chapter assign1 chap1 began_world = (Ok tt, rendered_world)
  /\ exists d t content t1,
       dirs (self began_world) = Some d
       /\ template (self began_world) = Some t
       /\ factory_render demo_env chap1 (images d) t
            (ChapterKw (epub (self began_world)) chap1) (fs began_world)
          = (Ok content, t1)
       /\ FS.lookup (FS.resolve (cwd began_world)
                       (PyStr.join (oebps d) (a_link assign1)))
                    (fs rendered_world)
          = Some (File (Data content)).
Proof.
  split; [vm_compute; reflexivity|].
  apply (render_chapter_writes_page demo_env assign1 chap1 began_world tt).
  vm_compute; reflexivity.
Defined.

Lemma epub_dirs_makes_layout_witness :
  epub_dirs (Some "out/book"%string) (world0 "Test Book" None)
  = (Ok out_layout, out_world)
  /\ exists es,
       FS.lookup (FS.resolve (cwd (world0 "Test Book" None))
                    "out/book/OEBPS/styles")
                 (fs out_world) = Some (Dir es).
Proof.
  split; [vm_compute; reflexivity|].
  destruct (epub_dirs_makes_layout demo_env (Some "out/book"%string)
              (world0 "Test Book" None) out_layout out_world)
    as (_ & _ & _ & _ & _ & _ & _ & H).
  - vm_compute; reflexivity.
  - apply (H "out/book/OEBPS/styles"%string).
    right; right; right; right; left. reflexivity.
Defined.

Lemma epub_dirs_twice_fails_witness :
  epub_dirs (Some "out/book"%string) (world0 "Test Book" None)
  = (Ok out_layout, out_world)
  /\ epub_dirs (Some (basedir out_layout)) out_world
     = (Raise (OSError EEXIST (oebps out_layout)), out_world).
Proof.
  split; [vm_compute; reflexivity|].
  apply (epub_dirs_twice_fails demo_env (Some "out/book"%string)
           (world0 "Test Book" None)).
  vm_compute; reflexivity.
Defined.

Lemma epub_dirs_layout_is_new_witness :
  epub_dirs (Some "out/book"%string) (world0 "Test Book" None)
  = (Ok out_layout, out_world)
  /\ FS.lookup (FS.resolve (cwd (world0 "Test Book" None)) (images out_layout))
               (fs out_world) = Some (Dir [])
  /\ FS.lookup (FS.resolve (cwd (world0 "Test Book" None)) (styles out_layout))
               (fs out_world) = Some (Dir [])
  /\ FS.lookup (FS.resolve (cwd (world0 "Test Book" None)) (metainf out_layout))
               (fs out_world) = Some (Dir [])
  /\ forall k n,
       FS.lookup (FS.resolve (cwd (world0 "Test Book" None)) (oebps out_layout)
                  ++ [k]) (fs out_world) = Some n ->
       k = "images"%string \/ k = "styles"%string.
Proof.
  split; [vm_compute; reflexivity|].
  apply (epub_dirs_layout_is_new demo_env (Some "out/book"%string)).
  vm_compute; reflexivity.
Defined.

Lemma index_writes_documents_witness :
  index rendered_world = (Ok tt, built_world)
  /\ self built_world = self rendered_world
  /\ exists d style_entries image_entries t1 c1 t2 c2,
       dirs (self rendered_world) = Some d
       /\ FS.lookup (FS.resolve (cwd rendered_world) (styles d))
                    (fs rendered_world) = Some (Dir style_entries)
       /\ FS.lookup (FS.resolve (cwd rendered_world) (images d))
                    (fs rendered_world) = Some (Dir image_entries)
       /\ get_template demo_env "book.ncx.j2" = Ok t1
       /\ get_template demo_env "book.opf.j2" = Ok t2
       /\ template_render demo_env t1
            (IndexKw (uid (self rendered_world)) (epub (self rendered_world))
               (map fst style_entries) (chapters (self rendered_world))
               (map (fun fname => mkMimeFile fname (get_extension fname))
                    (map fst image_entries))) = Ok c1
       /\ template_render demo_env t2
            (IndexKw (uid (self rendered_world)) (epub (self rendered_world))
               (map fst style_entries) (chapters (self rendered_world))
               (map (fun fname => mkMimeFile fname (get_extension fname))
                    (map fst image_entries))) = Ok c2
       /\ FS.lookup (FS.resolve (cwd rendered_world)
                       (PyStr.join (oebps d) "book.ncx"))
                    (fs built_world) = Some (File (Data c1))
       /\ FS.lookup (FS.resolve (cwd rendered_world)
                       (PyStr.join (oebps d) "book.opf"))
                    (fs built_world) = Some (File (Data c2)).
Proof.
  split; [vm_compute; reflexivity|].
  apply (index_writes_documents demo_env rendered_world tt built_world).
  vm_compute; reflexivity.
Defined.

Lemma compress_without_base_is_empty_witness :
  compress None gone_world
  = (Ok "./Test Book.epub"%string, after (compress None) gone_world)
  /\ dirs (self gone_world) = Some layout0
  /\ FS.lookup (FS.resolve (cwd gone_world) (basedir layout0)) (fs gone_world)
     = None
  /\ archive_at (FS.resolve (cwd gone_world) "./Test Book.epub")
                (fs (after (compress None) gone_world)) = Some [].
Proof.
  split; [vm_compute; reflexivity|]. split; [vm_compute; reflexivity|].
  split; [vm_compute; reflexivity|].
  apply (compress_without_base_is_empty demo_env gone_world None
           "./Test Book.epub" (after (compress None) gone_world) layout0);
    vm_compute; reflexivity.
Defined.

Lemma destination_is_kept_witness :
  "/home/user/out"%string <> ""%string
  /\ PyStr.endswith_slash "/home/user/out" = false
  /\ FS.has_slash "book.epub" = false
  /\ compress_paths "Test Book" (Some "/home/user/out/book.epub"%string)
     = ("/home/user/out/book.epub"%string, "/home/user/out/book.zip"%string).
Proof.
  split; [discriminate|]. split; [reflexivity|]. split; [reflexivity|].
  destruct (destination_is_kept demo_env "Test Book" "/home/user/out"
              "book.epub") as [H _].
  - discriminate.
  - reflexivity.
  - reflexivity.
  - exact H.
Defined.

Lemma finalize_packs_index_witness :
  finalize None rendered_world
  = (Ok "./Test Book.epub"%string, after (finalize None) rendered_world)
  /\ dirs (self rendered_world) = Some layout0
  /\ FS.wf (fs rendered_world) = true
  /\ exists ms c1 c2,
       archive_at (FS.resolve (cwd rendered_world) "./Test Book.epub")
                  (fs (after (finalize None) rendered_world)) = Some ms
       /\ FS.lookup (FS.resolve (cwd rendered_world)
                       (PyStr.join (oebps layout0) "book.ncx"))
                    (fs (snd (index rendered_world))) = Some (File c1)
       /\ FS.lookup (FS.resolve (cwd rendered_world)
                       (PyStr.join (oebps layout0) "book.opf"))
                    (fs (snd (index rendered_world))) = Some (File c2)
       /\ In ("OEBPS/book.ncx"%string, ZIP_DEFLATED, c1) ms
       /\ In ("OEBPS/book.opf"%string, ZIP_DEFLATED, c2) ms.
Proof.
  split; [vm_compute; reflexivity|]. split; [vm_compute; reflexivity|].
  split; [vm_compute; reflexivity|].
  apply (finalize_packs_index demo_env rendered_world None "./Test Book.epub"
           (after (finalize None) rendered_world) layout0);
    try (vm_compute; reflexivity).
  discriminate.
Defined.

Lemma begin_lays_out_skeleton_witness :
  begin (world0 "Test Book" None) = (Ok layout0, began_world)
  /\ dirs (self (world0 "Test Book" None)) = None
  /\ exists cm cc t entries cover,
       FS.lookup (FS.resolve (cwd (world0 "Test Book" None))
                    (PyStr.join (STATIC demo_env) "mimetype"))
                 (fs (world0 "Test Book" None)) = Some (File cm)
       /\ FS.lookup (FS.resolve (cwd (world0 "Test Book" None))
                       (PyStr.join (STATIC demo_env) "container.xml"))
                    (fs (world0 "Test Book" None)) = Some (File cc)
       /\ FS.lookup (FS.resolve (cwd (world0 "Test Book" None))
                       (PyStr.join (basedir layout0) "mimetype"))
                    (fs began_world) = Some (File cm)
       /\ FS.lookup (FS.resolve (cwd (world0 "Test Book" None))
                       (PyStr.join (metainf layout0) "container.xml"))
                    (fs began_world) = Some (File cc)
       /\ template (self began_world) = Some t
       /\ FS.lookup (FS.resolve (cwd (world0 "Test Book" None))
                       (styles layout0))
                    (fs began_world) = Some (Dir entries)
       /\ template_render demo_env t
            (CoverKw (epub (self (world0 "Test Book" None))) (map fst entries))
          = Ok cover
       /\ FS.lookup (FS.resolve (cwd (world0 "Test Book" None))
                       (PyStr.join (oebps layout0) "coverpage.xhtml"))
                    (fs began_world) = Some (File (Data cover)).
Proof.
  split; [vm_compute; reflexivity|]. split; [reflexivity|].
  apply (begin_lays_out_skeleton demo_env (world0 "Test Book" None)).
  - vm_compute; reflexivity.
  - reflexivity.
Defined.

Lemma calls_keep_the_builder_witness :
  run_calls calls_again (world0 "Test Book" None)
  = (fst (run_calls calls_again (world0 "Test Book" None)),
     snd (run_calls calls_again (world0 "Test Book" None)))
  /\ uid (self (snd (run_calls calls_again (world0 "Test Book" None))))
     = uid (self (world0 "Test Book" None))
  /\ exists more,
       chapters (self (snd (run_calls calls_again (world0 "Test Book" None))))
       = chapters (self (world0 "Test Book" None)) ++ more.
Proof.
  split; [apply surjective_pairing|].
  destruct (calls_keep_the_builder demo_env calls_again
              (world0 "Test Book" None)
              (fst (run_calls calls_again (world0 "Test Book" None)))
              (snd (run_calls calls_again (world0 "Test Book" None))))
    as (Hu & _ & _ & _ & Hm & _).
  - apply surjective_pairing.
  - split; [exact Hu|exact Hm].
Defined.

Lemma finalize_packs_build_witness :
  finalize None rendered_world
  = (Ok "./Test Book.epub"%string, after (finalize None) rendered_world)
  /\ FS.lookup (FS.resolve (cwd rendered_world) (basedir layout0)
                ++ ["OEBPS"; "chap1.xhtml"]%string)
               (fs rendered_world)
     = Some (File (Data "page.xhtml.j2:chapter:Chapter One:<p>Hello</p>"))
  /\ exists ms,
       archive_at (FS.resolve (cwd rendered_world) "./Test Book.epub")
                  (fs (after (finalize None) rendered_world)) = Some ms
       /\ In (String.concat "/" ["OEBPS"; "chap1.xhtml"]%string,
              method_for (last ["OEBPS"; "chap1.xhtml"]%string ""%string),
              Data "page.xhtml.j2:chapter:Chapter One:<p>Hello</p>") ms.
Proof.
  split; [vm_compute; reflexivity|]. split; [vm_compute; reflexivity|].
  apply (finalize_packs_build demo_env rendered_world None "./Test Book.epub"
           (after (finalize None) rendered_world) layout0);
    try (vm_compute; reflexivity); discriminate.
Defined.


Lemma begin_leaves_marker_alone_witness :
  begin (world0 "Test Book" (Some "out")) = (Ok asked_layout, asked_world)
  /\ dirs (self (world0 "Test Book" (Some "out"))) = None
  /\ files_at ["home"; "user"; "out"]%string
              (fs (world0 "Test Book" (Some "out"))) = []
  /\ files_at (FS.resolve (cwd (world0 "Test Book" (Some "out")))
                 (basedir asked_layout))
              (fs asked_world) = ["mimetype"%string].
Proof.
  split; [vm_compute; reflexivity|]. split; [reflexivity|].
  split; [vm_compute; reflexivity|].
  apply (begin_leaves_marker_alone demo_env (world0 "Test Book" (Some "out"))).
  - vm_compute; reflexivity.
  - reflexivity.
  - intros b Hb. vm_compute in Hb. inversion Hb. vm_compute; reflexivity.
Defined.

